(** * seth client: transaction options, gas estimations and the Decode orchestrator

    A shallow embedding of [client.go]: the methods of [*Client] that prepare
    transaction options ([NewTXKeyOpts], [getProposedTransactionOptions],
    [configureTransactionOpts]), price a transaction
    ([CalculateGasEstimations]) and wait for, decode and trace a submitted
    transaction ([Decode], [WaitMined]).

    The Go methods mutate the receiver and talk to collaborators (the RPC
    node, the ABI store, the tracer, the file system).  Here the receiver is
    threaded through a small state monad that also records every call to a
    collaborator, and a run-time panic is an outcome of its own. *)

From Stdlib Require Import ZArith List String Ascii Bool Lia DecimalString.
Import ListNotations.

Local Open Scope Z_scope.
Local Open Scope list_scope.

(* ================================================================== *)
(** ** Machine integers *)

Module Int.

Definition two63 : Z := 2 ^ 63.
Definition two64 : Z := 2 ^ 64.

(** Range of a Go [uint64]. *)
Definition is_uint64 (n : Z) : Prop := 0 <= n < two64.

(** [a - b] on [uint64]. *)
Definition sub_uint64 (a b : Z) : Z := (a - b) mod two64.

(** The conversion [int64(n)] of a [uint64]: the same 64 bits read as a
    two's complement number. *)
Definition int64_of_uint64 (n : Z) : Z :=
  (n + two63) mod two64 - two63.

(** [%d] of the [fmt] verbs. *)
Definition itoa (z : Z) : string := NilZero.string_of_int (Z.to_int z).

End Int.

(* ================================================================== *)
(** ** strings.Contains *)

Module Strings.

(** [Contains s substr]: [substr] occurs somewhere within [s]. *)
Fixpoint Contains (s substr : string) : bool :=
  String.prefix substr s ||
  match s with
  | EmptyString => false
  | String _ s' => Contains s' substr
  end.

End Strings.

(* ================================================================== *)
(** ** Go error values

    An [error] is a pointer to an error object: two errors are the same
    error when they are the same object, whatever their text.  The address
    [ptr] of the object is therefore part of the value.  Three shapes occur
    in [client.go]:
    - [errors.New] and [fmt.Errorf] (without [%w]) build a leaf;
    - [errors.Wrap] / [errors.Wrapf] build a node with one cause;
    - the standard library's [errors.Join] builds a node with many. *)

Definition ptr := nat.

#[local] Set Warnings "-register-all".

Inductive error : Type :=
| Fundamental (p : ptr) (msg : string)
| WithMessage (p : ptr) (cause : error) (msg : string)
| JoinError   (p : ptr) (errs : list error).

Module Err.

Definition addr (e : error) : ptr :=
  match e with
  | Fundamental p _ | WithMessage p _ _ | JoinError p _ => p
  end.

(** The method [Error()]. *)
Fixpoint Error (e : error) : string :=
  match e with
  | Fundamental _ msg => msg
  | WithMessage _ cause msg => (msg ++ ": " ++ Error cause)%string
  | JoinError _ errs =>
      (fix join (l : list error) : string :=
         match l with
         | [] => EmptyString
         | [x] => Error x
         | x :: r => (Error x ++ String "010"%char (join r))%string
         end) errs
  end.

(** [errors.Is err target]: [target] is reached from [err] by following
    [Unwrap]; the test at each step is [==] on the two interface values,
    which for these pointer types is identity of the objects.  None of the
    error types above has an [Is] method of its own. *)
Fixpoint Is (err target : error) : bool :=
  Nat.eqb (addr err) (addr target) ||
  match err with
  | Fundamental _ _ => false
  | WithMessage _ cause _ => Is cause target
  | JoinError _ errs =>
      (fix any (l : list error) : bool :=
         match l with
         | [] => false
         | x :: r => Is x target || any r
         end) errs
  end.

(** Every object of [e] lives at an address below [n]. *)
Fixpoint below (n : ptr) (e : error) : bool :=
  Nat.ltb (addr e) n &&
  match e with
  | Fundamental _ _ => true
  | WithMessage _ cause _ => below n cause
  | JoinError _ errs =>
      (fix all (l : list error) : bool :=
         match l with
         | [] => true
         | x :: r => below n x && all r
         end) errs
  end.

End Err.

(* ================================================================== *)
(** ** context.Context *)

Inductive ctxKey : Type :=
| ContextErrorKey.

Inductive Context : Type :=
| context_Background
| context_WithValue (parent : Context) (key : ctxKey) (val : error).

Definition ctxKey_eqb (a b : ctxKey) : bool :=
  match a, b with ContextErrorKey, ContextErrorKey => true end.

(** [ctx.Value(key)]. *)
Fixpoint Value (ctx : Context) (key : ctxKey) : option error :=
  match ctx with
  | context_Background => None
  | context_WithValue parent k v => if ctxKey_eqb k key then Some v else Value parent key
  end.

(* ================================================================== *)
(** ** Data model *)

Definition Address := string.
Definition PrivateKey := string.
Definition Hash := string.

Record NetworkCfg : Type := mkNetwork {
  Name : string;
  GasPriceEstimationEnabled : bool;
  GasPriceEstimationTxPriority : string;
  EIP1559DynamicFees : bool;
  GasPrice : Z;       (* int64 *)
  GasFeeCap : Z;      (* int64 *)
  GasTipCap : Z;      (* int64 *)
  GasLimit : Z        (* uint64 *)
}.

Record Config : Type := mkConfig {
  TracingLevel : string;
  TraceToJson : bool;
  RevertedTransactionsFile : string;
  PendingNonceProtectionEnabled : bool;
  Network : NetworkCfg
}.

Definition TracingLevel_None : string := "NONE".
Definition TracingLevel_Reverted : string := "REVERTED".
Definition TracingLevel_All : string := "ALL".

(** The fields of [Client] that the modelled methods read or write.  The
    collaborators behind the pointers [Client], [Tracer], [ABIFinder] are
    the [World] below. *)
Record Client : Type := mkClient {
  Cfg : Config;
  Addresses : list Address;
  PrivateKeys : list PrivateKey;
  ChainID : Z;
  Errors : list error
}.

Definition pointer (A : Type) : Type := option A.

Record Transaction : Type := mkTx { TxHash : Hash }.

Record Receipt : Type := mkReceipt {
  Status : Z;              (* uint64 *)
  BlockNumber : pointer Z  (* *big.Int *)
}.

(** [DecodedTransaction] is declared outside [client.go]; [Decode] reads its
    [Hash] only. *)
Record DecodedTransaction : Type := mkDecoded {
  Hash_ : Hash;
  Method : string
}.

(** [bind.TransactOpts]; a [*big.Int] field is [None] when nil. *)
Record TransactOpts : Type := mkOpts {
  From : Address;
  Nonce : option Z;
  Value_ : option Z;
  OptGasPrice : option Z;
  OptGasFeeCap : option Z;
  OptGasTipCap : option Z;
  OptGasLimit : Z;
  OptContext : option Context;
  NoSend : bool
}.

(** A Go pointer: [None] is nil. *)

(** [&bind.TransactOpts{}]. *)
Definition emptyOpts : TransactOpts :=
  mkOpts EmptyString None None None None None 0 None false.

Record GasEstimations : Type := mkEst {
  EstGasPrice : option Z;
  EstGasTipCap : option Z;
  EstGasFeeCap : option Z
}.

Record NonceStatus : Type := mkNonceStatus {
  LastNonce : Z;      (* uint64 *)
  PendingNonce : Z    (* uint64 *)
}.

Record GasEstimationRequest : Type := mkReq {
  GasEstimationEnabled : bool;
  FallbackGasPrice : Z;
  FallbackGasFeeCap : Z;
  FallbackGasTipCap : Z;
  Priority : string
}.

(** Field updates of the receiver. *)
Definition set_Errors (errs : list error) (m : Client) : Client :=
  mkClient (Cfg m) (Addresses m) (PrivateKeys m) (ChainID m) errs.

Definition set_Cfg (c : Config) (m : Client) : Client :=
  mkClient c (Addresses m) (PrivateKeys m) (ChainID m) (Errors m).

Definition set_TracingLevel (l : string) (c : Config) : Config :=
  mkConfig l (TraceToJson c) (RevertedTransactionsFile c)
           (PendingNonceProtectionEnabled c) (Network c).

Definition set_Network (n : NetworkCfg) (c : Config) : Config :=
  mkConfig (TracingLevel c) (TraceToJson c) (RevertedTransactionsFile c)
           (PendingNonceProtectionEnabled c) n.

Definition set_GasPriceEstimationEnabled (b : bool) (n : NetworkCfg) : NetworkCfg :=
  mkNetwork (Name n) b (GasPriceEstimationTxPriority n) (EIP1559DynamicFees n)
            (GasPrice n) (GasFeeCap n) (GasTipCap n) (GasLimit n).

Definition set_EIP1559DynamicFees (b : bool) (n : NetworkCfg) : NetworkCfg :=
  mkNetwork (Name n) (GasPriceEstimationEnabled n) (GasPriceEstimationTxPriority n) b
            (GasPrice n) (GasFeeCap n) (GasTipCap n) (GasLimit n).

(* ================================================================== *)
(** ** Collaborators

    Everything [client.go] calls but does not define: the RPC node, the gas
    estimator, the ABI store, the tracer, the JSON files and go-ethereum's
    [bind] package.  A [World] fixes their answers for one call of a
    method; a Go pair [(v, err)] is [inl v] when [err] is nil and [inr err]
    otherwise. *)

Record World : Type := mkWorld {
  (* RPC node *)
  PendingNonceAt : Address -> Z + error;
  NonceAt : Address -> Z + error;
  (** Answers of [TransactionReceipt]: the first poll, then one per tick of
      the ticker that fires before the context is done.  The receipt of an
      answer is a [*types.Receipt], which may be nil. *)
  firstPoll : pointer Receipt + error;
  laterPolls : list (pointer Receipt + error);
  ctxErr : error;
  (* gas estimator *)
  GetSuggestedEIP1559Fees : string -> (Z * Z) + error;
  GetSuggestedLegacyFees : string -> Z + error;
  (* ABI store *)
  DecodeCustomABIErr : error -> string * option error;
  (** Modelled from the spec: [callAndGetRevertReason] is defined outside
      [client.go].  It replays the call of a zero-status receipt and returns
      the best-effort revert reason as an error; a transaction that reverts
      yields a revert error that is not nil (spec, 4.3 step 5 and the
      testable properties). *)
  callAndGetRevertReason : Transaction -> Receipt -> error;
  (** Modelled from the spec: [decodeTransaction] is defined outside
      [client.go].  It always hands back the record decoded so far, with an
      error when the decoding was not complete (spec, 4.3 step 6). *)
  decodeTransaction : Transaction -> Receipt -> DecodedTransaction * option error;
  (* tracer *)
  TraceGethTX : Hash -> option error;
  (* go-ethereum *)
  NewKeyedTransactorWithChainID : PrivateKey -> Z -> TransactOpts + error
}.

(** One entry per call that leaves the client.  The two file helpers
    [CreateOrAppendToJsonArray] and [saveAsJson] only have their outcome
    logged, so the call itself is all that is recorded of them. *)
Inductive Event : Type :=
| RPC_PendingNonceAt (a : Address)
| RPC_NonceAt (a : Address)
| RPC_TransactionReceipt (h : Hash)
| RPC_NetworkID
| RPC_EstimateGas (from to : Address) (value : option Z)
| RPC_SendTransaction (h : Hash)
| RPC_SuggestedEIP1559Fees (priority : string)
| RPC_SuggestedLegacyFees (priority : string)
| ABI_DecodeCustomABIErr
| RPC_CallRevertReason (h : Hash)
| ABI_decodeTransaction (h : Hash)
| Tracer_TraceGethTX (h : Hash)
| File_AppendToJsonArray (file : string) (entry : string)
| File_saveAsJson (dir : string) (name : string).

Definition isTrace (e : Event) : bool :=
  match e with Tracer_TraceGethTX _ => true | _ => false end.

Definition isAppend (e : Event) : bool :=
  match e with File_AppendToJsonArray _ _ => true | _ => false end.

Definition isEIP1559Query (e : Event) : bool :=
  match e with RPC_SuggestedEIP1559Fees _ => true | _ => false end.

(** How many times the tracer was invoked in a run. *)
Definition traced (evs : list Event) : nat := List.length (filter isTrace evs).

(* ================================================================== *)
(** ** The monad of a method call *)

Record St : Type := mkSt {
  client : Client;
  heapNext : ptr;           (* next free address of the allocator *)
  calls : list Event        (* calls made so far, oldest first *)
}.

Inductive Outcome (A : Type) : Type :=
| Ret (a : A)
| Panic (msg : string).
Arguments Ret {A} a.
Arguments Panic {A} msg.

Definition M (A : Type) : Type := St -> Outcome A * St.

Definition ret {A} (a : A) : M A := fun s => (Ret a, s).

Definition bind {A B} (c : M A) (k : A -> M B) : M B :=
  fun s =>
    match c s with
    | (Ret a, s') => k a s'
    | (Panic msg, s') => (Panic msg, s')
    end.

Declare Scope go_scope.
Delimit Scope go_scope with go.
Notation "x <- c ;; k" := (bind c (fun x => k))
  (at level 61, c at next level, right associativity) : go_scope.
Notation "c ;;; k" := (bind c (fun _ => k))
  (at level 61, right associativity) : go_scope.
Local Open Scope go_scope.

Definition panic {A} (msg : string) : M A := fun s => (Panic msg, s).

Definition get : M Client := fun s => (Ret (client s), s).

Definition modify (f : Client -> Client) : M unit :=
  fun s => (Ret tt, mkSt (f (client s)) (heapNext s) (calls s)).

Definition emit (e : Event) : M unit :=
  fun s => (Ret tt, mkSt (client s) (heapNext s) (calls s ++ [e])).

(** A new object on the heap. *)
Definition alloc : M ptr :=
  fun s => (Ret (heapNext s), mkSt (client s) (S (heapNext s)) (calls s)).

(** [l[i]] for a Go [int] index: out of range is a run-time panic. *)
Definition index {A} (l : list A) (i : Z) : M A :=
  if (0 <=? i) && (i <? Z.of_nat (List.length l)) then
    match nth_error l (Z.to_nat i) with
    | Some x => ret x
    | None => panic "index out of range"
    end
  else panic "index out of range".

(** [errors.New(msg)], and [fmt.Errorf] with its text already formatted. *)
Definition errors_New (msg : string) : M error :=
  p <- alloc ;; ret (Fundamental p msg).

(** [errors.Wrap(err, msg)] for [err] not nil. *)
Definition errors_Wrap (err : error) (msg : string) : M error :=
  p <- alloc ;; ret (WithMessage p err msg).

(** [verr.Join(errs...)]: nil when there is nothing to join. *)
Definition verr_Join (errs : list error) : M (option error) :=
  match errs with
  | [] => ret None
  | _ => p <- alloc ;; ret (Some (JoinError p errs))
  end.

(** [m.Errors = append(m.Errors, err)]. *)
Definition appendError (err : error) : M unit :=
  modify (fun m => set_Errors (Errors m ++ [err]) m).

(* ================================================================== *)
(** ** More of the data model: configuration, logs, transfers, calls *)

(** More of what other files of the package and the libraries declare:
    the names of the priorities and of the key file sources, the text of
    the error for a log that cannot be decoded, and the case mappings of
    the package [strings]. *)
Record Package : Type := mkPackage {
  Priority_Degen : string;
  Priority_Fast : string;
  Priority_Standard : string;
  Priority_Slow : string;
  KeyFileSourceFile : string;
  KeyFileSourceBase64EnvVar : string;
  ErrDecodeLog : string;
  strings_ToLower : string -> string;
  strings_ToUpper : string -> string
}.

(** The fields of [Config] and of its network that the record [Config]
    above does not have. *)
Record ConfigRest : Type := mkConfigRest {
  GasPriceEstimationBlocks : Z;     (* uint64 *)
  TransferGasFee : Z;               (* int64 *)
  KeyFileSource : string;
  KeyFilePath : string;
  EphemeralAddrs : pointer Z        (* *int64 *)
}.

(** [types.Log], with a hash as its text in hexadecimal. *)
Record Log : Type := mkLog {
  LogAddress : Address;
  LogTopics : list Hash;
  LogData : string;
  LogBlockNumber : Z;      (* uint64 *)
  LogTxHash : Hash;
  LogTxIndex : Z;          (* uint *)
  LogIndex : Z;            (* uint *)
  LogRemoved : bool
}.

(** [abi.Event], by the fields the decoding reads. *)
Record ABIEvent : Type := mkABIEvent {
  EventID : Hash;
  RawName : string;
  Sig : string
}.

(** The content of a [map[string]interface{}] as the decoders hand it on. *)
Definition EventMap : Type := list (string * string).

(** [DecodedTransactionLog] is declared outside [client.go]: the
    signature and the metadata that [decodeContractLogs] and
    [mergeLogMeta] write, and the event data the decoders fill in. *)
Record DecodedTransactionLog : Type := mkDecodedLog {
  DSignature : string;
  DAddress : Address;
  DTopics : list string;
  DBlockNumber : Z;
  DIndex : Z;
  DTXHash : string;
  DTXIndex : Z;
  DRemoved : bool;
  DEventData : EventMap
}.

(** [&DecodedTransactionLog{}]. *)
Definition emptyDecodedLog : DecodedTransactionLog :=
  mkDecodedLog EmptyString EmptyString [] 0 0 EmptyString 0 false [].

(** The two decoders of another file that [decodeContractLogs] calls:
    [decodeEventFromLog] gives the two maps or an error;
    [decodedLogFromMaps] gives back the record it was handed, filled in,
    as an [interface{}], which is [None] when it is not a
    [*DecodedTransactionLog]. *)
Record LogCodec : Type := mkLogCodec {
  decodeEventFromLog :
    list ABIEvent -> ABIEvent -> list Hash -> string -> (EventMap * EventMap) + error;
  decodedLogFromMaps :
    DecodedTransactionLog -> EventMap -> EventMap -> option DecodedTransactionLog
}.

(** [types.LegacyTx], by the fields [TransferETHFromKey] sets. *)
Record LegacyTx : Type := mkLegacyTx {
  TxNonce : Z;                 (* uint64 *)
  TxTo : Address;
  TxValue : pointer Z;         (* *big.Int *)
  TxGas : Z;                   (* uint64 *)
  TxGasPrice : pointer Z       (* *big.Int *)
}.

(** What a transfer asks of the node, of the nonce manager and of
    go-ethereum: the network ID, an estimate of the gas, the next nonce of
    an address (a [*big.Int]: nil, or the [uint64] the transfer takes of
    it), the signature, the submission, and the reading of an address from
    its text.  The three calls to the node are recorded as they are
    made. *)
Record Wallet : Type := mkWallet {
  NetworkID : Z + error;
  EstimateGas : Address -> Address -> pointer Z -> Z + error;
  NextNonce : Address -> pointer Z;
  SignNewTx : PrivateKey -> Z -> LegacyTx -> Transaction + error;
  SendTransaction : Transaction -> option error;
  HexToAddress : string -> Address
}.

(** [bind.CallOpts], by the fields the client sets. *)
Record CallOpts : Type := mkCallOpts {
  Pending : bool;
  CallFrom : Address;
  CallBlockNumber : pointer Z    (* *big.Int *)
}.

(* ================================================================== *)
(** ** A sample client and a sample node

    Concrete values on which the methods can be run: a client with two keys
    on a network that is not simulated, and a node whose fee methods are
    missing, whose debug API is missing, and which reports two transactions
    pending for every key. *)

Module Sample.

Local Open Scope string_scope.

Definition TimeoutKeyNum : Z := -80001.
Definition ZeroGasSuggestedErr : string := "either base fee or suggested tip is 0".
Definition ErrNoABIMethod : string := "no ABI method found".
Definition IsSimulatedNetwork (c : Config) : bool :=
  String.eqb (Name (Network c)) "Geth" || String.eqb (Name (Network c)) "Anvil".

Definition network (dynamicFees : bool) : NetworkCfg :=
  mkNetwork "Sepolia" true "standard" dynamicFees
            1000000000 30000000000 2000000000 0.

Definition config (level : string) (dynamicFees : bool) : Config :=
  mkConfig level true "reverted_transactions_Sepolia.json" true
           (network dynamicFees).

Definition aClient (level : string) (dynamicFees : bool) : Client :=
  mkClient (config level dynamicFees) ["0xA0"; "0xA1"] ["key0"; "key1"]
           11155111 [].

Definition state (level : string) (dynamicFees : bool) : St :=
  mkSt (aClient level dynamicFees) 100%nat [].

Definition tx : Transaction := mkTx "0xfeed".
Definition receipt : Receipt := mkReceipt 0 (Some 42).
Definition decoded : DecodedTransaction := mkDecoded "0xfeed" "".
Definition built : TransactOpts :=
  mkOpts "0xA1" None None None None None 0 (Some context_Background) false.

Definition notFound : error := Fundamental 1%nat "not found".
Definition deadline : error := Fundamental 2%nat "context deadline exceeded".
Definition noFeeMethod : error :=
  Fundamental 3%nat "the method eth_maxPriorityFeePerGas does not exist".
Definition zeroGas : error :=
  Fundamental 4%nat "either base fee or suggested tip is 0".
Definition reverted : error := Fundamental 5%nat "execution reverted".
Definition noABIMethod : error := Fundamental 6%nat "no ABI method found".
Definition noDebugAPI : error :=
  Fundamental 7%nat "the method debug_traceTransaction does not exist/is not available".
Definition submission : error := Fundamental 8%nat "execution reverted: 0xf4d678b8".

Definition node : World :=
  {| PendingNonceAt := fun _ => inl 7;
     NonceAt := fun _ => inl 5;
     firstPoll := inr notFound;
     laterPolls := [inl (Some receipt)];
     ctxErr := deadline;
     GetSuggestedEIP1559Fees := fun _ => inr noFeeMethod;
     GetSuggestedLegacyFees := fun _ => inr zeroGas;
     DecodeCustomABIErr := fun _ => ("InsufficientBalance", None);
     callAndGetRevertReason := fun _ _ => reverted;
     decodeTransaction := fun _ _ => (decoded, Some noABIMethod);
     TraceGethTX := fun _ => Some noDebugAPI;
     NewKeyedTransactorWithChainID := fun _ _ => inl built |}.

(** The state [WaitMined] leaves behind on this node: two polls. *)
Definition mined (level : string) (dynamicFees : bool) : St :=
  mkSt (aClient level dynamicFees) 100%nat
       [RPC_TransactionReceipt "0xfeed"; RPC_TransactionReceipt "0xfeed"].

(** Nodes that differ from [node] in what they answer. *)
Definition nodeWith (pendingAt nonceAt : Z + error)
           (first : pointer Receipt + error)
           (later : list (pointer Receipt + error))
           (eip1559 : (Z * Z) + error) (legacy : Z + error)
           (trace : option error) : World :=
  {| PendingNonceAt := fun _ => pendingAt;
     NonceAt := fun _ => nonceAt;
     firstPoll := first;
     laterPolls := later;
     ctxErr := deadline;
     GetSuggestedEIP1559Fees := fun _ => eip1559;
     GetSuggestedLegacyFees := fun _ => legacy;
     DecodeCustomABIErr := fun _ => ("InsufficientBalance", None);
     callAndGetRevertReason := fun _ _ => reverted;
     decodeTransaction := fun _ _ => (decoded, None);
     TraceGethTX := fun _ => trace;
     NewKeyedTransactorWithChainID := fun _ _ => inl built |}.

Definition unreachable : error := Fundamental 9%nat "connection refused".
Definition refused : error :=
  Fundamental 10%nat "keyNum is out of range. Expected 0-1. Got: 5".

(** A node that never has the receipt, answers every fee query and traces
    without failure, and reports nothing pending. *)
Definition quietNode : World :=
  nodeWith (inl 5) (inl 5) (inr notFound) [inr notFound; inr notFound]
           (inl (30, 2)) (inl 20) None.

(** The same with the receipt at the first poll. *)
Definition promptNode : World :=
  nodeWith (inl 5) (inl 5) (inl (Some receipt)) [] (inl (30, 2)) (inl 20) None.

(** A receipt without block number, and a node that answers the second
    poll with it. *)
Definition unnumbered : Receipt := mkReceipt 1 None.

Definition carelessNode : World :=
  nodeWith (inl 5) (inl 5) (inr notFound) [inl (Some unnumbered)]
           (inl (30, 2)) (inl 20) None.

(** A node that cannot be reached for nonces and fees. *)
Definition downNode : World :=
  nodeWith (inr unreachable) (inr unreachable) (inr notFound) []
           (inr unreachable) (inr unreachable) None.

(** A client that has refused a key number before. *)
Definition poisonedState : St :=
  mkSt (mkClient (config "ALL" true) ["0xA0"; "0xA1"] ["key0"; "key1"]
                 11155111 [refused]) 100%nat [].

(** The names another file of the package gives, and the case mappings of
    [strings] as they are on ASCII text. *)
Definition lowerAscii (c : ascii) : ascii :=
  let n := nat_of_ascii c in
  if ((65 <=? n) && (n <=? 90))%nat then ascii_of_nat (n + 32) else c.

Definition upperAscii (c : ascii) : ascii :=
  let n := nat_of_ascii c in
  if ((97 <=? n) && (n <=? 122))%nat then ascii_of_nat (n - 32) else c.

Fixpoint mapString (f : ascii -> ascii) (s : string) : string :=
  match s with
  | EmptyString => EmptyString
  | String c s' => String (f c) (mapString f s')
  end.

Definition package : Package :=
  {| Priority_Degen := "degen";
     Priority_Fast := "fast";
     Priority_Standard := "standard";
     Priority_Slow := "slow";
     KeyFileSourceFile := "file";
     KeyFileSourceBase64EnvVar := "base64_env";
     ErrDecodeLog := "failed to decode log";
     strings_ToLower := mapString lowerAscii;
     strings_ToUpper := mapString upperAscii |}.

(** A configuration as a file gives it: no tracing level, the priority in
    capitals, the keys in a file. *)
Definition draft : Config :=
  mkConfig "" true "reverted_transactions_Sepolia.json" true
           (mkNetwork "Sepolia" true "Fast" true
                      1000000000 30000000000 2000000000 0).

Definition blank : Config :=
  mkConfig "" true "reverted_transactions_Sepolia.json" true
           (mkNetwork "Sepolia" true "" true
                      1000000000 30000000000 2000000000 0).

Definition rest : ConfigRest :=
  {| GasPriceEstimationBlocks := 200;
     TransferGasFee := 21000;
     KeyFileSource := "file";
     KeyFilePath := "keyfile.toml";
     EphemeralAddrs := Some 0 |}.

(** What validation makes of [draft] and of [blank]. *)
Definition validated : Config :=
  mkConfig "REVERTED" true "reverted_transactions_Sepolia.json" true
           (mkNetwork "Sepolia" true "fast" true
                      1000000000 30000000000 2000000000 0).

Definition defaulted : Config :=
  mkConfig "REVERTED" true "reverted_transactions_Sepolia.json" true
           (mkNetwork "Sepolia" true "standard" true
                      1000000000 30000000000 2000000000 0).

(** An ABI with two events, logs of both, a log of neither, a log without
    topics, and decoders that fail on a log without data. *)
Definition transferEvent : ABIEvent :=
  mkABIEvent "0xddf252ad" "Transfer" "Transfer(address,address,uint256)".
Definition approvalEvent : ABIEvent :=
  mkABIEvent "0x8c5be1e5" "Approval" "Approval(address,address,uint256)".
Definition abi : list ABIEvent := [transferEvent; approvalEvent].

Definition transferLog : Log :=
  mkLog "0xC0" ["0xddf252ad"; "0xA0"; "0xA1"] "0x64" 42 "0xfeed" 3 7 false.
Definition approvalLog : Log :=
  mkLog "0xC0" ["0x8c5be1e5"; "0xA0"; "0xA1"] "0x64" 42 "0xfeed" 3 8 false.
Definition foreignLog : Log :=
  mkLog "0xC1" ["0xffffffff"] "0x01" 42 "0xfeed" 3 9 false.
Definition bareLog : Log :=
  mkLog "0xC0" [] "0x64" 42 "0xfeed" 3 10 false.
Definition brokenLog : Log :=
  mkLog "0xC0" ["0x8c5be1e5"; "0xA0"; "0xA1"] "" 42 "0xfeed" 3 11 false.

Definition undecodable : error := Fundamental 11%nat "abi: cannot unmarshal".

Definition codec : LogCodec :=
  {| decodeEventFromLog := fun _ ev topics data =>
       if String.eqb data "" then inr undecodable
       else inl ([("value", data)], [("from", nth 1 topics "")]);
     decodedLogFromMaps := fun d eventsMap topicsMap =>
       Some (mkDecodedLog (DSignature d) (DAddress d) (DTopics d)
                          (DBlockNumber d) (DIndex d) (DTXHash d) (DTXIndex d)
                          (DRemoved d) (eventsMap ++ topicsMap)%list) |}.

Definition decodedTransfer : DecodedTransactionLog :=
  mkDecodedLog "Transfer(address,address,uint256)" "0xC0"
               ["0xddf252ad"; "0xA0"; "0xA1"] 42 7 "0xfeed" 3 false
               [("value", "0x64"); ("from", "0xA0")].

Definition decodedApproval : DecodedTransactionLog :=
  mkDecodedLog "Approval(address,address,uint256)" "0xC0"
               ["0x8c5be1e5"; "0xA0"; "0xA1"] 42 8 "0xfeed" 3 false
               [("value", "0x64"); ("from", "0xA0")].

(** A wallet whose node estimates the gas of a transfer, and one whose
    node cannot. *)
Definition signedTransfer : Transaction := mkTx "0xfeed".

Definition noEstimate : error := Fundamental 12%nat "gas required exceeds allowance".

Definition walletWith (estimate : Z + error) : Wallet :=
  {| NetworkID := inl 11155111;
     EstimateGas := fun _ _ _ => estimate;
     NextNonce := fun _ => Some 5;
     SignNewTx := fun _ _ _ => inl signedTransfer;
     SendTransaction := fun _ => None;
     HexToAddress := fun text => text |}.

Definition wallet : Wallet := walletWith (inl 21000).

End Sample.

(* ================================================================== *)
(** ** Functional options of [bind.TransactOpts] *)

Definition TransactOpt : Type := TransactOpts -> TransactOpts.

Definition WithValue (value : option Z) : TransactOpt := fun o =>
  mkOpts (From o) (Nonce o) value (OptGasPrice o) (OptGasFeeCap o)
         (OptGasTipCap o) (OptGasLimit o) (OptContext o) (NoSend o).

Definition WithGasPrice (gasPrice : option Z) : TransactOpt := fun o =>
  mkOpts (From o) (Nonce o) (Value_ o) gasPrice (OptGasFeeCap o)
         (OptGasTipCap o) (OptGasLimit o) (OptContext o) (NoSend o).

Definition WithGasLimit (gasLimit : Z) : TransactOpt := fun o =>
  mkOpts (From o) (Nonce o) (Value_ o) (OptGasPrice o) (OptGasFeeCap o)
         (OptGasTipCap o) gasLimit (OptContext o) (NoSend o).

Definition WithNoSend (noSend : bool) : TransactOpt := fun o =>
  mkOpts (From o) (Nonce o) (Value_ o) (OptGasPrice o) (OptGasFeeCap o)
         (OptGasTipCap o) (OptGasLimit o) (OptContext o) noSend.

Definition WithNonce (nonce : option Z) : TransactOpt := fun o =>
  mkOpts (From o) nonce (Value_ o) (OptGasPrice o) (OptGasFeeCap o)
         (OptGasTipCap o) (OptGasLimit o) (OptContext o) (NoSend o).

Definition WithGasFeeCap (gasFeeCap : option Z) : TransactOpt := fun o =>
  mkOpts (From o) (Nonce o) (Value_ o) (OptGasPrice o) gasFeeCap
         (OptGasTipCap o) (OptGasLimit o) (OptContext o) (NoSend o).

Definition WithGasTipCap (gasTipCap : option Z) : TransactOpt := fun o =>
  mkOpts (From o) (Nonce o) (Value_ o) (OptGasPrice o) (OptGasFeeCap o)
         gasTipCap (OptGasLimit o) (OptContext o) (NoSend o).

(** [opts.Context = ctx]. *)
Definition set_Context (ctx : option Context) (o : TransactOpts) : TransactOpts :=
  mkOpts (From o) (Nonce o) (Value_ o) (OptGasPrice o) (OptGasFeeCap o)
         (OptGasTipCap o) (OptGasLimit o) ctx (NoSend o).

(** The error a prepared [TransactOpts] carries, if any: what
    [DeployContract] looks for before it uses the options. *)
Definition carriedError (o : TransactOpts) : option error :=
  match OptContext o with
  | None => None
  | Some ctx => Value ctx ContextErrorKey
  end.

Definition NL : string := String "010"%char EmptyString.

(* ================================================================== *)
(** ** The methods of [*Client] *)

Section Methods.

(** Three constants and a method of [Config] that [client.go] uses and
    other files of the package declare: the key number [AnySyncedKey]
    returns on a timeout, the text of the error for a suggested gas value
    of zero, the text of the error for a method no ABI has, and the test
    for a simulated network. *)
Variable TimeoutKeyNum : Z.
Variable ZeroGasSuggestedErr : string.
Variable ErrNoABIMethod : string.
Variable IsSimulatedNetwork : Config -> bool.


(* ---------------------------------------------------------------- *)
(** *** Gas estimations *)

Definition NewDefaultGasEstimationRequest : M GasEstimationRequest :=
  m <- get ;;
  let n := Network (Cfg m) in
  ret (mkReq (GasPriceEstimationEnabled n) (GasPrice n) (GasFeeCap n)
             (GasTipCap n) (GasPriceEstimationTxPriority n)).

Definition disableEstimationsIfNeeded (err : error) : M unit :=
  if Strings.Contains (Err.Error err) ZeroGasSuggestedErr then
    modify (fun m =>
      set_Cfg (set_Network
                 (set_GasPriceEstimationEnabled false (Network (Cfg m)))
                 (Cfg m)) m)
  else ret tt.

Definition disableDynamicFees : M unit :=
  modify (fun m =>
    set_Cfg (set_Network (set_EIP1559DynamicFees false (Network (Cfg m)))
                         (Cfg m)) m).

Definition calculateLegacyFees (w : World) (request : GasEstimationRequest)
           (estimations : GasEstimations) : M GasEstimations :=
  emit (RPC_SuggestedLegacyFees (Priority request)) ;;;
  match GetSuggestedLegacyFees w (Priority request) with
  | inr err =>
      disableEstimationsIfNeeded err ;;;
      ret (mkEst (Some (FallbackGasPrice request))
                 (EstGasTipCap estimations) (EstGasFeeCap estimations))
  | inl gasPrice =>
      ret (mkEst (Some gasPrice)
                 (EstGasTipCap estimations) (EstGasFeeCap estimations))
  end.

(** The texts by which a node says that it has no EIP-1559 fee methods. *)
Definition eip1559Unsupported (text : string) : bool :=
  Strings.Contains text "method eth_maxPriorityFeePerGas" ||
  Strings.Contains text "method eth_maxFeePerGas" ||
  Strings.Contains text "method eth_feeHistory" ||
  Strings.Contains text "expected input list for types.txdata".

Definition CalculateGasEstimations (w : World) (request : GasEstimationRequest)
  : M GasEstimations :=
  let estimations := mkEst None None None in
  m <- get ;;
  if IsSimulatedNetwork (Cfg m) || negb (GasEstimationEnabled request) then
    ret (mkEst (Some (FallbackGasPrice request))
               (Some (FallbackGasTipCap request))
               (Some (FallbackGasFeeCap request)))
  else if EIP1559DynamicFees (Network (Cfg m)) then
    emit (RPC_SuggestedEIP1559Fees (Priority request)) ;;;
    match GetSuggestedEIP1559Fees w (Priority request) with
    | inr err =>
        let estimations :=
          mkEst (EstGasPrice estimations)
                (Some (FallbackGasTipCap request))
                (Some (FallbackGasFeeCap request)) in
        disableEstimationsIfNeeded err ;;;
        if eip1559Unsupported (Err.Error err) then
          disableDynamicFees ;;;
          calculateLegacyFees w request estimations
        else ret estimations
    | inl (maxFee, priorityFee) =>
        ret (mkEst (EstGasPrice estimations) (Some priorityFee) (Some maxFee))
    end
  else calculateLegacyFees w request estimations.

(* ---------------------------------------------------------------- *)
(** *** Transaction options *)

Definition getNonceStatus (w : World) (keyNum : Z) : M (NonceStatus + error) :=
  m <- get ;;
  a <- index (Addresses m) keyNum ;;
  emit (RPC_PendingNonceAt a) ;;;
  match PendingNonceAt w a with
  | inr err => ret (inr err)
  | inl pendingNonce =>
      a' <- index (Addresses m) keyNum ;;
      emit (RPC_NonceAt a') ;;;
      match NonceAt w a' with
      | inr err => ret (inr err)
      | inl lastNonce => ret (inl (mkNonceStatus lastNonce pendingNonce))
      end
  end.

Definition pendingNonceText (keyNum pending : Z) : string :=
  (NL ++ "pending nonce for key " ++ Int.itoa keyNum
   ++ " is higher than last nonce, there are " ++ Int.itoa pending
   ++ " pending transactions." ++ NL ++ NL
   ++ "This issue is caused by one of two things:" ++ NL
   ++ "1. You are using the same keyNum in multiple goroutines, which is not supported. Each goroutine should use an unique keyNum." ++ NL
   ++ "2. You have stuck transaction(s). Speed them up by sending replacement transactions with higher gas price before continuing, otherwise future transactions most probably will also get stuck." ++ NL)%string.

Definition poisoned (err : error) : TransactOpts :=
  set_Context (Some (context_WithValue context_Background ContextErrorKey err))
              emptyOpts.

Definition getProposedTransactionOptions (w : World) (keyNum : Z)
  : M (pointer TransactOpts * NonceStatus * GasEstimations) :=
  r <- getNonceStatus w keyNum ;;
  match r with
  | inr err =>
      appendError err ;;;
      ret (Some (poisoned err), mkNonceStatus 0 0, mkEst None None None)
  | inl nonceStatus =>
      m <- get ;;
      ctx <- (if PendingNonceProtectionEnabled (Cfg m) then
                if PendingNonce nonceStatus >? LastNonce nonceStatus then
                  err <- errors_New
                           (pendingNonceText keyNum
                              (Int.sub_uint64 (PendingNonce nonceStatus)
                                              (LastNonce nonceStatus))) ;;
                  appendError err ;;;
                  ret (Some (context_WithValue context_Background
                                               ContextErrorKey err))
                else ret None
              else ret None) ;;
      request <- NewDefaultGasEstimationRequest ;;
      estimations <- CalculateGasEstimations w request ;;
      m <- get ;;
      key <- index (PrivateKeys m) keyNum ;;
      match NewKeyedTransactorWithChainID w key (ChainID m) with
      | inr err =>
          err <- errors_Wrap err
                   ("failed to create transactor for key " ++ Int.itoa keyNum) ;;
          appendError err ;;;
          ret (Some (poisoned err), mkNonceStatus 0 0, mkEst None None None)
      | inl opts =>
          let opts := match ctx with
                      | Some c => set_Context (Some c) opts
                      | None => opts
                      end in
          ret (Some opts, nonceStatus, estimations)
      end
  end.

Definition configureTransactionOpts (opts : pointer TransactOpts) (nonce : Z)
           (estimations : GasEstimations) (o : list TransactOpt)
  : M (pointer TransactOpts) :=
  match opts with
  | None => panic "nil pointer dereference"
  | Some opts =>
      m <- get ;;
      let opts := WithNonce (Some (Int.int64_of_uint64 nonce)) opts in
      let opts := WithGasPrice (EstGasPrice estimations) opts in
      let opts := WithGasLimit (GasLimit (Network (Cfg m))) opts in
      let opts :=
        if EIP1559DynamicFees (Network (Cfg m)) then
          WithGasFeeCap (EstGasFeeCap estimations)
            (WithGasTipCap (EstGasTipCap estimations)
               (WithGasPrice None opts))
        else opts in
      ret (Some (fold_left (fun acc f => f acc) o opts))
  end.

Definition outOfRangeText (len keyNum : Z) : string :=
  let errText :=
    ("keyNum is out of range. Expected " ++ Int.itoa 0 ++ "-"
     ++ Int.itoa (len - 1) ++ ". Got: " ++ Int.itoa keyNum)%string in
  if keyNum =? TimeoutKeyNum then
    (errText ++ " (this is a probably because, we didn't manage to find any synced key before timeout)")%string
  else errText.

Definition NewTXKeyOpts (w : World) (keyNum : Z) (o : list TransactOpt)
  : M (pointer TransactOpts) :=
  m <- get ;;
  let len := Z.of_nat (List.length (Addresses m)) in
  if (keyNum >? len) || (keyNum <? 0) then
    err <- errors_New (outOfRangeText len keyNum) ;;
    appendError err ;;;
    ret (Some (poisoned err))
  else
    (* the debug line before the estimation reads m.Addresses[keyNum] *)
    _ <- index (Addresses m) keyNum ;;
    r <- getProposedTransactionOptions w keyNum ;;
    let '(opts, nonceStatus, estimations) := r in
    configureTransactionOpts opts (PendingNonce nonceStatus) estimations o.

Definition NewTXOpts (w : World) (o : list TransactOpt)
  : M (pointer TransactOpts) :=
  r <- getProposedTransactionOptions w 0 ;;
  let '(opts, nonce, estimations) := r in
  configureTransactionOpts opts (PendingNonce nonce) estimations o.

(* ---------------------------------------------------------------- *)
(** *** Waiting for a receipt *)

(** The loop of [WaitMined]: poll; on an answer without error log the
    block number of the receipt, [receipt.BlockNumber.Int64()], and return
    the receipt; otherwise wait for the ticker or for the end of the
    context, whichever the world lets happen first.  The log line panics
    on a nil receipt and on a receipt whose block number is nil. *)
Fixpoint awaitReceipt (done : error) (h : Hash)
         (later : list (pointer Receipt + error)) (cur : pointer Receipt + error)
  : M (Receipt + error) :=
  emit (RPC_TransactionReceipt h) ;;;
  match cur with
  | inl None => panic "nil pointer dereference"
  | inl (Some receipt) =>
      match BlockNumber receipt with
      | None => panic "nil pointer dereference"
      | Some _ => ret (inl receipt)
      end
  | inr _ =>
      match later with
      | [] => ret (inr done)                          (* <-ctx.Done() *)
      | next :: later' => awaitReceipt done h later' next   (* <-queryTicker.C *)
      end
  end.

Definition WaitMined (w : World) (tx : Transaction) : M (Receipt + error) :=
  awaitReceipt (ctxErr w) (TxHash tx) (laterPolls w) (firstPoll w).

(* ---------------------------------------------------------------- *)
(** *** Decode *)

Definition isSome {A} (o : option A) : bool :=
  match o with Some _ => true | None => false end.

Definition disableTracing : M unit :=
  modify (fun m => set_Cfg (set_TracingLevel TracingLevel_None (Cfg m)) m).

Definition Decode (w : World) (tx : pointer Transaction) (txErr : option error)
  : M (pointer DecodedTransaction * option error) :=
  m <- get ;;
  if 0 <? Z.of_nat (List.length (Errors m)) then
    e <- verr_Join (Errors m) ;; ret (None, e)
  else
    match txErr with
    | Some txErr =>
        emit ABI_DecodeCustomABIErr ;;;
        let '(reason, decodingErr) := DecodeCustomABIErr w txErr in
        match decodingErr with
        | None => e <- errors_Wrap txErr reason ;; ret (None, Some e)
        | Some _ => ret (None, Some txErr)
        end
    | None =>
        match tx with
        | None => ret (None, None)
        | Some tx =>
            r <- WaitMined w tx ;;
            match r with
            | inr err => ret (None, Some err)
            | inl receipt =>
                revertErr <- (if Status receipt =? 0 then
                                emit (RPC_CallRevertReason (TxHash tx)) ;;;
                                ret (Some (callAndGetRevertReason w tx receipt))
                              else ret None) ;;
                emit (ABI_decodeTransaction (TxHash tx)) ;;;
                let '(decoded, decodeErr) := decodeTransaction w tx receipt in
                noABIMethod <- match decodeErr with
                               | None => ret false
                               | Some decodeErr =>
                                   target <- errors_New ErrNoABIMethod ;;
                                   ret (Err.Is decodeErr target)
                               end ;;
                m <- get ;;
                if noABIMethod then
                  (if TraceToJson (Cfg m) then
                     emit (File_AppendToJsonArray
                             (RevertedTransactionsFile (Cfg m)) (TxHash tx))
                   else ret tt) ;;;
                  ret (Some decoded, revertErr)
                else if String.eqb (TracingLevel (Cfg m)) TracingLevel_None then
                  ret (Some decoded, revertErr)
                else if String.eqb (TracingLevel (Cfg m)) TracingLevel_All
                        || (String.eqb (TracingLevel (Cfg m)) TracingLevel_Reverted
                            && isSome revertErr) then
                  emit (Tracer_TraceGethTX (Hash_ decoded)) ;;;
                  match TraceGethTX w (Hash_ decoded) with
                  | Some traceErr =>
                      (if TraceToJson (Cfg m) then
                         emit (File_saveAsJson "traces" (Hash_ decoded))
                       else ret tt) ;;;
                      (if Strings.Contains (Err.Error traceErr)
                            "debug_traceTransaction does not exist"
                       then disableTracing else ret tt) ;;;
                      ret (Some decoded, revertErr)
                  | None =>
                      (if TraceToJson (Cfg m) then
                         emit (File_saveAsJson "traces" (Hash_ decoded))
                       else ret tt) ;;;
                      ret (Some decoded, revertErr)
                  end
                else ret (Some decoded, revertErr)
            end
        end
    end.

(* ---------------------------------------------------------------- *)
(** *** A client's life: any sequence of calls of its methods *)

Inductive Call : Type :=
| CallDecode (w : World) (tx : pointer Transaction) (txErr : option error)
| CallNewTXKeyOpts (w : World) (keyNum : Z) (o : list TransactOpt)
| CallNewTXOpts (w : World) (o : list TransactOpt)
| CallCalculateGasEstimations (w : World) (request : GasEstimationRequest).

Definition call (c : Call) : M unit :=
  match c with
  | CallDecode w tx txErr => _ <- Decode w tx txErr ;; ret tt
  | CallNewTXKeyOpts w keyNum o => _ <- NewTXKeyOpts w keyNum o ;; ret tt
  | CallNewTXOpts w o => _ <- NewTXOpts w o ;; ret tt
  | CallCalculateGasEstimations w request =>
      _ <- CalculateGasEstimations w request ;; ret tt
  end.

(** The state a client is left in by a sequence of calls; a panic ends
    the sequence there. *)
Fixpoint after (cs : list Call) (s : St) : St :=
  match cs with
  | [] => s
  | c :: cs' =>
      match call c s with
      | (Ret _, s') => after cs' s'
      | (Panic _, s') => s'
      end
  end.


(* ---------------------------------------------------------------- *)
(** *** Predicates on runs *)

(** [s'] differs from [s] in the configuration and in the calls made. *)
Definition sameKeys (s s' : St) : Prop :=
  Addresses (client s') = Addresses (client s)
  /\ PrivateKeys (client s') = PrivateKeys (client s)
  /\ ChainID (client s') = ChainID (client s)
  /\ Errors (client s') = Errors (client s)
  /\ heapNext s' = heapNext s.

(** The options carry a gas price next to a tip cap or a fee cap. *)
Definition mixesFeeModels (o : TransactOpts) : bool :=
  isSome (OptGasPrice o)
  && (isSome (OptGasTipCap o) || isSome (OptGasFeeCap o)).

(** The revert error [Decode] holds once the receipt is there. *)
Definition revertError (w : World) (tx : Transaction) (receipt : Receipt)
  : option error :=
  if Status receipt =? 0 then Some (callAndGetRevertReason w tx receipt)
  else None.

(** The error [decodeTransaction] hands back, if any, is an object on the
    heap of [s]: it exists before [Decode] allocates anything. *)
Definition decodeErrAllocated (w : World) (tx : Transaction)
           (receipt : Receipt) (s : St) : Prop :=
  forall e, snd (decodeTransaction w tx receipt) = Some e ->
            Err.below (heapNext s) e = true.

(** The three features a client can switch off for good. *)
Definition tracingOff (c : Config) : Prop :=
  TracingLevel c = TracingLevel_None.

Definition dynamicFeesOff (c : Config) : Prop :=
  EIP1559DynamicFees (Network c) = false.

Definition estimationOff (c : Config) : Prop :=
  GasPriceEstimationEnabled (Network c) = false.

(** [keeps off f s s']: going from [s] to [s'] only adds calls, none of
    them one that [f] watches, and the feature is [off] in [s']. *)
Definition keeps (off : Config -> Prop) (f : Event -> bool) (s s' : St) : Prop :=
  exists evs,
    calls s' = calls s ++ evs
    /\ off (Cfg (client s'))
    /\ filter f evs = [].

(** Started with the feature [off], the computation [c] keeps it off and
    makes no watched call, whether it returns or panics. *)
Definition Keeps (off : Config -> Prop) (f : Event -> bool) {A} (c : M A) : Prop :=
  forall s, off (Cfg (client s)) -> keeps off f s (snd (c s)).

(* ---------------------------------------------------------------- *)
(** *** More predicates on runs *)

(** Going from [s] to [s'] the accumulated errors are only added to. *)
Definition errorsGrow (s s' : St) : Prop :=
  exists more, Errors (client s') = Errors (client s) ++ more.

Definition Grows {A} (c : M A) : Prop :=
  forall s, errorsGrow s (snd (c s)).

(** Whatever [c] does, the calls made before it stay recorded, in front
    of the ones it makes. *)
Definition Records {A} (c : M A) : Prop :=
  forall s, exists more, calls (snd (c s)) = calls s ++ more.

Definition isSave (e : Event) : bool :=
  match e with File_saveAsJson _ _ => true | _ => false end.

(** How many trace files were written in a run. *)
Definition saved (evs : list Event) : nat := List.length (filter isSave evs).

(** The answers of the node to the polls of one wait, in order. *)
Definition polls (w : World) : list (pointer Receipt + error) :=
  firstPoll w :: laterPolls w.

(* ---------------------------------------------------------------- *)
(** *** ValidateConfig *)

Definition set_GasPriceEstimationTxPriority (p : string) (n : NetworkCfg) : NetworkCfg :=
  mkNetwork (Name n) (GasPriceEstimationEnabled n) p (EIP1559DynamicFees n)
            (GasPrice n) (GasFeeCap n) (GasTipCap n) (GasLimit n).

Definition set_priority (p : string) (c : Config) : Config :=
  set_Network (set_GasPriceEstimationTxPriority p (Network c)) c.

Definition priority (c : Config) : string :=
  GasPriceEstimationTxPriority (Network c).

Definition isPriority (pkg : Package) (p : string) : bool :=
  String.eqb p (Priority_Degen pkg) || String.eqb p (Priority_Fast pkg)
  || String.eqb p (Priority_Standard pkg) || String.eqb p (Priority_Slow pkg).

Definition isTracingLevel (l : string) : bool :=
  String.eqb l TracingLevel_None || String.eqb l TracingLevel_Reverted
  || String.eqb l TracingLevel_All.

Definition isKeyFileSource (pkg : Package) (src : string) : bool :=
  String.eqb src EmptyString || String.eqb src (KeyFileSourceFile pkg)
  || String.eqb src (KeyFileSourceBase64EnvVar pkg).

(** [ValidateConfig(cfg)]: the configuration as the call leaves it, and the
    text of the error returned ([None] for nil).  What is written to the
    configuration before an error is found stays written. *)
Definition ValidateConfig (pkg : Package) (c : Config) (k : ConfigRest)
  : Config * option string :=
  let '(c, err) :=
    if GasPriceEstimationEnabled (Network c) then
      if GasPriceEstimationBlocks k =? 0 then
        (c, Some "when automating gas estimation is enabled blocks must be greater than 0. fix it or disable gas estimation"%string)
      else
        let c := set_priority (strings_ToLower pkg (priority c)) c in
        let c := if String.eqb (priority c) EmptyString
                 then set_priority (Priority_Standard pkg) c else c in
        if isPriority pkg (priority c) then (c, None)
        else (c, Some "when automating gas estimation is enabled priority must be fast, standard or slow. fix it or disable gas estimation"%string)
    else (c, None) in
  match err with
  | Some e => (c, Some e)
  | None =>
      let c := if String.eqb (TracingLevel c) EmptyString
               then set_TracingLevel TracingLevel_Reverted c else c in
      let c := set_TracingLevel (strings_ToUpper pkg (TracingLevel c)) c in
      if negb (isTracingLevel (TracingLevel c)) then
        (c, Some "tracing level must be one of: NONE, REVERTED, ALL"%string)
      else if negb (String.eqb (KeyFileSource k) EmptyString)
              && match EphemeralAddrs k with
                 | Some n => negb (n =? 0)
                 | None => false
                 end then
        (c, Some ("KeyFileSource is set to '" ++ KeyFileSource k
                  ++ "' and ephemeral addresses are enabled, please disable ephemeral addresses or the keyfile usage. You cannot use both modes at the same time")%string)
      else if negb (isKeyFileSource pkg (KeyFileSource k)) then
        (c, Some ("KeyFileSource must be either empty (disabled) or one of: '"
                  ++ KeyFileSourceFile pkg ++ "', '"
                  ++ KeyFileSourceBase64EnvVar pkg ++ "'")%string)
      else if String.eqb (KeyFileSource k) (KeyFileSourceFile pkg)
              && String.eqb (KeyFilePath k) EmptyString then
        (c, Some "KeyFileSource is set to 'file' but the path to the key file is not set"%string)
      else (c, None)
  end.

(* ---------------------------------------------------------------- *)
(** *** Decoding the logs of a receipt *)

(** [h.Hex()] and [h.String()] of a hash. *)
Definition Hash_Hex (h : Hash) : string := h.

Definition set_Signature (sig : string) (d : DecodedTransactionLog)
  : DecodedTransactionLog :=
  mkDecodedLog sig (DAddress d) (DTopics d) (DBlockNumber d) (DIndex d)
               (DTXHash d) (DTXIndex d) (DRemoved d) (DEventData d).

Definition mergeLogMeta (pe : DecodedTransactionLog) (l : Log)
  : DecodedTransactionLog :=
  mkDecodedLog (DSignature pe) (LogAddress l) (map Hash_Hex (LogTopics l))
               (LogBlockNumber l) (LogIndex l) (Hash_Hex (LogTxHash l))
               (LogTxIndex l) (LogRemoved l) (DEventData pe).

(** The inner loop of [decodeContractLogs]: the events of the ABI against
    one log.  [events] are the events yet to be visited, in the order in
    which this range goes over the map [a.Events]. *)
Fixpoint decodeLogEvents (codec : LogCodec) (pkg : Package) (a : list ABIEvent)
         (lo : Log) (events : list ABIEvent)
         (eventsParsed : list DecodedTransactionLog)
  : M (list DecodedTransactionLog + error) :=
  match events with
  | [] => ret (inl eventsParsed)
  | evSpec :: events' =>
      topic0 <- index (LogTopics lo) 0 ;;
      if String.eqb (Hash_Hex (EventID evSpec)) (Hash_Hex topic0) then
        match decodeEventFromLog codec a evSpec (LogTopics lo) (LogData lo) with
        | inr err =>
            e <- errors_Wrap err (ErrDecodeLog pkg) ;; ret (inr e)
        | inl (eventsMap, topicsMap) =>
            match decodedLogFromMaps codec emptyDecodedLog eventsMap topicsMap with
            | Some decodedTransactionLog =>
                decodeLogEvents codec pkg a lo events'
                  (eventsParsed
                   ++ [mergeLogMeta
                         (set_Signature (Sig evSpec) decodedTransactionLog) lo])
            | None => decodeLogEvents codec pkg a lo events' eventsParsed
            end
        end
      else decodeLogEvents codec pkg a lo events' eventsParsed
  end.

(** The outer loop.  The events of an ABI are a Go map, and each [range]
    over a map visits its entries in an order of its own: [orders] are the
    orders of the ranges of this run, one for each log (past the last of
    them, the order of [a]). *)
Fixpoint decodeLogs (codec : LogCodec) (pkg : Package) (a : list ABIEvent)
         (logs : list Log) (orders : list (list ABIEvent))
         (eventsParsed : list DecodedTransactionLog)
  : M (list DecodedTransactionLog + error) :=
  match logs with
  | [] => ret (inl eventsParsed)
  | lo :: logs' =>
      r <- decodeLogEvents codec pkg a lo (hd a orders) eventsParsed ;;
      match r with
      | inr e => ret (inr e)
      | inl parsed => decodeLogs codec pkg a logs' (tl orders) parsed
      end
  end.

Definition decodeContractLogs (codec : LogCodec) (pkg : Package)
           (logs : list Log) (a : list ABIEvent) (orders : list (list ABIEvent))
  : M (list DecodedTransactionLog * option error) :=
  r <- decodeLogs codec pkg a logs orders [] ;;
  match r with
  | inl eventsParsed => ret (eventsParsed, None)
  | inr e => ret ([], Some e)
  end.

(** The log is one that some event of the ABI claims by its first topic. *)
Definition claimed (a : list ABIEvent) (lo : Log) : bool :=
  match LogTopics lo with
  | [] => false
  | topic0 :: _ =>
      existsb (fun ev => String.eqb (Hash_Hex (EventID ev)) (Hash_Hex topic0)) a
  end.

(** The decoded log [d] comes from the log [lo] and the event [ev]. *)
Definition decodedFrom (lo : Log) (ev : ABIEvent) (d : DecodedTransactionLog)
  : Prop :=
  hd_error (LogTopics lo) = Some (EventID ev)
  /\ DSignature d = Sig ev
  /\ DAddress d = LogAddress lo
  /\ DTopics d = map Hash_Hex (LogTopics lo)
  /\ DBlockNumber d = LogBlockNumber lo
  /\ DIndex d = LogIndex lo
  /\ DTXHash d = Hash_Hex (LogTxHash lo)
  /\ DTXIndex d = LogTxIndex lo
  /\ DRemoved d = LogRemoved lo.

(* ---------------------------------------------------------------- *)
(** *** Transfers from a key *)

Definition ErrNoKeyLoaded : string := "failed to load private key".

(** [uint64(n)] of an [int64]. *)
Definition uint64_of_int64 (n : Z) : Z := n mod Int.two64.

Definition EstimateGasLimitForFundTransfer (wal : Wallet) (from to : Address)
           (amount : pointer Z) : M (Z + error) :=
  emit (RPC_EstimateGas from to amount) ;;;
  match EstimateGas wal from to amount with
  | inr err =>
      e <- errors_Wrap err "failed to estimate gas for fund transfer" ;;
      ret (inr e)
  | inl gasLimit => ret (inl gasLimit)
  end.

Definition TransferETHFromKey (wal : Wallet) (w : World) (rest : ConfigRest)
           (fromKeyNum : Z) (to : string) (value gasPrice : pointer Z)
  : M (option error) :=
  m <- get ;;
  if (fromKeyNum >? Z.of_nat (List.length (PrivateKeys m)))
     || (fromKeyNum >? Z.of_nat (List.length (Addresses m))) then
    noKey <- errors_New ErrNoKeyLoaded ;;
    e <- errors_Wrap noKey ("requested key: " ++ Int.itoa fromKeyNum) ;;
    ret (Some e)
  else
    let toAddr := HexToAddress wal to in
    emit RPC_NetworkID ;;;
    match NetworkID wal with
    | inr err =>
        e <- errors_Wrap err "failed to get network ID" ;; ret (Some e)
    | inl chainID =>
        from <- index (Addresses m) fromKeyNum ;;
        r <- EstimateGasLimitForFundTransfer wal from (HexToAddress wal to) value ;;
        let gasLimit := match r with
                        | inr _ => TransferGasFee rest
                        | inl gasLimitRaw => Int.int64_of_uint64 gasLimitRaw
                        end in
        let gasPrice := match gasPrice with
                        | None => Some (GasPrice (Network (Cfg m)))
                        | Some p => Some p
                        end in
        from' <- index (Addresses m) fromKeyNum ;;
        nonce <- match NextNonce wal from' with
                 | None => panic "nil pointer dereference"
                 | Some n => ret n
                 end ;;
        let rawTx := mkLegacyTx nonce toAddr value
                                (uint64_of_int64 gasLimit) gasPrice in
        key <- index (PrivateKeys m) fromKeyNum ;;
        match SignNewTx wal key chainID rawTx with
        | inr err => e <- errors_Wrap err "failed to sign tx" ;; ret (Some e)
        | inl signedTx =>
            emit (RPC_SendTransaction (TxHash signedTx)) ;;;
            match SendTransaction wal signedTx with
            | Some err =>
                e <- errors_Wrap err "failed to send transaction" ;;
                ret (Some e)
            | None =>
                r <- WaitMined w signedTx ;;
                match r with
                | inr err => ret (Some err)
                | inl _ => ret None
                end
            end
        end
    end.

(* ---------------------------------------------------------------- *)
(** *** Call options *)

Definition CallOpt : Type := CallOpts -> CallOpts.

Definition WithPending (pending : bool) : CallOpt := fun o =>
  mkCallOpts pending (CallFrom o) (CallBlockNumber o).

Definition WithBlockNumber (bn : Z) : CallOpt := fun o =>
  mkCallOpts (Pending o) (CallFrom o) (Some (Int.int64_of_uint64 bn)).

Definition NewCallKeyOpts (keyNum : Z) (o : list CallOpt) : M (pointer CallOpts) :=
  m <- get ;;
  from <- index (Addresses m) keyNum ;;
  ret (Some (fold_left (fun co f => f co) o (mkCallOpts false from None))).

Definition NewCallOpts (o : list CallOpt) : M (pointer CallOpts) :=
  m <- get ;;
  from <- index (Addresses m) 0 ;;
  ret (Some (fold_left (fun co f => f co) o (mkCallOpts false from None))).

(* ================================================================ *)
(** ** Properties *)

Ltac unfold_m :=
  unfold errors_New, errors_Wrap, appendError, verr_Join, disableTracing,
    disableDynamicFees in *;
  unfold bind, ret, get, modify, emit, alloc, panic in *.

(** **** Strings *)

Lemma Contains_unfold (s substr : string) :
  Strings.Contains s substr =
  String.prefix substr s ||
  match s with
  | EmptyString => false
  | String _ s' => Strings.Contains s' substr
  end.
Proof. destruct s; reflexivity. Qed.

Lemma prefix_append (a b : string) : String.prefix a (a ++ b) = true.
Proof.
  induction a as [| c a IH]; simpl.
  - destruct b; reflexivity.
  - destruct (Ascii.ascii_dec c c) as [_ | n]; [exact IH | now elim n].
Qed.

Lemma Contains_append (a b : string) : Strings.Contains (a ++ b) a = true.
Proof. rewrite Contains_unfold, prefix_append. reflexivity. Qed.

(** **** Counting the calls of a run *)

Lemma traced_app (l l' : list Event) : traced (l ++ l') = (traced l + traced l')%nat.
Proof. unfold traced. now rewrite filter_app, length_app. Qed.

(* ---------------------------------------------------------------- *)
(** *** Gas estimations *)

(** C4.  On a simulated network, or when the request has estimation
    switched off, [CalculateGasEstimations] returns the three fallback
    values of the request and leaves the state as it was: nothing is
    written and no call leaves the client, so no RPC call is made. *)
Theorem CalculateGasEstimations_fallback (w : World)
        (request : GasEstimationRequest) (s : St) :
  IsSimulatedNetwork (Cfg (client s)) = true
  \/ GasEstimationEnabled request = false ->
  CalculateGasEstimations w request s =
    (Ret (mkEst (Some (FallbackGasPrice request))
                (Some (FallbackGasTipCap request))
                (Some (FallbackGasFeeCap request))), s).
Proof.
  intros H. unfold CalculateGasEstimations. unfold_m.
  destruct H as [H | H]; rewrite H; [reflexivity |].
  now rewrite orb_true_r.
Qed.

(* ---------------------------------------------------------------- *)
(** *** Decode: a submission that failed *)

(** C9.  With no accumulated errors and a submission error [txErr]:
    when the ABI store decodes a reason, [Decode] returns no decoded
    transaction and an error that wraps [txErr] and whose text contains
    the reason; when it does not, [Decode] returns no decoded transaction
    and [txErr] itself.  Either way the only call made is the one to the
    ABI store: no receipt is polled, nothing is decoded or traced. *)
Theorem Decode_submission_failed (w : World) (tx : pointer Transaction)
        (txErr : error) (s : St) :
  Errors (client s) = [] ->
  match DecodeCustomABIErr w txErr with
  | (reason, None) =>
      exists wrapped,
        Decode w tx (Some txErr) s =
          (Ret (None, Some wrapped),
           mkSt (client s) (S (heapNext s)) (calls s ++ [ABI_DecodeCustomABIErr]))
        /\ wrapped = WithMessage (heapNext s) txErr reason
        /\ Err.Is wrapped txErr = true
        /\ Strings.Contains (Err.Error wrapped) reason = true
  | (_, Some _) =>
      Decode w tx (Some txErr) s =
        (Ret (None, Some txErr),
         mkSt (client s) (heapNext s) (calls s ++ [ABI_DecodeCustomABIErr]))
  end.
Proof.
  intros HE. unfold Decode. unfold_m. rewrite HE. simpl.
  destruct (DecodeCustomABIErr w txErr) as [reason [e |]]; simpl.
  - reflexivity.
  - eexists. split; [reflexivity |]. split; [reflexivity |]. split.
    + simpl. destruct txErr; simpl; rewrite Nat.eqb_refl;
        now rewrite ?orb_true_r.
    + simpl. apply Contains_append.
Qed.

(* ---------------------------------------------------------------- *)
(** *** Running a bind *)

Lemma bind_Ret {A B} (c : M A) (k : A -> M B) (s s' : St) (a : A) :
  c s = (Ret a, s') -> bind c k s = k a s'.
Proof. intros H. unfold bind. now rewrite H. Qed.

Lemma bind_Panic {A B} (c : M A) (k : A -> M B) (s s' : St) (msg : string) :
  c s = (Panic msg, s') -> bind c k s = (Panic msg, s').
Proof. intros H. unfold bind. now rewrite H. Qed.

Lemma index_Ret {A} (l : list A) (i : Z) (x : A) (s : St) :
  0 <= i -> nth_error l (Z.to_nat i) = Some x -> index l i s = (Ret x, s).
Proof.
  intros Hi Hx. unfold index.
  assert (Hlt : (Z.to_nat i < List.length l)%nat)
    by (apply nth_error_Some; congruence).
  replace (0 <=? i) with true by (symmetry; apply Z.leb_le; lia).
  replace (i <? Z.of_nat (List.length l)) with true
    by (symmetry; apply Z.ltb_lt; lia).
  simpl. now rewrite Hx.
Qed.

Lemma index_Panic {A} (l : list A) (i : Z) (s : St) :
  i < 0 \/ Z.of_nat (List.length l) <= i ->
  index l i s = (Panic "index out of range", s).
Proof.
  intros H. unfold index.
  destruct (0 <=? i) eqn:E1; [| reflexivity].
  destruct (i <? Z.of_nat (List.length l)) eqn:E2; [| reflexivity].
  apply Z.leb_le in E1. apply Z.ltb_lt in E2. lia.
Qed.

(* ---------------------------------------------------------------- *)
(** *** Error identity *)

(** An error never wraps an object that is allocated after it. *)
Lemma Is_fresh (n : ptr) (target : error) :
  Err.addr target = n ->
  forall e, Err.below n e = true -> Err.Is e target = false.
Proof.
  intros Ht. fix IH 1.
  intros [p msg | p cause msg | p errs] H; simpl in H |- *;
    apply andb_true_iff in H; destruct H as [Hlt H];
    apply Nat.ltb_lt in Hlt;
    (replace (Nat.eqb p (Err.addr target)) with false
      by (symmetry; apply Nat.eqb_neq; lia)); simpl.
  - reflexivity.
  - apply IH; exact H.
  - induction errs as [| x r IHr]; [reflexivity |].
    apply andb_true_iff in H. destruct H as [Hx Hr].
    rewrite (IH x Hx). simpl. apply IHr; exact Hr.
Qed.

(* ---------------------------------------------------------------- *)
(** *** configureTransactionOpts *)

Lemma int64_of_uint64_small (n : Z) :
  0 <= n < Int.two63 -> Int.int64_of_uint64 n = n.
Proof.
  unfold Int.int64_of_uint64, Int.two63, Int.two64. intros H.
  rewrite Z.mod_small; lia.
Qed.

(** C10 (as amended).  Without overrides, [configureTransactionOpts]
    returns the options and leaves the client as it is.  With
    [EIP1559DynamicFees] the gas price is nil and tip cap and fee cap are
    those of the estimations; without it the gas price is the one of the
    estimations and tip cap and fee cap are left as they were in the
    options passed in.  So the options returned do not mix the two fee
    models when dynamic fees are enabled, or when the options passed in
    carry no tip cap and no fee cap.  The nonce is the pending nonce passed
    in when that is below [2^63]. *)
Theorem configureTransactionOpts_fee_model (opts : TransactOpts) (nonce : Z)
        (estimations : GasEstimations) (s : St) :
  exists o',
    configureTransactionOpts (Some opts) nonce estimations [] s
      = (Ret (Some o'), s)
    /\ (EIP1559DynamicFees (Network (Cfg (client s))) = true ->
        OptGasPrice o' = None
        /\ OptGasTipCap o' = EstGasTipCap estimations
        /\ OptGasFeeCap o' = EstGasFeeCap estimations)
    /\ (EIP1559DynamicFees (Network (Cfg (client s))) = false ->
        OptGasPrice o' = EstGasPrice estimations
        /\ OptGasTipCap o' = OptGasTipCap opts
        /\ OptGasFeeCap o' = OptGasFeeCap opts)
    /\ (EIP1559DynamicFees (Network (Cfg (client s))) = true
        \/ (OptGasTipCap opts = None /\ OptGasFeeCap opts = None) ->
        mixesFeeModels o' = false)
    /\ (0 <= nonce < Int.two63 -> Nonce o' = Some nonce).
Proof.
  unfold configureTransactionOpts. unfold_m. simpl.
  eexists. split; [reflexivity |].
  destruct (EIP1559DynamicFees (Network (Cfg (client s)))); simpl.
  - split; [intros _; repeat split |].
    split; [discriminate |].
    split; [intros _; reflexivity |].
    intros H. now rewrite int64_of_uint64_small.
  - split; [discriminate |].
    split; [intros _; repeat split |].
    split.
    + intros [H | [Htip Hfee]]; [discriminate |].
      unfold mixesFeeModels. simpl. rewrite Htip, Hfee. apply andb_false_r.
    + intros H. now rewrite int64_of_uint64_small.
Qed.

(* ---------------------------------------------------------------- *)
(** *** What the gas estimation leaves untouched *)

Lemma disableEstimationsIfNeeded_run (err : error) (s : St) :
  exists s', disableEstimationsIfNeeded err s = (Ret tt, s')
    /\ sameKeys s s' /\ calls s' = calls s
    /\ EIP1559DynamicFees (Network (Cfg (client s')))
       = EIP1559DynamicFees (Network (Cfg (client s)))
    /\ TracingLevel (Cfg (client s')) = TracingLevel (Cfg (client s))
    /\ GasPriceEstimationEnabled (Network (Cfg (client s')))
       = GasPriceEstimationEnabled (Network (Cfg (client s)))
         && negb (Strings.Contains (Err.Error err) ZeroGasSuggestedErr).
Proof.
  unfold disableEstimationsIfNeeded, sameKeys. unfold_m.
  destruct (Strings.Contains (Err.Error err) ZeroGasSuggestedErr);
    eexists; (split; [reflexivity |]); simpl;
    rewrite ?andb_false_r, ?andb_true_r; repeat split.
Qed.

Lemma calculateLegacyFees_run (w : World) (request : GasEstimationRequest)
      (estimations : GasEstimations) (s : St) :
  exists est s',
    calculateLegacyFees w request estimations s = (Ret est, s')
    /\ sameKeys s s'
    /\ calls s' = calls s ++ [RPC_SuggestedLegacyFees (Priority request)]
    /\ EIP1559DynamicFees (Network (Cfg (client s')))
       = EIP1559DynamicFees (Network (Cfg (client s)))
    /\ TracingLevel (Cfg (client s')) = TracingLevel (Cfg (client s))
    /\ EstGasTipCap est = EstGasTipCap estimations
    /\ EstGasFeeCap est = EstGasFeeCap estimations
    /\ match GetSuggestedLegacyFees w (Priority request) with
       | inl gasPrice =>
           EstGasPrice est = Some gasPrice
           /\ GasPriceEstimationEnabled (Network (Cfg (client s')))
              = GasPriceEstimationEnabled (Network (Cfg (client s)))
       | inr err =>
           EstGasPrice est = Some (FallbackGasPrice request)
           /\ GasPriceEstimationEnabled (Network (Cfg (client s')))
              = GasPriceEstimationEnabled (Network (Cfg (client s)))
                && negb (Strings.Contains (Err.Error err) ZeroGasSuggestedErr)
       end.
Proof.
  unfold calculateLegacyFees.
  destruct (GetSuggestedLegacyFees w (Priority request)) as [gp | err].
  - unfold_m. unfold sameKeys. simpl. do 2 eexists.
    split; [reflexivity |]. simpl. repeat split.
  - set (s1 := mkSt (client s) (heapNext s)
                    (calls s ++ [RPC_SuggestedLegacyFees (Priority request)])).
    destruct (disableEstimationsIfNeeded_run err s1)
      as (s' & Hrun & (HA & HP & HC & HE & HH) & Hcalls & Heip & Hlvl & Hgpe).
    exists (mkEst (Some (FallbackGasPrice request))
                  (EstGasTipCap estimations) (EstGasFeeCap estimations)), s'.
    split.
    { unfold bind at 1. unfold emit at 1. fold s1.
      unfold bind. rewrite Hrun. reflexivity. }
    unfold sameKeys. simpl in *. repeat split; assumption.
Qed.


(* ---------------------------------------------------------------- *)
(** *** Downgrades are permanent *)

Section Policy.

Variable off : Config -> Prop.
Variable f : Event -> bool.

(** Switching one feature off does not switch another one on. *)
Hypothesis off_estimation : forall c,
  off c -> off (set_Network (set_GasPriceEstimationEnabled false (Network c)) c).
Hypothesis off_dynamic : forall c,
  off c -> off (set_Network (set_EIP1559DynamicFees false (Network c)) c).
Hypothesis off_tracing : forall c,
  off c -> off (set_TracingLevel TracingLevel_None c).
(** Only calls of the tracer and EIP-1559 fee queries are watched, and
    those only by the policy of the feature that guards them. *)
Hypothesis f_narrow : forall e,
  f e = true -> isTrace e = true \/ isEIP1559Query e = true.
Hypothesis trace_guard : forall c,
  off c ->
  (forall h, f (Tracer_TraceGethTX h) = false)
  \/ TracingLevel c = TracingLevel_None.
Hypothesis eip_guard : forall c,
  off c ->
  (forall p, f (RPC_SuggestedEIP1559Fees p) = false)
  \/ EIP1559DynamicFees (Network c) = false.

Lemma benign (e : Event) :
  isTrace e = false -> isEIP1559Query e = false -> f e = false.
Proof.
  intros Ht He. destruct (f e) eqn:E; [| reflexivity].
  destruct (f_narrow e E); congruence.
Qed.

Lemma keeps_refl (s : St) : off (Cfg (client s)) -> keeps off f s s.
Proof. intros H. exists []. rewrite app_nil_r. auto. Qed.

Lemma keeps_trans (s1 s2 s3 : St) :
  keeps off f s1 s2 -> keeps off f s2 s3 -> keeps off f s1 s3.
Proof.
  intros (e1 & C1 & O1 & F1) (e2 & C2 & O2 & F2).
  exists (e1 ++ e2). rewrite C2, C1, app_assoc, filter_app, F1, F2. auto.
Qed.

Lemma keeps_off (s s' : St) : keeps off f s s' -> off (Cfg (client s')).
Proof. intros (evs & _ & H & _). exact H. Qed.

Lemma Keeps_bind {A B} (c : M A) (k : A -> M B) :
  Keeps off f c -> (forall a, Keeps off f (k a)) -> Keeps off f (bind c k).
Proof.
  intros Hc Hk s Hs. unfold bind. specialize (Hc s Hs).
  destruct (c s) as [[a | msg] s1]; simpl in *.
  - eapply keeps_trans; [exact Hc | apply Hk; eapply keeps_off; exact Hc].
  - exact Hc.
Qed.

(** Reading the receiver: the feature is off in what is read. *)
Lemma Keeps_get_bind {B} (k : Client -> M B) :
  (forall m, off (Cfg m) -> Keeps off f (k m)) -> Keeps off f (bind get k).
Proof. intros Hk s Hs. unfold bind, get. apply Hk; exact Hs. Qed.

Lemma Keeps_ret {A} (a : A) : Keeps off f (ret a).
Proof. intros s. apply keeps_refl. Qed.

Lemma Keeps_panic {A} (msg : string) : Keeps off f (@panic A msg).
Proof. intros s. apply keeps_refl. Qed.

Lemma Keeps_alloc : Keeps off f alloc.
Proof. intros s H. exists []. simpl. rewrite app_nil_r. auto. Qed.

Lemma Keeps_appendError (err : error) : Keeps off f (appendError err).
Proof. intros s H. exists []. simpl. rewrite app_nil_r. auto. Qed.

Lemma Keeps_emit (e : Event) : f e = false -> Keeps off f (emit e).
Proof. intros He s H. exists [e]. simpl. rewrite He. auto. Qed.

Lemma Keeps_index {A} (l : list A) (i : Z) : Keeps off f (index l i).
Proof.
  intros s. unfold index.
  destruct ((0 <=? i) && (i <? Z.of_nat (List.length l)));
    [destruct (nth_error l (Z.to_nat i)) |]; apply keeps_refl.
Qed.

Lemma Keeps_errors_New (msg : string) : Keeps off f (errors_New msg).
Proof.
  apply Keeps_bind; [apply Keeps_alloc | intros; apply Keeps_ret].
Qed.

Lemma Keeps_errors_Wrap (err : error) (msg : string) :
  Keeps off f (errors_Wrap err msg).
Proof.
  apply Keeps_bind; [apply Keeps_alloc | intros; apply Keeps_ret].
Qed.

Lemma Keeps_verr_Join (errs : list error) : Keeps off f (verr_Join errs).
Proof.
  destruct errs; simpl; [apply Keeps_ret |].
  apply Keeps_bind; [apply Keeps_alloc | intros; apply Keeps_ret].
Qed.

Lemma Keeps_disableEstimationsIfNeeded (err : error) :
  Keeps off f (disableEstimationsIfNeeded err).
Proof.
  intros s H. unfold disableEstimationsIfNeeded.
  destruct (Strings.Contains (Err.Error err) ZeroGasSuggestedErr);
    [| apply keeps_refl; exact H].
  exists []. simpl. rewrite app_nil_r. auto.
Qed.

Lemma Keeps_disableDynamicFees : Keeps off f disableDynamicFees.
Proof. intros s H. exists []. simpl. rewrite app_nil_r. auto. Qed.

Lemma Keeps_disableTracing : Keeps off f disableTracing.
Proof. intros s H. exists []. simpl. rewrite app_nil_r. auto. Qed.

(** A test that the guard of a switched-off feature decides. *)
Ltac guarded :=
  match goal with
  | H : TracingLevel (Cfg ?m) = TracingLevel_None,
    E : String.eqb (TracingLevel (Cfg ?m)) _ = _ |- _ =>
      rewrite H in E; vm_compute in E; discriminate E
  | H : TracingLevel (Cfg ?m) = TracingLevel_None,
    E : orb (String.eqb (TracingLevel (Cfg ?m)) _) _ = _ |- _ =>
      rewrite H in E; vm_compute in E; discriminate E
  | H : true = false |- _ => discriminate H
  | H : EIP1559DynamicFees (Network (Cfg ?m)) = false,
    E : EIP1559DynamicFees (Network (Cfg ?m)) = true |- _ =>
      congruence
  end.

(** Compositional proofs of [Keeps]: split binds, case on what is
    matched, close the leaves. *)
Ltac keeps_step :=
  first
    [ apply Keeps_ret | apply Keeps_panic
    | apply Keeps_alloc | apply Keeps_appendError | apply Keeps_index
    | apply Keeps_errors_New | apply Keeps_errors_Wrap
    | apply Keeps_verr_Join
    | apply Keeps_disableEstimationsIfNeeded
    | apply Keeps_disableDynamicFees
    | apply Keeps_disableTracing
    | apply Keeps_emit;
      first [ reflexivity | apply benign; reflexivity | solve [auto] ]
    | apply Keeps_get_bind;
      let m := fresh "m" in let Hm := fresh "Hm" in
      intros m Hm;
      destruct (trace_guard _ Hm); destruct (eip_guard _ Hm)
    | apply Keeps_bind; [| intros ]
    | match goal with
      | |- Keeps _ _ (match ?x with _ => _ end) =>
          destruct x eqn:?; try guarded
      | |- Keeps _ _ (let '(_, _) := ?x in _) => destruct x
      end ].

Lemma Keeps_calculateLegacyFees (w : World) (request : GasEstimationRequest)
      (estimations : GasEstimations) :
  Keeps off f (calculateLegacyFees w request estimations).
Proof. unfold calculateLegacyFees. repeat keeps_step. Qed.

Lemma Keeps_CalculateGasEstimations (w : World)
      (request : GasEstimationRequest) :
  Keeps off f (CalculateGasEstimations w request).
Proof.
  unfold CalculateGasEstimations.
  repeat first [apply Keeps_calculateLegacyFees | keeps_step].
Qed.

Lemma Keeps_awaitReceipt (done : error) (h : Hash)
      (later : list (pointer Receipt + error)) (cur : pointer Receipt + error) :
  Keeps off f (awaitReceipt done h later cur).
Proof.
  revert cur. induction later as [| next later IH]; intros cur; simpl.
  - repeat keeps_step.
  - apply Keeps_bind; [repeat keeps_step | intros _].
    destruct cur as [[r |] | e]; [| apply Keeps_panic | apply IH].
    destruct (BlockNumber r); [apply Keeps_ret | apply Keeps_panic].
Qed.

Lemma Keeps_Decode (w : World) (tx : pointer Transaction)
      (txErr : option error) :
  Keeps off f (Decode w tx txErr).
Proof.
  unfold Decode, WaitMined.
  repeat first [apply Keeps_awaitReceipt | keeps_step].
Qed.

Lemma Keeps_getNonceStatus (w : World) (keyNum : Z) :
  Keeps off f (getNonceStatus w keyNum).
Proof. unfold getNonceStatus. repeat keeps_step. Qed.

Lemma Keeps_getProposedTransactionOptions (w : World) (keyNum : Z) :
  Keeps off f (getProposedTransactionOptions w keyNum).
Proof.
  unfold getProposedTransactionOptions, NewDefaultGasEstimationRequest.
  repeat first [ apply Keeps_getNonceStatus
               | apply Keeps_CalculateGasEstimations
               | keeps_step ].
Qed.

Lemma Keeps_configureTransactionOpts (opts : pointer TransactOpts)
      (nonce : Z) (estimations : GasEstimations) (o : list TransactOpt) :
  Keeps off f (configureTransactionOpts opts nonce estimations o).
Proof. unfold configureTransactionOpts. repeat keeps_step. Qed.

Lemma Keeps_NewTXKeyOpts (w : World) (keyNum : Z) (o : list TransactOpt) :
  Keeps off f (NewTXKeyOpts w keyNum o).
Proof.
  unfold NewTXKeyOpts.
  repeat first [ apply Keeps_getProposedTransactionOptions
               | apply Keeps_configureTransactionOpts
               | keeps_step ].
Qed.

Lemma Keeps_NewTXOpts (w : World) (o : list TransactOpt) :
  Keeps off f (NewTXOpts w o).
Proof.
  unfold NewTXOpts.
  repeat first [ apply Keeps_getProposedTransactionOptions
               | apply Keeps_configureTransactionOpts
               | keeps_step ].
Qed.

Lemma Keeps_call (c : Call) : Keeps off f (call c).
Proof.
  destruct c; simpl;
    (apply Keeps_bind; [| intros; apply Keeps_ret]).
  - apply Keeps_Decode.
  - apply Keeps_NewTXKeyOpts.
  - apply Keeps_NewTXOpts.
  - apply Keeps_CalculateGasEstimations.
Qed.

(** Whatever the client is asked to do afterwards, the feature stays
    off and no watched call is made. *)
Lemma keeps_after (cs : list Call) (s : St) :
  off (Cfg (client s)) -> keeps off f s (after cs s).
Proof.
  revert s. induction cs as [| c cs IH]; intros s Hs; simpl.
  - apply keeps_refl; exact Hs.
  - pose proof (Keeps_call c s Hs) as Hc.
    destruct (call c s) as [[[] | msg] s1]; simpl in Hc.
    + eapply keeps_trans; [exact Hc | apply IH; eapply keeps_off; exact Hc].
    + exact Hc.
Qed.

End Policy.

Lemma tracing_stays_off (cs : list Call) (s : St) :
  tracingOff (Cfg (client s)) -> keeps tracingOff isTrace s (after cs s).
Proof.
  apply keeps_after; unfold tracingOff; simpl; auto.
Qed.

Lemma dynamic_fees_stay_off (cs : list Call) (s : St) :
  dynamicFeesOff (Cfg (client s)) ->
  keeps dynamicFeesOff isEIP1559Query s (after cs s).
Proof.
  apply keeps_after; unfold dynamicFeesOff; simpl; auto.
Qed.

Lemma estimation_stays_off (cs : list Call) (s : St) :
  estimationOff (Cfg (client s)) ->
  keeps estimationOff (fun _ => false) s (after cs s).
Proof.
  apply keeps_after; unfold estimationOff; simpl; auto.
  intros e H; discriminate H.
Qed.

(* ---------------------------------------------------------------- *)
(** *** Waiting for the receipt *)

Lemma awaitReceipt_run (done : error) (h : Hash)
      (later : list (pointer Receipt + error)) (cur : pointer Receipt + error)
      (s : St) :
  exists out n,
    awaitReceipt done h later cur s =
      (out, mkSt (client s) (heapNext s)
                 (calls s ++ repeat (RPC_TransactionReceipt h) (S n))).
Proof.
  revert cur s. induction later as [| next later IH]; intros cur s.
  - destruct cur as [[r |] | e]; simpl; unfold_m; simpl.
    + destruct (BlockNumber r); eexists; exists 0%nat; reflexivity.
    + eexists. exists 0%nat. reflexivity.
    + exists (Ret (inr done)), 0%nat. reflexivity.
  - destruct cur as [[r |] | e].
    + simpl. unfold_m. simpl.
      destruct (BlockNumber r); eexists; exists 0%nat; reflexivity.
    + eexists. exists 0%nat. reflexivity.
    + simpl. unfold bind at 1. unfold emit at 1.
      destruct (IH next (mkSt (client s) (heapNext s)
                              (calls s ++ [RPC_TransactionReceipt h])))
        as (res & n & Hrun).
      exists res, (S n). rewrite Hrun. simpl. now rewrite <- app_assoc.
Qed.

Lemma traced_polls (h : Hash) (n : nat) :
  traced (repeat (RPC_TransactionReceipt h) n) = 0%nat.
Proof. induction n; simpl; auto. Qed.

(** However [WaitMined] ends, it leaves the client as it is and only
    polls for the receipt. *)
Lemma WaitMined_run (w : World) (tx : Transaction) (s : St) :
  exists out n,
    WaitMined w tx s =
      (out, mkSt (client s) (heapNext s)
                 (calls s ++ repeat (RPC_TransactionReceipt (TxHash tx)) (S n))).
Proof. apply awaitReceipt_run. Qed.

Lemma traced_cons (e : Event) (l : list Event) :
  traced (e :: l) = ((if isTrace e then 1 else 0) + traced l)%nat.
Proof. unfold traced. simpl. destruct (isTrace e); reflexivity. Qed.

Lemma traced_nil : traced [] = 0%nat.
Proof. reflexivity. Qed.

(** Turn the outcome of a test into the fact it decides. *)
Ltac decided :=
  repeat match goal with
  | H : String.eqb _ _ = true |- _ => apply String.eqb_eq in H
  | H : String.eqb _ _ = false |- _ => apply String.eqb_neq in H
  | H : Z.eqb _ _ = true |- _ => apply Z.eqb_eq in H
  | H : Z.eqb _ _ = false |- _ => apply Z.eqb_neq in H
  end;
  unfold TracingLevel_None, TracingLevel_Reverted, TracingLevel_All in *.

(* ---------------------------------------------------------------- *)
(** *** Decode: a mined transaction *)

(** C2.  For a transaction that is mined (no accumulated errors, no
    submission error, a receipt found), [Decode] returns the decoded
    record together with the revert error, if any, and invokes the
    tracer according to the tracing level alone: never at level NONE,
    exactly once at level REVERTED when the receipt has status zero,
    exactly once at level ALL, and not at all in any other case. *)
Theorem Decode_trace_gating (w : World) (t : Transaction) (r : Receipt)
        (s s1 : St) :
  Errors (client s) = [] ->
  WaitMined w t s = (Ret (inl r), s1) ->
  decodeErrAllocated w t r s ->
  exists s',
    Decode w (Some t) None s =
      (Ret (Some (fst (decodeTransaction w t r)), revertError w t r), s')
    /\ (TracingLevel (Cfg (client s)) = TracingLevel_None ->
        traced (calls s') = traced (calls s))
    /\ (TracingLevel (Cfg (client s)) = TracingLevel_Reverted ->
        Status r = 0 ->
        traced (calls s') = S (traced (calls s)))
    /\ (TracingLevel (Cfg (client s)) = TracingLevel_All ->
        traced (calls s') = S (traced (calls s)))
    /\ (TracingLevel (Cfg (client s)) <> TracingLevel_All ->
        TracingLevel (Cfg (client s)) <> TracingLevel_Reverted
        \/ Status r <> 0 ->
        traced (calls s') = traced (calls s)).
Proof.
  intros HE Hwait Hwf.
  destruct (WaitMined_run w t s) as (res & n & Hrun).
  rewrite Hwait in Hrun. injection Hrun as <- ->.
  unfold Decode. unfold bind at 1. unfold get at 1. rewrite HE.
  cbn [List.length Z.of_nat Z.ltb Z.compare].
  rewrite (bind_Ret _ _ _ _ _ Hwait).
  unfold revertError, decodeErrAllocated in *.
  destruct (decodeTransaction w t r) as [decoded decodeErr].
  simpl fst. simpl snd in Hwf.
  assert (Hfresh : forall e, decodeErr = Some e ->
            Err.Is e (Fundamental (heapNext s) ErrNoABIMethod) = false).
  { intros e He. apply (Is_fresh (heapNext s)); [reflexivity | auto]. }
  clear Hwait Hwf.
  destruct (Status r =? 0) eqn:ES;
  destruct decodeErr as [de |]; unfold_m; simpl; rewrite ?(Hfresh _ eq_refl);
  remember (TracingLevel (Cfg (client s))) as lvl eqn:Elvl; clear Elvl;
  (destruct (String.eqb lvl TracingLevel_None) eqn:EN;
   [| destruct (String.eqb lvl TracingLevel_All) eqn:EA;
      destruct (String.eqb lvl TracingLevel_Reverted) eqn:ER; simpl;
      try destruct (TraceGethTX w (Hash_ decoded));
      try destruct (TraceToJson (Cfg (client s)));
      try destruct (Strings.Contains _ _) ]);
  simpl; (eexists; split; [reflexivity |]); simpl;
  rewrite ?traced_app, ?traced_cons, ?traced_polls, ?traced_nil; simpl;
  decided;
  repeat split; intros; try lia; exfalso; intuition congruence.
Qed.

(** C7.  When the tracer is invoked and fails with a text saying that
    [debug_traceTransaction] does not exist, [Decode] still returns the
    decoded record with the revert error, if any, and leaves the tracing
    level at NONE; whatever the client is asked to do afterwards, the
    level stays NONE and the tracer is not invoked again. *)
Theorem Decode_debug_api_missing (w : World) (t : Transaction) (r : Receipt)
        (s s1 : St) (traceErr : error) :
  Errors (client s) = [] ->
  WaitMined w t s = (Ret (inl r), s1) ->
  decodeErrAllocated w t r s ->
  TracingLevel (Cfg (client s)) = TracingLevel_All
  \/ (TracingLevel (Cfg (client s)) = TracingLevel_Reverted /\ Status r = 0) ->
  TraceGethTX w (Hash_ (fst (decodeTransaction w t r))) = Some traceErr ->
  Strings.Contains (Err.Error traceErr)
                   "debug_traceTransaction does not exist" = true ->
  exists s',
    Decode w (Some t) None s =
      (Ret (Some (fst (decodeTransaction w t r)), revertError w t r), s')
    /\ traced (calls s') = S (traced (calls s))
    /\ TracingLevel (Cfg (client s')) = TracingLevel_None
    /\ forall cs, keeps tracingOff isTrace s' (after cs s').
Proof.
  intros HE Hwait Hwf Hlvl Htrace Htext.
  destruct (WaitMined_run w t s) as (res & n & Hrun).
  rewrite Hwait in Hrun. injection Hrun as <- ->.
  unfold Decode. unfold bind at 1. unfold get at 1. rewrite HE.
  cbn [List.length Z.of_nat Z.ltb Z.compare].
  rewrite (bind_Ret _ _ _ _ _ Hwait).
  unfold revertError, decodeErrAllocated in *.
  destruct (decodeTransaction w t r) as [decoded decodeErr].
  simpl fst in *. simpl snd in Hwf.
  assert (Hfresh : forall e, decodeErr = Some e ->
            Err.Is e (Fundamental (heapNext s) ErrNoABIMethod) = false).
  { intros e He. apply (Is_fresh (heapNext s)); [reflexivity | auto]. }
  clear Hwait Hwf.
  destruct Hlvl as [Hl | [Hl Hst]];
    [| apply Z.eqb_eq in Hst; rewrite Hst];
    destruct (Status r =? 0); destruct decodeErr as [de |];
    unfold_m; simpl; rewrite ?(Hfresh _ eq_refl), Hl, Htrace, Htext; simpl;
    destruct (TraceToJson (Cfg (client s))); simpl;
    (eexists; split; [reflexivity |]); simpl;
    rewrite ?traced_app, ?traced_cons, ?traced_polls, ?traced_nil; simpl;
    (split; [lia | split; [reflexivity |]]);
    intros cs; apply tracing_stays_off; reflexivity.
Qed.

(* ---------------------------------------------------------------- *)
(** *** Gas estimations: failures of the fee queries *)

Lemma sameKeys_refl (s : St) : sameKeys s s.
Proof. unfold sameKeys. auto. Qed.

Lemma sameKeys_trans (s1 s2 s3 : St) :
  sameKeys s1 s2 -> sameKeys s2 s3 -> sameKeys s1 s3.
Proof. unfold sameKeys. intuition congruence. Qed.

(** C5.  With dynamic fees enabled and the EIP-1559 fee query failing,
    fee cap and tip cap of the result are the fallbacks of the request.
    If the text of the failure says that the node does not have the fee
    methods, [EIP1559DynamicFees] is set to false and the gas price is
    the one of the legacy estimation (its fallback when that fails too);
    whatever the client is asked to do afterwards, dynamic fees stay off
    and no EIP-1559 fee query is made again.  Otherwise no gas price is
    set and the configuration keeps dynamic fees. *)
Theorem CalculateGasEstimations_eip1559_failure (w : World)
        (request : GasEstimationRequest) (s : St) (err : error) :
  IsSimulatedNetwork (Cfg (client s)) = false ->
  GasEstimationEnabled request = true ->
  EIP1559DynamicFees (Network (Cfg (client s))) = true ->
  GetSuggestedEIP1559Fees w (Priority request) = inr err ->
  exists est s',
    CalculateGasEstimations w request s = (Ret est, s')
    /\ EstGasFeeCap est = Some (FallbackGasFeeCap request)
    /\ EstGasTipCap est = Some (FallbackGasTipCap request)
    /\ (eip1559Unsupported (Err.Error err) = true ->
        EIP1559DynamicFees (Network (Cfg (client s'))) = false
        /\ calls s' = calls s ++ [RPC_SuggestedEIP1559Fees (Priority request);
                                  RPC_SuggestedLegacyFees (Priority request)]
        /\ EstGasPrice est =
           Some (match GetSuggestedLegacyFees w (Priority request) with
                 | inl gasPrice => gasPrice
                 | inr _ => FallbackGasPrice request
                 end)
        /\ forall cs, keeps dynamicFeesOff isEIP1559Query s' (after cs s'))
    /\ (eip1559Unsupported (Err.Error err) = false ->
        EIP1559DynamicFees (Network (Cfg (client s'))) = true
        /\ calls s' = calls s ++ [RPC_SuggestedEIP1559Fees (Priority request)]
        /\ EstGasPrice est = None).
Proof.
  intros Hsim Hen Heip Hq.
  unfold CalculateGasEstimations. unfold bind at 1. unfold get at 1.
  rewrite Hsim, Hen, Heip. cbn [orb negb].
  unfold bind at 1. unfold emit at 1. rewrite Hq.
  set (s0 := mkSt (client s) (heapNext s)
                  (calls s ++ [RPC_SuggestedEIP1559Fees (Priority request)])).
  destruct (disableEstimationsIfNeeded_run err s0)
    as (s1 & Hrun1 & _ & Hcalls1 & Heip1 & _ & _).
  rewrite (bind_Ret _ _ _ _ _ Hrun1).
  simpl in Hcalls1, Heip1.
  destruct (eip1559Unsupported (Err.Error err)).
  - unfold bind at 1. unfold disableDynamicFees, modify.
    match goal with |- context [calculateLegacyFees w request ?e ?s2] =>
      destruct (calculateLegacyFees_run w request e s2)
        as (est & s' & Hrun2 & _ & Hcalls2 & Heip2 & _ & Htip & Hfee & Hprice)
    end.
    rewrite Hrun2. exists est, s'.
    simpl in Hcalls2, Heip2, Htip, Hfee.
    split; [reflexivity |]. split; [exact Hfee |]. split; [exact Htip |].
    split; [| intros H; discriminate H].
    intros _. split; [exact Heip2 |].
    split; [rewrite Hcalls2, Hcalls1, <- app_assoc; reflexivity |].
    split.
    + destruct (GetSuggestedLegacyFees w (Priority request));
        destruct Hprice as [Hp _]; exact Hp.
    + intros cs. apply dynamic_fees_stay_off. exact Heip2.
  - eexists _, s1. split; [reflexivity |]. simpl.
    split; [reflexivity |]. split; [reflexivity |].
    split; [intros H; discriminate H |].
    intros _. rewrite Heip1, Heip, Hcalls1. auto.
Qed.

(** C6.  A fee query that fails with a text saying that the node
    suggested zero gas disables gas price estimation, whichever query it
    was: the EIP-1559 one, the legacy one, or the legacy one made after
    the downgrade from dynamic fees.  Whatever the client is asked to do
    afterwards, estimation stays disabled, and an estimation for the
    default request returns the configured values without a call. *)
Theorem CalculateGasEstimations_zero_gas (w : World)
        (request : GasEstimationRequest) (s : St) (err : error) :
  IsSimulatedNetwork (Cfg (client s)) = false ->
  GasEstimationEnabled request = true ->
  Strings.Contains (Err.Error err) ZeroGasSuggestedErr = true ->
  (EIP1559DynamicFees (Network (Cfg (client s))) = true
   /\ GetSuggestedEIP1559Fees w (Priority request) = inr err)
  \/ (EIP1559DynamicFees (Network (Cfg (client s))) = false
      /\ GetSuggestedLegacyFees w (Priority request) = inr err)
  \/ (EIP1559DynamicFees (Network (Cfg (client s))) = true
      /\ (exists err0,
            GetSuggestedEIP1559Fees w (Priority request) = inr err0
            /\ eip1559Unsupported (Err.Error err0) = true)
      /\ GetSuggestedLegacyFees w (Priority request) = inr err) ->
  exists est s',
    CalculateGasEstimations w request s = (Ret est, s')
    /\ GasPriceEstimationEnabled (Network (Cfg (client s'))) = false
    /\ forall cs,
         let s'' := after cs s' in
         GasPriceEstimationEnabled (Network (Cfg (client s''))) = false
         /\ forall w',
              bind NewDefaultGasEstimationRequest
                   (CalculateGasEstimations w') s''
              = (Ret (mkEst (Some (GasPrice (Network (Cfg (client s'')))))
                            (Some (GasTipCap (Network (Cfg (client s'')))))
                            (Some (GasFeeCap (Network (Cfg (client s'')))))),
                 s'').
Proof.
  intros Hsim Hen Hzero Hcase.
  assert (Hlater : forall s' : St,
    GasPriceEstimationEnabled (Network (Cfg (client s'))) = false ->
    GasPriceEstimationEnabled (Network (Cfg (client s'))) = false
    /\ forall cs,
         let s'' := after cs s' in
         GasPriceEstimationEnabled (Network (Cfg (client s''))) = false
         /\ forall w',
              bind NewDefaultGasEstimationRequest
                   (CalculateGasEstimations w') s''
              = (Ret (mkEst (Some (GasPrice (Network (Cfg (client s'')))))
                            (Some (GasTipCap (Network (Cfg (client s'')))))
                            (Some (GasFeeCap (Network (Cfg (client s'')))))),
                 s'')).
  { intros s' Hoff. split; [exact Hoff |]. intros cs s''.
    assert (Hoff'' : GasPriceEstimationEnabled (Network (Cfg (client s''))) = false).
    { destruct (estimation_stays_off cs s' Hoff) as (evs & _ & H & _).
      exact H. }
    split; [exact Hoff'' |]. intros w'.
    unfold NewDefaultGasEstimationRequest, CalculateGasEstimations.
    unfold bind, get, ret. cbn [GasEstimationEnabled].
    rewrite Hoff'', orb_true_r. reflexivity. }
  unfold CalculateGasEstimations. unfold bind at 1. unfold get at 1.
  rewrite Hsim, Hen. cbn [orb negb].
  destruct Hcase as [[Heip Hq] | [[Heip Hq] | [Heip [[err0 [Hq0 Hun]] Hq]]]];
    rewrite Heip.
  - unfold bind at 1. unfold emit at 1. rewrite Hq.
    match goal with |- context [bind (disableEstimationsIfNeeded err) _ ?s0] =>
      destruct (disableEstimationsIfNeeded_run err s0)
        as (s1 & Hrun1 & _ & _ & _ & _ & Hgpe1)
    end.
    rewrite (bind_Ret _ _ _ _ _ Hrun1).
    rewrite Hzero, andb_false_r in Hgpe1.
    destruct (eip1559Unsupported (Err.Error err)).
    + unfold bind at 1. unfold disableDynamicFees, modify.
      match goal with |- context [calculateLegacyFees w request ?e ?s2] =>
        destruct (calculateLegacyFees_run w request e s2)
          as (est & s' & Hrun2 & _ & _ & _ & _ & _ & _ & Hprice)
      end.
      rewrite Hrun2. exists est, s'. split; [reflexivity |].
      apply Hlater.
      simpl in Hprice. rewrite Hgpe1 in Hprice.
      destruct (GetSuggestedLegacyFees w (Priority request));
        destruct Hprice as [_ Hg]; exact Hg.
    + eexists _, s1. split; [reflexivity |]. apply Hlater. exact Hgpe1.
  - destruct (calculateLegacyFees_run w request (mkEst None None None) s)
      as (est & s' & Hrun2 & _ & _ & _ & _ & _ & _ & Hprice).
    rewrite Hrun2. exists est, s'. split; [reflexivity |].
    apply Hlater. rewrite Hq, Hzero, andb_false_r in Hprice.
    destruct Hprice as [_ Hg]; exact Hg.
  - unfold bind at 1. unfold emit at 1. rewrite Hq0.
    match goal with |- context [bind (disableEstimationsIfNeeded err0) _ ?s0] =>
      destruct (disableEstimationsIfNeeded_run err0 s0)
        as (s1 & Hrun1 & _ & _ & _ & _ & _)
    end.
    rewrite (bind_Ret _ _ _ _ _ Hrun1). rewrite Hun.
    unfold bind at 1. unfold disableDynamicFees, modify.
    match goal with |- context [calculateLegacyFees w request ?e ?s2] =>
      destruct (calculateLegacyFees_run w request e s2)
        as (est & s' & Hrun2 & _ & _ & _ & _ & _ & _ & Hprice)
    end.
    rewrite Hrun2. exists est, s'. split; [reflexivity |].
    apply Hlater. rewrite Hq, Hzero, andb_false_r in Hprice.
    destruct Hprice as [_ Hg]; exact Hg.
Qed.

(* ---------------------------------------------------------------- *)
(** *** Preparing the options of a key *)

(** The gas estimation always returns, and touches nothing but the
    configuration and the list of calls. *)
Lemma CalculateGasEstimations_run (w : World) (request : GasEstimationRequest)
      (s : St) :
  exists est s',
    CalculateGasEstimations w request s = (Ret est, s') /\ sameKeys s s'.
Proof.
  unfold CalculateGasEstimations. unfold bind at 1. unfold get at 1.
  destruct (IsSimulatedNetwork (Cfg (client s))
            || negb (GasEstimationEnabled request)).
  { eexists _, s. split; [reflexivity | apply sameKeys_refl]. }
  destruct (EIP1559DynamicFees (Network (Cfg (client s)))).
  - unfold bind at 1. unfold emit at 1.
    destruct (GetSuggestedEIP1559Fees w (Priority request)) as [[maxFee tip] | err].
    { eexists _, _. split; [reflexivity |]. unfold sameKeys. simpl. auto. }
    match goal with |- context [bind (disableEstimationsIfNeeded err) _ ?s0] =>
      destruct (disableEstimationsIfNeeded_run err s0)
        as (s1 & Hrun1 & Hsame1 & _)
    end.
    rewrite (bind_Ret _ _ _ _ _ Hrun1).
    assert (Hs1 : sameKeys s s1) by (unfold sameKeys in *; simpl in *; exact Hsame1).
    destruct (eip1559Unsupported (Err.Error err)).
    + unfold bind at 1. unfold disableDynamicFees, modify.
      match goal with |- context [calculateLegacyFees w request ?e ?s2] =>
        destruct (calculateLegacyFees_run w request e s2)
          as (est & s' & Hrun2 & Hsame2 & _)
      end.
      rewrite Hrun2. exists est, s'. split; [reflexivity |].
      eapply sameKeys_trans; [exact Hs1 |].
      unfold sameKeys in *; simpl in *; exact Hsame2.
    + eexists _, s1. split; [reflexivity | exact Hs1].
  - destruct (calculateLegacyFees_run w request (mkEst None None None) s)
      as (est & s' & Hrun2 & Hsame2 & _).
    exists est, s'. split; assumption.
Qed.

Lemma getNonceStatus_run (w : World) (keyNum : Z) (a : Address)
      (pending last : Z) (s : St) :
  0 <= keyNum ->
  nth_error (Addresses (client s)) (Z.to_nat keyNum) = Some a ->
  PendingNonceAt w a = inl pending ->
  NonceAt w a = inl last ->
  getNonceStatus w keyNum s =
    (Ret (inl (mkNonceStatus last pending)),
     mkSt (client s) (heapNext s)
          (calls s ++ [RPC_PendingNonceAt a; RPC_NonceAt a])).
Proof.
  intros Hk Ha Hp Hl. unfold getNonceStatus.
  unfold bind at 1. unfold get at 1.
  rewrite (bind_Ret _ _ _ _ _ (index_Ret _ _ _ s Hk Ha)).
  unfold bind at 1. unfold emit at 1. rewrite Hp.
  erewrite bind_Ret by (apply index_Ret; [exact Hk | exact Ha]).
  unfold bind at 1. unfold emit at 1. rewrite Hl.
  unfold ret. simpl. now rewrite <- app_assoc.
Qed.

(** C8.  For a valid key whose two nonces the node reports:
    - with pending nonce protection enabled and the pending nonce above
      the last one, [getProposedTransactionOptions] returns options that
      are not nil and whose context carries an error, and that error is
      among the accumulated errors of the client;
    - with protection disabled, or with the two nonces equal, it attaches
      nothing: the options are the ones go-ethereum built for the key and
      the accumulated errors are as before (should go-ethereum fail to
      build them, that failure is what is carried). *)
Theorem getProposedTransactionOptions_pending_nonce (w : World) (keyNum : Z)
        (a : Address) (key : PrivateKey) (pending last : Z) (s : St) :
  0 <= keyNum ->
  nth_error (Addresses (client s)) (Z.to_nat keyNum) = Some a ->
  nth_error (PrivateKeys (client s)) (Z.to_nat keyNum) = Some key ->
  PendingNonceAt w a = inl pending ->
  NonceAt w a = inl last ->
  (PendingNonceProtectionEnabled (Cfg (client s)) = true ->
   pending > last ->
   exists opts nonceStatus estimations s' err,
     getProposedTransactionOptions w keyNum s
       = (Ret (Some opts, nonceStatus, estimations), s')
     /\ carriedError opts = Some err
     /\ In err (Errors (client s')))
  /\
  (PendingNonceProtectionEnabled (Cfg (client s)) = false \/ pending = last ->
   exists opts nonceStatus estimations s',
     getProposedTransactionOptions w keyNum s
       = (Ret (Some opts, nonceStatus, estimations), s')
     /\ match NewKeyedTransactorWithChainID w key (ChainID (client s)) with
        | inl built =>
            opts = built
            /\ nonceStatus = mkNonceStatus last pending
            /\ Errors (client s') = Errors (client s)
        | inr failure =>
            exists wrapped,
              carriedError opts = Some wrapped
              /\ Err.Is wrapped failure = true
              /\ Errors (client s') = Errors (client s) ++ [wrapped]
        end).
Proof.
  intros Hk Ha Hkey Hp Hl.
  pose proof (getNonceStatus_run w keyNum a pending last s Hk Ha Hp Hl) as Hns.
  unfold getProposedTransactionOptions.
  split.
  - intros Hprot Hgt.
    rewrite (bind_Ret _ _ _ _ _ Hns). clear Hns.
    unfold bind at 1. unfold get at 1. cbn [client]. rewrite Hprot.
    replace (PendingNonce (mkNonceStatus last pending)
             >? LastNonce (mkNonceStatus last pending)) with true
      by (symmetry; apply Z.gtb_lt; simpl; lia).
    unfold NewDefaultGasEstimationRequest. unfold_m.
    cbn [client heapNext calls fst snd].
    match goal with |- context [CalculateGasEstimations w ?req ?sX] =>
      destruct (CalculateGasEstimations_run w req sX)
        as (est & s2 & Hrun & HA & HP & HC & HE & HH)
    end.
    rewrite Hrun. cbn [client heapNext calls Addresses PrivateKeys ChainID
                          Errors set_Errors] in *.
    rewrite (index_Ret _ _ key s2 Hk) by (rewrite HP; exact Hkey).
    destruct (NewKeyedTransactorWithChainID w key (ChainID (client s2)))
      as [built | failure].
    + do 5 eexists. split; [reflexivity |]. split; [reflexivity |].
      rewrite HE. apply in_or_app. right. left. reflexivity.
    + do 5 eexists. split; [reflexivity |]. split; [reflexivity |].
      cbn [client Errors set_Errors]. apply in_or_app. right. left. reflexivity.
  - intros Hoff.
    rewrite (bind_Ret _ _ _ _ _ Hns). clear Hns.
    unfold bind at 1. unfold get at 1. cbn [client].
    match goal with
    | |- context [if ?b then (if ?c then _ else _) else _] =>
        assert (Hctx : b = false \/ c = false);
        [| destruct b; [destruct Hctx as [Hctx | Hctx];
                        [discriminate Hctx | rewrite Hctx] |] ]
    end;
    [ destruct Hoff as [-> | ->]; [left; reflexivity | right];
      simpl; rewrite Z.gtb_ltb; apply Z.ltb_irrefl | | ];
      unfold NewDefaultGasEstimationRequest; unfold_m;
      cbn [client heapNext calls fst snd];
      (match goal with |- context [CalculateGasEstimations w ?req ?sX] =>
         destruct (CalculateGasEstimations_run w req sX)
           as (est & s2 & Hrun & HA & HP & HC & HE & HH)
       end);
      rewrite Hrun;
      cbn [client heapNext calls Addresses PrivateKeys ChainID
                  Errors set_Errors] in *;
      rewrite (index_Ret _ _ key s2 Hk) by (rewrite HP; exact Hkey);
      rewrite HC;
      (destruct (NewKeyedTransactorWithChainID w key (ChainID (client s)))
         as [built | failure]);
      do 4 eexists; (split; [reflexivity |]);
      cbn [client Errors set_Errors];
      first [ now auto
            | eexists; split; [reflexivity |]; split;
              [ simpl; destruct failure; simpl; rewrite Nat.eqb_refl;
                now rewrite ?orb_true_r
              | now rewrite HE ] ].
Qed.

(* ---------------------------------------------------------------- *)
(** *** NewTXKeyOpts and the range of key numbers *)

(** Above the number of addresses, or below zero, the key number is
    refused: the options returned are empty but for a context that
    carries the error, and the error is appended to the accumulated
    ones. *)
Lemma NewTXKeyOpts_out_of_range (w : World) (keyNum : Z)
      (o : list TransactOpt) (s : St) :
  keyNum > Z.of_nat (List.length (Addresses (client s))) \/ keyNum < 0 ->
  let err := Fundamental (heapNext s)
               (outOfRangeText
                  (Z.of_nat (List.length (Addresses (client s)))) keyNum) in
  NewTXKeyOpts w keyNum o s =
    (Ret (Some (poisoned err)),
     mkSt (set_Errors (Errors (client s) ++ [err]) (client s))
          (S (heapNext s)) (calls s))
  /\ carriedError (poisoned err) = Some err.
Proof.
  intros H err. split; [| reflexivity].
  unfold NewTXKeyOpts. unfold bind at 1. unfold get at 1.
  replace ((keyNum >? Z.of_nat (List.length (Addresses (client s))))
           || (keyNum <? 0)) with true; [reflexivity |].
  symmetry. apply orb_true_iff.
  destruct H as [H | H]; [left; apply Z.gtb_lt | right; apply Z.ltb_lt]; lia.
Qed.

(** C1 (the code against the claim).  The key number that equals the
    number of addresses is one past the last key, yet it passes the range
    test [keyNum > len(m.Addresses)]; the next statement reads
    [m.Addresses[keyNum]] and the call panics, whatever the client and
    the node. *)
Theorem NewTXKeyOpts_at_len_panics (w : World) (o : list TransactOpt) (s : St) :
  NewTXKeyOpts w (Z.of_nat (List.length (Addresses (client s)))) o s
    = (Panic "index out of range", s).
Proof.
  unfold NewTXKeyOpts. unfold bind at 1. unfold get at 1.
  set (len := Z.of_nat (List.length (Addresses (client s)))).
  replace ((len >? len) || (len <? 0)) with false.
  - apply bind_Panic. apply index_Panic. right. fold len. lia.
  - symmetry. apply orb_false_iff. split.
    + rewrite Z.gtb_ltb. apply Z.ltb_irrefl.
    + apply Z.ltb_ge. unfold len. lia.
Qed.

(* ---------------------------------------------------------------- *)
(** *** Decode: the list of undecodable transactions *)

(** The target of the test [errors.Is(decodeErr, errors.New(ErrNoABIMethod))]
    is an error made on the spot, so no error that [decodeTransaction]
    hands back is that error: for a mined transaction [Decode] never
    writes to the file of reverted transactions. *)
Lemma Decode_never_records (w : World) (t : Transaction) (r : Receipt)
      (s s1 : St) :
  Errors (client s) = [] ->
  WaitMined w t s = (Ret (inl r), s1) ->
  decodeErrAllocated w t r s ->
  filter isAppend (calls (snd (Decode w (Some t) None s)))
    = filter isAppend (calls s).
Proof.
  intros HE Hwait Hwf.
  destruct (WaitMined_run w t s) as (res & n & Hrun).
  rewrite Hwait in Hrun. injection Hrun as <- ->.
  unfold Decode. unfold bind at 1. unfold get at 1. rewrite HE.
  cbn [List.length Z.of_nat Z.ltb Z.compare].
  rewrite (bind_Ret _ _ _ _ _ Hwait).
  unfold decodeErrAllocated in *.
  destruct (decodeTransaction w t r) as [decoded decodeErr].
  simpl snd in Hwf.
  assert (Hfresh : forall e, decodeErr = Some e ->
            Err.Is e (Fundamental (heapNext s) ErrNoABIMethod) = false).
  { intros e He. apply (Is_fresh (heapNext s)); [reflexivity | auto]. }
  assert (Hpolls : forall k,
            filter isAppend (repeat (RPC_TransactionReceipt (TxHash t)) k) = []).
  { induction k; simpl; auto. }
  clear Hwait Hwf.
  destruct (Status r =? 0);
  destruct decodeErr as [de |]; unfold_m; simpl; rewrite ?(Hfresh _ eq_refl);
  (destruct (String.eqb (TracingLevel (Cfg (client s))) TracingLevel_None);
   [| destruct (String.eqb (TracingLevel (Cfg (client s))) TracingLevel_All);
      destruct (String.eqb (TracingLevel (Cfg (client s))) TracingLevel_Reverted);
      simpl;
      try destruct (TraceGethTX w (Hash_ decoded));
      try destruct (TraceToJson (Cfg (client s)));
      try destruct (Strings.Contains _ _) ]);
  simpl; rewrite ?filter_app; simpl; rewrite ?Hpolls, ?app_nil_r;
  reflexivity.
Qed.

(* ================================================================ *)
(** ** Further properties of the methods *)

(* ---------------------------------------------------------------- *)
(** *** WaitMined *)

(** What the log line of [WaitMined] makes of an answer without error. *)
Lemma awaitReceipt_first (done : error) (h : Hash) (k : nat)
      (p : pointer Receipt) :
  forall (later : list (pointer Receipt + error)) (cur : pointer Receipt + error)
         (s : St),
    nth_error (cur :: later) k = Some (inl p) ->
    (forall j, (j < k)%nat -> exists e, nth_error (cur :: later) j = Some (inr e)) ->
    awaitReceipt done h later cur s =
      (match p with
       | Some r =>
           match BlockNumber r with
           | Some _ => Ret (inl r)
           | None => Panic "nil pointer dereference"
           end
       | None => Panic "nil pointer dereference"
       end,
       mkSt (client s) (heapNext s)
            (calls s ++ repeat (RPC_TransactionReceipt h) (S k))).
Proof.
  induction k as [| k IH]; intros later cur s Hk Hbefore.
  - simpl in Hk. injection Hk as ->.
    destruct p as [r |]; [| destruct later; reflexivity].
    destruct later; simpl; unfold_m; simpl; destruct (BlockNumber r); reflexivity.
  - destruct (Hbefore 0%nat ltac:(lia)) as [e He].
    simpl in He. injection He as ->.
    destruct later as [| next later]; [destruct k; discriminate Hk |].
    simpl. unfold bind at 1. unfold emit at 1.
    rewrite (IH later next); [simpl; now rewrite <- app_assoc | exact Hk |].
    intros j Hj. apply (Hbefore (S j)). lia.
Qed.

(** X1.  [WaitMined] stops at the first answer of the node that comes
    without error: when the poll number [k] is the first such answer, then
    after exactly [k + 1] polls the receipt of that answer is returned if
    it is not nil and has a block number, and otherwise the call panics on
    the log line that reads [receipt.BlockNumber.Int64()].  Nothing else
    is done to the client, and later answers are not asked for. *)
Theorem WaitMined_first_receipt (w : World) (tx : Transaction) (s : St)
        (k : nat) (p : pointer Receipt) :
  nth_error (polls w) k = Some (inl p) ->
  (forall j, (j < k)%nat -> exists e, nth_error (polls w) j = Some (inr e)) ->
  WaitMined w tx s =
    (match p with
     | Some r =>
         match BlockNumber r with
         | Some _ => Ret (inl r)
         | None => Panic "nil pointer dereference"
         end
     | None => Panic "nil pointer dereference"
     end,
     mkSt (client s) (heapNext s)
          (calls s ++ repeat (RPC_TransactionReceipt (TxHash tx)) (S k))).
Proof. intros Hk Hbefore. apply awaitReceipt_first; assumption. Qed.

Lemma awaitReceipt_deadline (done : error) (h : Hash) :
  forall (later : list (pointer Receipt + error)) (cur : pointer Receipt + error)
         (s : St),
    (forall p, In p (cur :: later) -> exists e, p = inr e) ->
    awaitReceipt done h later cur s =
      (Ret (inr done),
       mkSt (client s) (heapNext s)
            (calls s ++ repeat (RPC_TransactionReceipt h)
                               (S (List.length later)))).
Proof.
  induction later as [| next later IH]; intros cur s Hall;
    destruct (Hall cur (or_introl eq_refl)) as [e ->].
  - reflexivity.
  - simpl. unfold bind at 1. unfold emit at 1.
    rewrite IH; [simpl; now rewrite <- app_assoc |].
    intros p Hp. apply Hall. right. exact Hp.
Qed.

(** X2.  When the node has no receipt at any poll before the context is
    done, [WaitMined] returns the error of the context, after one poll at
    the start and one per tick. *)
Theorem WaitMined_deadline (w : World) (tx : Transaction) (s : St) :
  (forall p, In p (polls w) -> exists e, p = inr e) ->
  WaitMined w tx s =
    (Ret (inr (ctxErr w)),
     mkSt (client s) (heapNext s)
          (calls s ++ repeat (RPC_TransactionReceipt (TxHash tx))
                             (List.length (polls w)))).
Proof. intros Hall. apply awaitReceipt_deadline. exact Hall. Qed.

(* ---------------------------------------------------------------- *)
(** *** Decode: the ways out before the receipt *)

Lemma Is_refl (e : error) : Err.Is e e = true.
Proof. destruct e; simpl; now rewrite Nat.eqb_refl. Qed.

Lemma Is_joined (p : ptr) (errs : list error) (e : error) :
  In e errs -> Err.Is (JoinError p errs) e = true.
Proof.
  intros Hin. simpl. apply orb_true_iff. right.
  induction errs as [| x r IH]; [destruct Hin |].
  destruct Hin as [-> | Hin].
  - now rewrite Is_refl.
  - rewrite (IH Hin). apply orb_true_r.
Qed.

Lemma Decode_joins (w : World) (tx : pointer Transaction)
      (txErr : option error) (s : St) :
  Errors (client s) <> [] ->
  Decode w tx txErr s =
    (Ret (None, Some (JoinError (heapNext s) (Errors (client s)))),
     mkSt (client s) (S (heapNext s)) (calls s)).
Proof.
  intros Hne. unfold Decode. unfold bind at 1. unfold get at 1.
  destruct (Errors (client s)) as [| e0 errs] eqn:E; [now elim Hne |].
  reflexivity.
Qed.

(** X3.  With accumulated errors [Decode] fails at once, whatever it is
    given: it returns no decoded transaction and the join of the
    accumulated errors, which wraps each of them, and it makes no call. *)
Theorem Decode_accumulated_errors (w : World) (tx : pointer Transaction)
        (txErr : option error) (s : St) :
  Errors (client s) <> [] ->
  Decode w tx txErr s =
    (Ret (None, Some (JoinError (heapNext s) (Errors (client s)))),
     mkSt (client s) (S (heapNext s)) (calls s))
  /\ forall e, In e (Errors (client s)) ->
       Err.Is (JoinError (heapNext s) (Errors (client s))) e = true.
Proof.
  intros Hne. split; [now apply Decode_joins |].
  intros e He. now apply Is_joined.
Qed.

(** X4.  With no accumulated errors, no submission error and no
    transaction, [Decode] returns nil and nil and does nothing. *)
Theorem Decode_nil_transaction (w : World) (s : St) :
  Errors (client s) = [] ->
  Decode w None None s = (Ret (None, None), s).
Proof.
  intros HE. unfold Decode. unfold bind at 1. unfold get at 1.
  rewrite HE. reflexivity.
Qed.

(** X5.  When no receipt is found before the context is done, [Decode]
    returns no decoded transaction and the error of the context; it has
    polled for the receipt and done nothing else: no replay of the call,
    no decoding, no tracing, no write to the client. *)
Theorem Decode_not_mined (w : World) (t : Transaction) (s : St) :
  Errors (client s) = [] ->
  (forall p, In p (polls w) -> exists e, p = inr e) ->
  Decode w (Some t) None s =
    (Ret (None, Some (ctxErr w)),
     mkSt (client s) (heapNext s)
          (calls s ++ repeat (RPC_TransactionReceipt (TxHash t))
                             (List.length (polls w)))).
Proof.
  intros HE Hall. unfold Decode. unfold bind at 1. unfold get at 1.
  rewrite HE. cbn [List.length Z.of_nat Z.ltb Z.compare].
  unfold WaitMined.
  rewrite (bind_Ret _ _ _ _ _ (awaitReceipt_deadline _ _ _ _ s Hall)).
  reflexivity.
Qed.

(* ---------------------------------------------------------------- *)
(** *** Decode: what it writes *)

Lemma saved_app (l l' : list Event) : saved (l ++ l') = (saved l + saved l')%nat.
Proof. unfold saved. now rewrite filter_app, length_app. Qed.

Lemma saved_cons (e : Event) (l : list Event) :
  saved (e :: l) = ((if isSave e then 1 else 0) + saved l)%nat.
Proof. unfold saved. simpl. destruct (isSave e); reflexivity. Qed.

Lemma saved_polls (h : Hash) (n : nat) :
  saved (repeat (RPC_TransactionReceipt h) n) = 0%nat.
Proof. induction n; simpl; auto. Qed.

(** X6.  For a mined transaction, unless the tracer fails with the text
    that says [debug_traceTransaction] does not exist, [Decode] leaves the
    client as it was: a tracer that succeeds, is not invoked, or fails
    otherwise does not change the tracing level, and the decoded record
    and the revert error are returned. *)
Theorem Decode_keeps_tracing_level (w : World) (t : Transaction) (r : Receipt)
        (s s1 : St) :
  Errors (client s) = [] ->
  WaitMined w t s = (Ret (inl r), s1) ->
  decodeErrAllocated w t r s ->
  (forall traceErr,
     TraceGethTX w (Hash_ (fst (decodeTransaction w t r))) = Some traceErr ->
     Strings.Contains (Err.Error traceErr)
                      "debug_traceTransaction does not exist" = false) ->
  exists s',
    Decode w (Some t) None s =
      (Ret (Some (fst (decodeTransaction w t r)), revertError w t r), s')
    /\ client s' = client s.
Proof.
  intros HE Hwait Hwf Htext.
  destruct (WaitMined_run w t s) as (res & n & Hrun).
  rewrite Hwait in Hrun. injection Hrun as <- ->.
  unfold Decode. unfold bind at 1. unfold get at 1. rewrite HE.
  cbn [List.length Z.of_nat Z.ltb Z.compare].
  rewrite (bind_Ret _ _ _ _ _ Hwait).
  unfold revertError, decodeErrAllocated in *.
  destruct (decodeTransaction w t r) as [decoded decodeErr].
  simpl fst in *. simpl snd in Hwf.
  assert (Hfresh : forall e, decodeErr = Some e ->
            Err.Is e (Fundamental (heapNext s) ErrNoABIMethod) = false).
  { intros e He. apply (Is_fresh (heapNext s)); [reflexivity | auto]. }
  clear Hwait Hwf.
  destruct (Status r =? 0);
  destruct decodeErr as [de |]; unfold_m; simpl; rewrite ?(Hfresh _ eq_refl);
  (destruct (String.eqb (TracingLevel (Cfg (client s))) TracingLevel_None);
   [| destruct (String.eqb (TracingLevel (Cfg (client s))) TracingLevel_All);
      destruct (String.eqb (TracingLevel (Cfg (client s))) TracingLevel_Reverted);
      simpl;
      try (destruct (TraceGethTX w (Hash_ decoded)) as [te |];
           [rewrite (Htext te eq_refl) |]);
      try destruct (TraceToJson (Cfg (client s))) ]);
  simpl; eexists; split; reflexivity.
Qed.

(** X7.  For a mined transaction [Decode] writes one trace file for each
    invocation of the tracer when JSON export is enabled, whether the
    trace succeeded or not, and none when it is disabled. *)
Theorem Decode_trace_files (w : World) (t : Transaction) (r : Receipt)
        (s s1 : St) :
  Errors (client s) = [] ->
  WaitMined w t s = (Ret (inl r), s1) ->
  decodeErrAllocated w t r s ->
  forall out s', Decode w (Some t) None s = (out, s') ->
  (saved (calls s') - saved (calls s))%nat =
    if TraceToJson (Cfg (client s))
    then (traced (calls s') - traced (calls s))%nat
    else 0%nat.
Proof.
  intros HE Hwait Hwf out s'.
  destruct (WaitMined_run w t s) as (res & n & Hrun).
  rewrite Hwait in Hrun. injection Hrun as <- ->.
  unfold Decode. unfold bind at 1. unfold get at 1. rewrite HE.
  cbn [List.length Z.of_nat Z.ltb Z.compare].
  rewrite (bind_Ret _ _ _ _ _ Hwait).
  unfold decodeErrAllocated in *.
  destruct (decodeTransaction w t r) as [decoded decodeErr].
  simpl snd in Hwf.
  assert (Hfresh : forall e, decodeErr = Some e ->
            Err.Is e (Fundamental (heapNext s) ErrNoABIMethod) = false).
  { intros e He. apply (Is_fresh (heapNext s)); [reflexivity | auto]. }
  clear Hwait Hwf.
  destruct (Status r =? 0);
  destruct decodeErr as [de |]; unfold_m; simpl; rewrite ?(Hfresh _ eq_refl);
  (destruct (String.eqb (TracingLevel (Cfg (client s))) TracingLevel_None);
   [| destruct (String.eqb (TracingLevel (Cfg (client s))) TracingLevel_All);
      destruct (String.eqb (TracingLevel (Cfg (client s))) TracingLevel_Reverted);
      simpl;
      try destruct (TraceGethTX w (Hash_ decoded));
      try destruct (Strings.Contains _ _) ]);
  destruct (TraceToJson (Cfg (client s))); simpl;
  intros H; injection H as <- <-; simpl;
  rewrite ?saved_app, ?saved_cons, ?saved_polls,
          ?traced_app, ?traced_cons, ?traced_polls;
  unfold saved, traced; simpl; lia.
Qed.

(** X8.  Whatever [Decode] is given and however it ends, the only thing
    it may write to the client is the tracing level, which it may set to
    NONE: keys, accumulated errors and the rest of the configuration are
    as before. *)
Theorem Decode_writes_tracing_level_only (w : World) (tx : pointer Transaction)
        (txErr : option error) (s : St) :
  client (snd (Decode w tx txErr s)) = client s
  \/ client (snd (Decode w tx txErr s))
     = set_Cfg (set_TracingLevel TracingLevel_None (Cfg (client s))) (client s).
Proof.
  set (run := Decode w tx txErr s).
  assert (Hrun' : exists out s', run = (out, s')
            /\ (client s' = client s
                \/ client s' = set_Cfg (set_TracingLevel TracingLevel_None
                                                         (Cfg (client s)))
                                       (client s)));
    [| destruct Hrun' as (out & s' & -> & H); exact H].
  subst run.
  unfold Decode. unfold bind at 1. unfold get at 1.
  destruct (0 <? Z.of_nat (List.length (Errors (client s)))).
  { destruct (Errors (client s)); do 2 eexists; (split; [reflexivity |]);
      left; reflexivity. }
  destruct txErr as [txErr |].
  { unfold_m. destruct (DecodeCustomABIErr w txErr) as [reason [e |]];
      do 2 eexists; (split; [reflexivity |]); left; reflexivity. }
  destruct tx as [t |];
    [| do 2 eexists; (split; [reflexivity |]); left; reflexivity].
  destruct (WaitMined_run w t s) as ([res | msg] & n & Hrun);
    [| rewrite (bind_Panic _ _ _ _ _ Hrun);
       do 2 eexists; (split; [reflexivity |]); left; reflexivity].
  rewrite (bind_Ret _ _ _ _ _ Hrun).
  destruct res as [r | err];
    [| do 2 eexists; (split; [reflexivity |]); left; reflexivity].
  destruct (decodeTransaction w t r) as [decoded decodeErr].
  destruct (Status r =? 0);
  destruct decodeErr as [de |]; unfold_m; simpl;
  try destruct (Err.Is de _);
  try destruct (TraceToJson (Cfg (client s)));
  try destruct (String.eqb (TracingLevel (Cfg (client s))) TracingLevel_None);
  try destruct (String.eqb (TracingLevel (Cfg (client s))) TracingLevel_All);
  try destruct (String.eqb (TracingLevel (Cfg (client s))) TracingLevel_Reverted);
  simpl;
  try destruct (TraceGethTX w (Hash_ decoded));
  try destruct (Strings.Contains _ _);
  simpl; do 2 eexists; (split; [reflexivity |]); simpl; auto.
Qed.

(* ---------------------------------------------------------------- *)
(** *** The accumulated errors are never taken back *)

Lemma errorsGrow_refl (s : St) : errorsGrow s s.
Proof. exists []. now rewrite app_nil_r. Qed.

Lemma errorsGrow_trans (s1 s2 s3 : St) :
  errorsGrow s1 s2 -> errorsGrow s2 s3 -> errorsGrow s1 s3.
Proof.
  intros [m1 H1] [m2 H2]. exists (m1 ++ m2). now rewrite H2, H1, app_assoc.
Qed.

Lemma errorsGrow_same (s s' : St) :
  Errors (client s') = Errors (client s) -> errorsGrow s s'.
Proof. intros H. exists []. now rewrite app_nil_r. Qed.

Lemma Grows_bind {A B} (c : M A) (k : A -> M B) :
  Grows c -> (forall a, Grows (k a)) -> Grows (bind c k).
Proof.
  intros Hc Hk s. unfold bind. specialize (Hc s).
  destruct (c s) as [[a | msg] s1]; simpl in *.
  - eapply errorsGrow_trans; [exact Hc | apply Hk].
  - exact Hc.
Qed.

Lemma Grows_ret {A} (a : A) : Grows (ret a).
Proof. intros s. apply errorsGrow_refl. Qed.

Lemma Grows_panic {A} (msg : string) : Grows (@panic A msg).
Proof. intros s. apply errorsGrow_refl. Qed.

Lemma Grows_get : Grows get.
Proof. intros s. apply errorsGrow_refl. Qed.

Lemma Grows_alloc : Grows alloc.
Proof. intros s. apply errorsGrow_same. reflexivity. Qed.

Lemma Grows_emit (e : Event) : Grows (emit e).
Proof. intros s. apply errorsGrow_same. reflexivity. Qed.

Lemma Grows_appendError (err : error) : Grows (appendError err).
Proof. intros s. exists [err]. reflexivity. Qed.

Lemma Grows_index {A} (l : list A) (i : Z) : Grows (index l i).
Proof.
  intros s. unfold index.
  destruct ((0 <=? i) && (i <? Z.of_nat (List.length l)));
    [destruct (nth_error l (Z.to_nat i)) |]; apply errorsGrow_refl.
Qed.

Lemma Grows_disableEstimationsIfNeeded (err : error) :
  Grows (disableEstimationsIfNeeded err).
Proof.
  intros s. unfold disableEstimationsIfNeeded.
  destruct (Strings.Contains (Err.Error err) ZeroGasSuggestedErr);
    apply errorsGrow_same; reflexivity.
Qed.

Lemma Grows_disableDynamicFees : Grows disableDynamicFees.
Proof. intros s. apply errorsGrow_same. reflexivity. Qed.

Lemma Grows_disableTracing : Grows disableTracing.
Proof. intros s. apply errorsGrow_same. reflexivity. Qed.

Ltac grows_step :=
  first
    [ apply Grows_ret | apply Grows_panic | apply Grows_get
    | apply Grows_alloc | apply Grows_emit | apply Grows_appendError
    | apply Grows_index
    | apply Grows_disableEstimationsIfNeeded
    | apply Grows_disableDynamicFees
    | apply Grows_disableTracing
    | apply Grows_bind; [| intros ]
    | match goal with
      | |- Grows (match ?x with _ => _ end) => destruct x
      | |- Grows (let '(_, _) := ?x in _) => destruct x
      end ].

Lemma Grows_errors_New (msg : string) : Grows (errors_New msg).
Proof. unfold errors_New. repeat grows_step. Qed.

Lemma Grows_errors_Wrap (err : error) (msg : string) : Grows (errors_Wrap err msg).
Proof. unfold errors_Wrap. repeat grows_step. Qed.

Lemma Grows_verr_Join (errs : list error) : Grows (verr_Join errs).
Proof. unfold verr_Join. repeat grows_step. Qed.

Lemma Grows_calculateLegacyFees (w : World) (request : GasEstimationRequest)
      (estimations : GasEstimations) :
  Grows (calculateLegacyFees w request estimations).
Proof. unfold calculateLegacyFees. repeat grows_step. Qed.

Lemma Grows_CalculateGasEstimations (w : World) (request : GasEstimationRequest) :
  Grows (CalculateGasEstimations w request).
Proof.
  unfold CalculateGasEstimations.
  repeat first [apply Grows_calculateLegacyFees | grows_step].
Qed.

Lemma Grows_awaitReceipt (done : error) (h : Hash)
      (later : list (pointer Receipt + error)) (cur : pointer Receipt + error) :
  Grows (awaitReceipt done h later cur).
Proof.
  revert cur. induction later as [| next later IH]; intros cur; simpl.
  - repeat grows_step.
  - apply Grows_bind; [apply Grows_emit | intros _].
    destruct cur as [[r |] | e]; [| apply Grows_panic | apply IH].
    destruct (BlockNumber r); [apply Grows_ret | apply Grows_panic].
Qed.

Lemma Grows_Decode (w : World) (tx : pointer Transaction) (txErr : option error) :
  Grows (Decode w tx txErr).
Proof.
  unfold Decode, WaitMined.
  repeat first [ apply Grows_awaitReceipt | apply Grows_errors_New
               | apply Grows_errors_Wrap | apply Grows_verr_Join
               | grows_step ].
Qed.

Lemma Grows_getProposedTransactionOptions (w : World) (keyNum : Z) :
  Grows (getProposedTransactionOptions w keyNum).
Proof.
  unfold getProposedTransactionOptions, getNonceStatus,
    NewDefaultGasEstimationRequest.
  repeat first [ apply Grows_CalculateGasEstimations | apply Grows_errors_New
               | apply Grows_errors_Wrap | grows_step ].
Qed.

Lemma Grows_configureTransactionOpts (opts : pointer TransactOpts)
      (nonce : Z) (estimations : GasEstimations) (o : list TransactOpt) :
  Grows (configureTransactionOpts opts nonce estimations o).
Proof. unfold configureTransactionOpts. repeat grows_step. Qed.

Lemma Grows_call (c : Call) : Grows (call c).
Proof.
  destruct c; simpl; (apply Grows_bind; [| intros; apply Grows_ret]).
  - apply Grows_Decode.
  - unfold NewTXKeyOpts.
    repeat first [ apply Grows_getProposedTransactionOptions
                 | apply Grows_configureTransactionOpts
                 | apply Grows_errors_New | grows_step ].
  - unfold NewTXOpts.
    repeat first [ apply Grows_getProposedTransactionOptions
                 | apply Grows_configureTransactionOpts | grows_step ].
  - apply Grows_CalculateGasEstimations.
Qed.

Lemma errorsGrow_after (cs : list Call) (s : St) : errorsGrow s (after cs s).
Proof.
  revert s. induction cs as [| c cs IH]; intros s; simpl.
  - apply errorsGrow_refl.
  - pose proof (Grows_call c s) as Hc.
    destruct (call c s) as [[[] | msg] s1]; simpl in Hc.
    + eapply errorsGrow_trans; [exact Hc | apply IH].
    + exact Hc.
Qed.

(** X9.  No method of the client takes an accumulated error back: after
    any sequence of calls the errors accumulated before are still there,
    in front of the new ones.  So once there is one, every later [Decode]
    fails at once, with a join that wraps it, and makes no call. *)
Theorem accumulated_errors_are_final (cs : list Call) (s : St) :
  (exists more, Errors (client (after cs s)) = Errors (client s) ++ more)
  /\ (Errors (client s) <> [] ->
      forall w tx txErr,
      exists joined,
        Decode w tx txErr (after cs s) =
          (Ret (None, Some joined),
           mkSt (client (after cs s)) (S (heapNext (after cs s)))
                (calls (after cs s)))
        /\ forall e, In e (Errors (client s)) -> Err.Is joined e = true).
Proof.
  pose proof (errorsGrow_after cs s) as [more Hmore].
  split; [exists more; exact Hmore |].
  intros Hne w tx txErr.
  eexists. split.
  - apply Decode_joins. rewrite Hmore.
    destruct (Errors (client s)); [now elim Hne | discriminate].
  - intros e He. apply Is_joined. rewrite Hmore. apply in_or_app. now left.
Qed.

(* ---------------------------------------------------------------- *)
(** *** Transaction options *)

(** X10.  [NewTXOpts] is [NewTXKeyOpts] for key 0: the two return the
    same options, or panic alike on a client without addresses, and leave
    the same state. *)
Theorem NewTXOpts_is_key_0 (w : World) (o : list TransactOpt) (s : St) :
  NewTXOpts w o s = NewTXKeyOpts w 0 o s.
Proof.
  symmetry. unfold NewTXKeyOpts. unfold bind at 1. unfold get at 1.
  replace ((0 >? Z.of_nat (List.length (Addresses (client s)))) || (0 <? 0))
    with false
    by (symmetry; apply orb_false_iff; split;
        [rewrite Z.gtb_ltb; apply Z.ltb_ge; lia | reflexivity]).
  destruct (Addresses (client s)) as [| a rest] eqn:EA.
  - rewrite (bind_Panic _ _ _ s _
               (index_Panic (@nil Address) 0 s (or_intror (Z.le_refl 0)))).
    unfold NewTXOpts, getProposedTransactionOptions, getNonceStatus.
    unfold bind, get. rewrite EA. reflexivity.
  - rewrite (bind_Ret _ _ _ s a
               (index_Ret (a :: rest) 0 a s (Z.le_refl 0) eq_refl)).
    reflexivity.
Qed.

(** X11.  When a nonce of the key cannot be read, the options returned
    are the empty ones with the failure of the node in their context; the
    failure is appended to the accumulated errors, nonce status and
    estimations are zero, and nothing else is asked of the node: no fee
    is queried, and the confirmed nonce is not read after the pending
    nonce has failed. *)
Theorem getProposedTransactionOptions_nonce_failure (w : World) (keyNum : Z)
        (a : Address) (err : error) (s : St) :
  0 <= keyNum ->
  nth_error (Addresses (client s)) (Z.to_nat keyNum) = Some a ->
  PendingNonceAt w a = inr err
  \/ (exists pending, PendingNonceAt w a = inl pending) /\ NonceAt w a = inr err ->
  getProposedTransactionOptions w keyNum s =
    (Ret (Some (poisoned err), mkNonceStatus 0 0, mkEst None None None),
     mkSt (set_Errors (Errors (client s) ++ [err]) (client s))
          (heapNext s)
          (calls s ++ match PendingNonceAt w a with
                      | inr _ => [RPC_PendingNonceAt a]
                      | inl _ => [RPC_PendingNonceAt a; RPC_NonceAt a]
                      end))
  /\ carriedError (poisoned err) = Some err.
Proof.
  intros Hk Ha Hfail. split; [| reflexivity].
  unfold getProposedTransactionOptions, getNonceStatus.
  unfold bind at 1. unfold bind at 1. unfold get at 1.
  rewrite (bind_Ret _ _ _ _ _ (index_Ret _ _ _ s Hk Ha)).
  unfold bind at 1. unfold emit at 1.
  destruct Hfail as [Hp | [[pending Hp] Hl]]; rewrite Hp.
  - reflexivity.
  - erewrite bind_Ret by (apply index_Ret; [exact Hk | exact Ha]).
    unfold bind at 1. unfold emit at 1. rewrite Hl.
    unfold ret, appendError, bind, modify. simpl.
    now rewrite <- app_assoc.
Qed.

Lemma fold_overrides (o : list TransactOpt) (f : TransactOpt)
      (base : TransactOpts) :
  fold_left (fun acc g => g acc) (o ++ [f]) base
  = f (fold_left (fun acc g => g acc) o base).
Proof. now rewrite fold_left_app. Qed.

(** X12.  The overrides given to [configureTransactionOpts] are applied
    after the nonce and the estimations are set, in the order given: the
    result is the result without overrides with each override applied in
    turn.  So a nonce given with [WithNonce] as the last override is the
    nonce of the options, whatever the pending nonce is. *)
Theorem configureTransactionOpts_overrides (opts : TransactOpts) (nonce : Z)
        (estimations : GasEstimations) (o : list TransactOpt) (s : St) :
  exists base,
    configureTransactionOpts (Some opts) nonce estimations [] s
      = (Ret (Some base), s)
    /\ configureTransactionOpts (Some opts) nonce estimations o s
       = (Ret (Some (fold_left (fun acc f => f acc) o base)), s)
    /\ forall n,
       exists o',
         configureTransactionOpts (Some opts) nonce estimations
                                  (o ++ [WithNonce n]) s
           = (Ret (Some o'), s)
         /\ Nonce o' = n.
Proof.
  unfold configureTransactionOpts. unfold_m. simpl.
  eexists. split; [reflexivity |]. split; [reflexivity |].
  intros n. eexists. split; [reflexivity |].
  rewrite fold_overrides. reflexivity.
Qed.

(** X13.  With dynamic fees enabled, a gas price given with
    [WithGasPrice] is kept next to the tip cap and the fee cap of the
    estimations: the options then carry both fee models. *)
Theorem configureTransactionOpts_gas_price_override (opts : TransactOpts)
        (nonce price : Z) (estimations : GasEstimations) (s : St) :
  EIP1559DynamicFees (Network (Cfg (client s))) = true ->
  exists o',
    configureTransactionOpts (Some opts) nonce estimations
                             [WithGasPrice (Some price)] s
      = (Ret (Some o'), s)
    /\ OptGasPrice o' = Some price
    /\ OptGasTipCap o' = EstGasTipCap estimations
    /\ OptGasFeeCap o' = EstGasFeeCap estimations.
Proof.
  intros Heip. unfold configureTransactionOpts. unfold_m. rewrite Heip.
  simpl. eexists. split; [reflexivity |]. repeat split.
Qed.

(** X14.  The clean run of [NewTXKeyOpts]: for a valid key whose nonces
    the node reports, with nothing pending (or protection disabled), a
    transactor that go-ethereum builds and no overrides, the options
    returned are the ones go-ethereum built, with their sender, value and
    context as built and the nonce set to the pending nonce; no error is
    accumulated. *)
Theorem NewTXKeyOpts_clean (w : World) (keyNum : Z) (a : Address)
        (key : PrivateKey) (pending last : Z) (built : TransactOpts) (s : St) :
  0 <= keyNum ->
  nth_error (Addresses (client s)) (Z.to_nat keyNum) = Some a ->
  nth_error (PrivateKeys (client s)) (Z.to_nat keyNum) = Some key ->
  PendingNonceAt w a = inl pending ->
  NonceAt w a = inl last ->
  PendingNonceProtectionEnabled (Cfg (client s)) = false \/ pending <= last ->
  NewKeyedTransactorWithChainID w key (ChainID (client s)) = inl built ->
  0 <= pending < Int.two63 ->
  exists o' s',
    NewTXKeyOpts w keyNum [] s = (Ret (Some o'), s')
    /\ Nonce o' = Some pending
    /\ From o' = From built
    /\ Value_ o' = Value_ built
    /\ OptContext o' = OptContext built
    /\ Errors (client s') = Errors (client s).
Proof.
  intros Hk Ha Hkey Hp Hl Hoff Hbuilt Hrange.
  assert (Hlen : keyNum < Z.of_nat (List.length (Addresses (client s)))).
  { assert (Z.to_nat keyNum < List.length (Addresses (client s)))%nat
      by (apply nth_error_Some; congruence). lia. }
  unfold NewTXKeyOpts. unfold bind at 1. unfold get at 1.
  replace ((keyNum >? Z.of_nat (List.length (Addresses (client s))))
           || (keyNum <? 0)) with false
    by (symmetry; apply orb_false_iff; split;
        [rewrite Z.gtb_ltb; apply Z.ltb_ge; lia | apply Z.ltb_ge; lia]).
  rewrite (bind_Ret _ _ _ _ _ (index_Ret _ _ _ s Hk Ha)).
  pose proof (getNonceStatus_run w keyNum a pending last s Hk Ha Hp Hl) as Hns.
  unfold getProposedTransactionOptions.
  unfold bind at 1. rewrite (bind_Ret _ _ _ _ _ Hns). clear Hns.
  unfold bind at 1. unfold get at 1. cbn [client].
  match goal with
  | |- context [if ?b then (if ?c then _ else _) else _] =>
      assert (Hctx : b = false \/ c = false);
      [| destruct b; [destruct Hctx as [Hctx | Hctx];
                      [discriminate Hctx | rewrite Hctx] |] ]
  end;
  [ destruct Hoff as [-> | Hle]; [left; reflexivity | right];
    simpl; rewrite Z.gtb_ltb; apply Z.ltb_ge; exact Hle | | ];
  unfold NewDefaultGasEstimationRequest; unfold_m;
  cbn [client heapNext calls fst snd];
  (match goal with |- context [CalculateGasEstimations w ?req ?sX] =>
     destruct (CalculateGasEstimations_run w req sX)
       as (est & s2 & Hrun & HA & HP & HC & HE & HH)
   end);
  rewrite Hrun;
  cbn [client heapNext calls Addresses PrivateKeys ChainID
              Errors set_Errors] in *;
  rewrite (index_Ret _ _ key s2 Hk) by (rewrite HP; exact Hkey);
  rewrite HC, Hbuilt;
  unfold configureTransactionOpts; unfold_m; simpl;
  do 2 eexists; (split; [reflexivity |]);
  destruct (EIP1559DynamicFees (Network (Cfg (client s2)))); simpl;
  rewrite (int64_of_uint64_small _ Hrange);
  repeat split; exact HE.
Qed.

(* ---------------------------------------------------------------- *)
(** *** Gas estimations: the suggestions of the node *)

(** X15.  On a network that is not simulated and with estimation
    requested, a fee query that succeeds sets one fee model only and
    changes nothing in the client: with dynamic fees the fee cap and the
    tip cap suggested and no gas price, without them the gas price
    suggested and no caps; one query is made. *)
Theorem CalculateGasEstimations_suggested (w : World)
        (request : GasEstimationRequest) (s : St) :
  IsSimulatedNetwork (Cfg (client s)) = false ->
  GasEstimationEnabled request = true ->
  (forall maxFee tip,
     EIP1559DynamicFees (Network (Cfg (client s))) = true ->
     GetSuggestedEIP1559Fees w (Priority request) = inl (maxFee, tip) ->
     CalculateGasEstimations w request s =
       (Ret (mkEst None (Some tip) (Some maxFee)),
        mkSt (client s) (heapNext s)
             (calls s ++ [RPC_SuggestedEIP1559Fees (Priority request)])))
  /\ (forall gasPrice,
        EIP1559DynamicFees (Network (Cfg (client s))) = false ->
        GetSuggestedLegacyFees w (Priority request) = inl gasPrice ->
        CalculateGasEstimations w request s =
          (Ret (mkEst (Some gasPrice) None None),
           mkSt (client s) (heapNext s)
                (calls s ++ [RPC_SuggestedLegacyFees (Priority request)]))).
Proof.
  intros Hsim Hen.
  split; intros; unfold CalculateGasEstimations, calculateLegacyFees;
    unfold bind at 1; unfold get at 1;
    rewrite Hsim, Hen; cbn [orb negb];
    match goal with H : EIP1559DynamicFees _ = _ |- _ => rewrite H end;
    unfold bind at 1; unfold emit at 1;
    match goal with H : _ = inl _ |- _ => rewrite H end;
    reflexivity.
Qed.

(** X16.  A fee query that fails with a text that names neither a zero
    suggestion nor a missing fee method costs this one estimation only:
    the fallbacks of the request take the place of what was asked for
    (the caps with dynamic fees, the gas price without) and the
    configuration of the client is left as it was. *)
Theorem CalculateGasEstimations_plain_failure (w : World)
        (request : GasEstimationRequest) (s : St) (err : error) :
  IsSimulatedNetwork (Cfg (client s)) = false ->
  GasEstimationEnabled request = true ->
  Strings.Contains (Err.Error err) ZeroGasSuggestedErr = false ->
  (EIP1559DynamicFees (Network (Cfg (client s))) = true ->
   GetSuggestedEIP1559Fees w (Priority request) = inr err ->
   eip1559Unsupported (Err.Error err) = false ->
   CalculateGasEstimations w request s =
     (Ret (mkEst None (Some (FallbackGasTipCap request))
                 (Some (FallbackGasFeeCap request))),
      mkSt (client s) (heapNext s)
           (calls s ++ [RPC_SuggestedEIP1559Fees (Priority request)])))
  /\ (EIP1559DynamicFees (Network (Cfg (client s))) = false ->
      GetSuggestedLegacyFees w (Priority request) = inr err ->
      CalculateGasEstimations w request s =
        (Ret (mkEst (Some (FallbackGasPrice request)) None None),
         mkSt (client s) (heapNext s)
              (calls s ++ [RPC_SuggestedLegacyFees (Priority request)]))).
Proof.
  intros Hsim Hen Hzero.
  split; intros; unfold CalculateGasEstimations, calculateLegacyFees,
                   disableEstimationsIfNeeded;
    unfold bind at 1; unfold get at 1;
    rewrite Hsim, Hen; cbn [orb negb];
    match goal with H : EIP1559DynamicFees _ = _ |- _ => rewrite H end;
    unfold bind at 1; unfold emit at 1;
    match goal with H : _ = inr _ |- _ => rewrite H end;
    rewrite Hzero;
    try match goal with H : eip1559Unsupported _ = false |- _ => rewrite H end;
    reflexivity.
Qed.

(** X17.  A key number above the number of addresses, or below zero, is
    refused without a call to the node; the error says that the key
    number is out of range, it is carried by the options returned, and it
    stops the next [Decode], whatever that is given: the join [Decode]
    returns wraps it, and no call is made there either. *)
Theorem NewTXKeyOpts_refusal_stops_Decode (w w' : World) (keyNum : Z)
        (o : list TransactOpt) (tx : pointer Transaction)
        (txErr : option error) (s : St) :
  keyNum > Z.of_nat (List.length (Addresses (client s))) \/ keyNum < 0 ->
  exists opts err s',
    NewTXKeyOpts w keyNum o s = (Ret (Some opts), s')
    /\ carriedError opts = Some err
    /\ Strings.Contains (Err.Error err) "keyNum is out of range" = true
    /\ calls s' = calls s
    /\ exists joined s'',
         Decode w' tx txErr s' = (Ret (None, Some joined), s'')
         /\ Err.Is joined err = true
         /\ calls s'' = calls s.
Proof.
  intros H.
  set (err := Fundamental (heapNext s)
                (outOfRangeText
                   (Z.of_nat (List.length (Addresses (client s)))) keyNum)).
  exists (poisoned err), err,
    (mkSt (set_Errors (Errors (client s) ++ [err]) (client s))
          (S (heapNext s)) (calls s)).
  split.
  { unfold NewTXKeyOpts. unfold bind at 1. unfold get at 1.
    replace ((keyNum >? Z.of_nat (List.length (Addresses (client s))))
             || (keyNum <? 0)) with true; [reflexivity |].
    symmetry. apply orb_true_iff.
    destruct H as [H | H]; [left; apply Z.gtb_lt | right; apply Z.ltb_lt]; lia. }
  split; [reflexivity |].
  split.
  { unfold err, outOfRangeText. cbn [Err.Error].
    destruct (keyNum =? TimeoutKeyNum); rewrite Contains_unfold; reflexivity. }
  split; [reflexivity |].
  do 2 eexists. split; [apply Decode_joins; simpl; now destruct (Errors (client s)) |].
  split; [| reflexivity].
  apply Is_joined. simpl. apply in_or_app. right. now left.
Qed.

(* ---------------------------------------------------------------- *)
(** *** ValidateConfig *)

Lemma isTracingLevel_spec (l : string) :
  isTracingLevel l = true ->
  l = TracingLevel_None \/ l = TracingLevel_Reverted \/ l = TracingLevel_All.
Proof.
  unfold isTracingLevel. intros H.
  apply orb_true_iff in H. destruct H as [H | H];
    [apply orb_true_iff in H; destruct H as [H | H] |];
    apply String.eqb_eq in H; auto.
Qed.

Lemma isPriority_spec (pkg : Package) (p : string) :
  isPriority pkg p = true ->
  p = Priority_Degen pkg \/ p = Priority_Fast pkg
  \/ p = Priority_Standard pkg \/ p = Priority_Slow pkg.
Proof.
  unfold isPriority. intros H.
  repeat (apply orb_true_iff in H; destruct H as [H | H]);
    apply String.eqb_eq in H; auto.
Qed.

Lemma isKeyFileSource_spec (pkg : Package) (src : string) :
  isKeyFileSource pkg src = true ->
  src = EmptyString \/ src = KeyFileSourceFile pkg
  \/ src = KeyFileSourceBase64EnvVar pkg.
Proof.
  unfold isKeyFileSource. intros H.
  repeat (apply orb_true_iff in H; destruct H as [H | H]);
    apply String.eqb_eq in H; auto.
Qed.

(** X18.  A configuration that [ValidateConfig] accepts has a tracing
    level that is NONE, REVERTED or ALL; a key file source that is empty
    or one of the two known; no key file source together with ephemeral
    addresses; a key file path when the source is the file; and, when gas
    estimation is enabled, a block count that is not zero and a priority
    that is one of the four. *)
Theorem ValidateConfig_accepts (pkg : Package) (c c' : Config) (k : ConfigRest) :
  ValidateConfig pkg c k = (c', None) ->
  (TracingLevel c' = TracingLevel_None
   \/ TracingLevel c' = TracingLevel_Reverted
   \/ TracingLevel c' = TracingLevel_All)
  /\ (KeyFileSource k = EmptyString
      \/ KeyFileSource k = KeyFileSourceFile pkg
      \/ KeyFileSource k = KeyFileSourceBase64EnvVar pkg)
  /\ (KeyFileSource k <> EmptyString ->
      EphemeralAddrs k = None \/ EphemeralAddrs k = Some 0)
  /\ (KeyFileSource k = KeyFileSourceFile pkg -> KeyFilePath k <> EmptyString)
  /\ (GasPriceEstimationEnabled (Network c') = true ->
      GasPriceEstimationBlocks k <> 0
      /\ (priority c' = Priority_Degen pkg \/ priority c' = Priority_Fast pkg
          \/ priority c' = Priority_Standard pkg
          \/ priority c' = Priority_Slow pkg)).
Proof.
  unfold ValidateConfig.
  destruct (GasPriceEstimationEnabled (Network c)) eqn:Een.
  - destruct (GasPriceEstimationBlocks k =? 0) eqn:Eblocks; [discriminate |].
    match goal with
    | |- context [if isPriority pkg (priority ?c1) then _ else _] =>
        remember c1 as cp eqn:Ecp
    end.
    assert (Hen : GasPriceEstimationEnabled (Network cp) = true).
    { subst cp. unfold priority, set_priority. simpl.
      destruct (String.eqb _ EmptyString); simpl; exact Een. }
    clear Ecp.
    destruct (isPriority pkg (priority cp)) eqn:Eprio; [| discriminate].
    match goal with
    | |- context [isTracingLevel (TracingLevel ?c1)] =>
        remember c1 as ct eqn:Ect
    end.
    assert (Hsame : Network ct = Network cp).
    { subst ct. destruct (String.eqb (TracingLevel cp) EmptyString); reflexivity. }
    clear Ect.
    destruct (isTracingLevel (TracingLevel ct)) eqn:Elvl; [| discriminate].
    cbn [negb].
    destruct (negb (String.eqb (KeyFileSource k) EmptyString)
              && match EphemeralAddrs k with
                 | Some n => negb (n =? 0)
                 | None => false
                 end) eqn:Eeph; [discriminate |].
    destruct (isKeyFileSource pkg (KeyFileSource k)) eqn:Esrc; [| discriminate].
    cbn [negb].
    destruct (String.eqb (KeyFileSource k) (KeyFileSourceFile pkg)
              && String.eqb (KeyFilePath k) EmptyString) eqn:Epath;
      [discriminate |].
    intros H. injection H as <-.
    split; [now apply isTracingLevel_spec |].
    split; [now apply isKeyFileSource_spec |].
    split; [| split].
    + intros Hne. apply andb_false_iff in Eeph. destruct Eeph as [E | E].
      * apply negb_false_iff, String.eqb_eq in E. contradiction.
      * destruct (EphemeralAddrs k) as [n |]; [| now left].
        apply negb_false_iff, Z.eqb_eq in E. right. now subst.
    + intros Hfile Hpath. rewrite Hfile, Hpath, !String.eqb_refl in Epath.
      discriminate.
    + intros _. split; [now apply Z.eqb_neq |].
      unfold priority in *. rewrite Hsame. now apply isPriority_spec.
  - match goal with
    | |- context [isTracingLevel (TracingLevel ?c1)] =>
        remember c1 as ct eqn:Ect
    end.
    assert (Hsame : Network ct = Network c).
    { subst ct. destruct (String.eqb (TracingLevel c) EmptyString); reflexivity. }
    clear Ect.
    destruct (isTracingLevel (TracingLevel ct)) eqn:Elvl; [| discriminate].
    cbn [negb].
    destruct (negb (String.eqb (KeyFileSource k) EmptyString)
              && match EphemeralAddrs k with
                 | Some n => negb (n =? 0)
                 | None => false
                 end) eqn:Eeph; [discriminate |].
    destruct (isKeyFileSource pkg (KeyFileSource k)) eqn:Esrc; [| discriminate].
    cbn [negb].
    destruct (String.eqb (KeyFileSource k) (KeyFileSourceFile pkg)
              && String.eqb (KeyFilePath k) EmptyString) eqn:Epath;
      [discriminate |].
    intros H. injection H as <-.
    split; [now apply isTracingLevel_spec |].
    split; [now apply isKeyFileSource_spec |].
    split; [| split].
    + intros Hne. apply andb_false_iff in Eeph. destruct Eeph as [E | E].
      * apply negb_false_iff, String.eqb_eq in E. contradiction.
      * destruct (EphemeralAddrs k) as [n |]; [| now left].
        apply negb_false_iff, Z.eqb_eq in E. right. now subst.
    + intros Hfile Hpath. rewrite Hfile, Hpath, !String.eqb_refl in Epath.
      discriminate.
    + rewrite Hsame, Een. discriminate.
Qed.

(** X19.  Whatever [ValidateConfig] returns, all it has written to the
    configuration is the priority of the gas estimation and the tracing
    level. *)
Theorem ValidateConfig_writes (pkg : Package) (c c' : Config) (k : ConfigRest)
        (err : option string) :
  ValidateConfig pkg c k = (c', err) ->
  c' = set_priority (priority c') (set_TracingLevel (TracingLevel c') c).
Proof.
  destruct c as [lvl json file prot [name en prio eip gp gf gt gl]].
  unfold ValidateConfig, priority, set_priority, set_TracingLevel,
    set_Network, set_GasPriceEstimationTxPriority. simpl.
  destruct en; [destruct (GasPriceEstimationBlocks k =? 0) |]; simpl;
    try (intros H; injection H as <- <-; reflexivity);
    try destruct (String.eqb (strings_ToLower pkg prio) EmptyString); simpl;
    try destruct (isPriority pkg _); simpl;
    try (intros H; injection H as <- <-; reflexivity);
    destruct (String.eqb lvl EmptyString); simpl;
    destruct (isTracingLevel _); simpl;
    try (intros H; injection H as <- <-; reflexivity);
    destruct (negb (String.eqb (KeyFileSource k) EmptyString) && _); simpl;
    try (intros H; injection H as <- <-; reflexivity);
    destruct (isKeyFileSource pkg (KeyFileSource k)); simpl;
    try (intros H; injection H as <- <-; reflexivity);
    destruct (String.eqb (KeyFileSource k) (KeyFileSourceFile pkg) && _);
    intros H; injection H as <- <-; reflexivity.
Qed.

(** X20.  The defaults of [ValidateConfig]: in a configuration it accepts,
    a tracing level that was empty has become what [strings.ToUpper] makes
    of REVERTED, and, with gas estimation enabled, a priority that was
    empty once lowered has become the standard priority. *)
Theorem ValidateConfig_defaults (pkg : Package) (c c' : Config) (k : ConfigRest) :
  ValidateConfig pkg c k = (c', None) ->
  (TracingLevel c = EmptyString ->
   TracingLevel c' = strings_ToUpper pkg TracingLevel_Reverted)
  /\ (GasPriceEstimationEnabled (Network c) = true ->
      strings_ToLower pkg (priority c) = EmptyString ->
      priority c' = Priority_Standard pkg).
Proof.
  destruct c as [lvl json file prot [name en prio eip gp gf gt gl]].
  unfold ValidateConfig, priority, set_priority, set_TracingLevel,
    set_Network, set_GasPriceEstimationTxPriority. simpl.
  destruct en; [destruct (GasPriceEstimationBlocks k =? 0) |]; simpl;
    try discriminate;
    try destruct (String.eqb (strings_ToLower pkg prio) EmptyString) eqn:Eprio;
    simpl;
    try destruct (isPriority pkg _); simpl; try discriminate;
    destruct (String.eqb lvl EmptyString) eqn:Elvl; simpl;
    destruct (isTracingLevel _); simpl; try discriminate;
    destruct (negb (String.eqb (KeyFileSource k) EmptyString) && _); simpl;
    try discriminate;
    destruct (isKeyFileSource pkg (KeyFileSource k)); simpl; try discriminate;
    destruct (String.eqb (KeyFileSource k) (KeyFileSourceFile pkg) && _);
    try discriminate;
    intros H; injection H as <-; simpl;
    (split; [intros Hl | intros He Hp]);
    try reflexivity; try discriminate;
    try (rewrite Hl in Elvl; discriminate Elvl);
    try (rewrite Hp in Eprio; discriminate Eprio).
Qed.

(** X21.  Validation is idempotent: when the case mappings of [strings]
    are idempotent and the standard priority is in lower case, a
    configuration that [ValidateConfig] has accepted and left behind is
    accepted again and left as it is. *)
Theorem ValidateConfig_idempotent (pkg : Package) (c c' : Config) (k : ConfigRest) :
  (forall s, strings_ToLower pkg (strings_ToLower pkg s) = strings_ToLower pkg s) ->
  (forall s, strings_ToUpper pkg (strings_ToUpper pkg s) = strings_ToUpper pkg s) ->
  strings_ToLower pkg (Priority_Standard pkg) = Priority_Standard pkg ->
  ValidateConfig pkg c k = (c', None) ->
  ValidateConfig pkg c' k = (c', None).
Proof.
  intros Hlower Hupper Hstd.
  destruct c as [lvl json file prot [name en prio eip gp gf gt gl]].
  unfold ValidateConfig, priority, set_priority, set_TracingLevel,
    set_Network, set_GasPriceEstimationTxPriority. simpl.
  assert (Hlevel : forall l, isTracingLevel l = true ->
                     String.eqb l EmptyString = false).
  { intros l H. apply isTracingLevel_spec in H.
    destruct H as [-> | [-> | ->]]; reflexivity. }
  destruct en; [destruct (GasPriceEstimationBlocks k =? 0) eqn:Eblocks |];
    simpl; try discriminate;
    try destruct (String.eqb (strings_ToLower pkg prio) EmptyString) eqn:Eprio;
    simpl;
    try destruct (isPriority pkg _) eqn:Eis; simpl; try discriminate;
    destruct (String.eqb lvl EmptyString) eqn:Elvl; simpl;
    destruct (isTracingLevel _) eqn:Etl; simpl; try discriminate;
    destruct (negb (String.eqb (KeyFileSource k) EmptyString) && _) eqn:Eeph;
    simpl; try discriminate;
    destruct (isKeyFileSource pkg (KeyFileSource k)) eqn:Esrc; simpl;
    try discriminate;
    destruct (String.eqb (KeyFileSource k) (KeyFileSourceFile pkg) && _) eqn:Epath;
    try discriminate;
    intros H; injection H as <-; simpl;
    rewrite ?Eblocks, ?Hstd, ?Hlower, ?Eprio; simpl;
    try (destruct (String.eqb (Priority_Standard pkg) EmptyString); simpl);
    repeat (progress (rewrite ?Eis, ?Hupper, ?(Hlevel _ Etl), ?Etl, ?Eeph,
                              ?Esrc, ?Epath; simpl));
    reflexivity.
Qed.

(* ---------------------------------------------------------------- *)
(** *** Decoding the logs of a receipt *)

Section Logs.

Variable codec : LogCodec.
Variable pkg : Package.
Variable a : list ABIEvent.

(** One turn of the inner loop. *)
Lemma decodeLogEvents_cons (lo : Log) (ev : ABIEvent) (events : list ABIEvent)
      (acc : list DecodedTransactionLog) (s : St) :
  decodeLogEvents codec pkg a lo (ev :: events) acc s =
  match LogTopics lo with
  | [] => (Panic "index out of range", s)
  | topic0 :: _ =>
      if String.eqb (Hash_Hex (EventID ev)) (Hash_Hex topic0) then
        match decodeEventFromLog codec a ev (LogTopics lo) (LogData lo) with
        | inr err =>
            (Ret (inr (WithMessage (heapNext s) err (ErrDecodeLog pkg))),
             mkSt (client s) (S (heapNext s)) (calls s))
        | inl (eventsMap, topicsMap) =>
            match decodedLogFromMaps codec emptyDecodedLog eventsMap topicsMap with
            | Some d =>
                decodeLogEvents codec pkg a lo events
                  (acc ++ [mergeLogMeta (set_Signature (Sig ev) d) lo]) s
            | None => decodeLogEvents codec pkg a lo events acc s
            end
        end
      else decodeLogEvents codec pkg a lo events acc s
  end.
Proof.
  cbn [decodeLogEvents]. unfold bind at 1. unfold index.
  destruct (LogTopics lo) as [| topic0 topics]; [reflexivity |].
  cbn [List.length]. 
  replace ((0 <=? 0) && (0 <? Z.of_nat (S (List.length topics)))) with true
    by (symmetry; apply andb_true_iff; split;
        [reflexivity | apply Z.ltb_lt; lia]).
  cbn [Z.to_nat nth_error ret].
  destruct (String.eqb (Hash_Hex (EventID ev)) (Hash_Hex topic0)); [| reflexivity].
  destruct (decodeEventFromLog codec a ev (topic0 :: topics) (LogData lo))
    as [[eventsMap topicsMap] | err]; [| reflexivity].
  destruct (decodedLogFromMaps codec emptyDecodedLog eventsMap topicsMap);
    reflexivity.
Qed.

(** What the inner loop returns when it returns a list: the list it was
    given, followed by logs decoded from this log and one of the events,
    with the state as it was. *)
Lemma decodeLogEvents_added (lo : Log) :
  forall (events : list ABIEvent) (acc acc' : list DecodedTransactionLog)
         (s s' : St),
    decodeLogEvents codec pkg a lo events acc s = (Ret (inl acc'), s') ->
    s' = s
    /\ exists added,
         acc' = acc ++ added
         /\ Forall (fun d => exists ev, In ev events /\ decodedFrom lo ev d) added.
Proof.
  induction events as [| ev events IH]; intros acc acc' s s' H.
  - injection H as <- <-. split; [reflexivity |].
    exists []. now rewrite app_nil_r.
  - rewrite decodeLogEvents_cons in H.
    destruct (LogTopics lo) as [| topic0 topics] eqn:Etopics; [discriminate |].
    assert (Hweaken : forall added,
              Forall (fun d => exists ev0, In ev0 events /\ decodedFrom lo ev0 d) added ->
              Forall (fun d => exists ev0, In ev0 (ev :: events)
                                           /\ decodedFrom lo ev0 d) added).
    { intros added. apply Forall_impl. intros d (ev0 & Hin & Hd).
      exists ev0. split; [now right | exact Hd]. }
    destruct (String.eqb (Hash_Hex (EventID ev)) (Hash_Hex topic0)) eqn:Eid.
    + destruct (decodeEventFromLog codec a ev (topic0 :: topics) (LogData lo))
        as [[eventsMap topicsMap] | err]; [| discriminate].
      destruct (decodedLogFromMaps codec emptyDecodedLog eventsMap topicsMap)
        as [d |].
      * destruct (IH _ _ _ _ H) as (-> & added & -> & Hall).
        split; [reflexivity |].
        exists (mergeLogMeta (set_Signature (Sig ev) d) lo :: added).
        split; [now rewrite <- app_assoc |].
        constructor; [| now apply Hweaken].
        exists ev. split; [now left |].
        apply String.eqb_eq in Eid. unfold Hash_Hex in Eid.
        unfold decodedFrom. simpl. rewrite !Etopics. simpl. rewrite Eid.
        repeat split.
      * destruct (IH _ _ _ _ H) as (-> & added & -> & Hall).
        split; [reflexivity |]. exists added. split; [reflexivity |].
        now apply Hweaken.
    + destruct (IH _ _ _ _ H) as (-> & added & -> & Hall).
      split; [reflexivity |]. exists added. split; [reflexivity |].
      now apply Hweaken.
Qed.

Lemma decodeLogs_added :
  forall (logs : list Log) (orders : list (list ABIEvent))
         (acc acc' : list DecodedTransactionLog) (s s' : St),
    Forall (fun o => incl o a) orders ->
    decodeLogs codec pkg a logs orders acc s = (Ret (inl acc'), s') ->
    s' = s
    /\ exists added,
         acc' = acc ++ added
         /\ Forall (fun d => exists lo ev,
                        In lo logs /\ In ev a /\ decodedFrom lo ev d) added.
Proof.
  induction logs as [| lo logs IH]; intros orders acc acc' s s' Hin H.
  - injection H as <- <-. split; [reflexivity |].
    exists []. now rewrite app_nil_r.
  - cbn [decodeLogs] in H. unfold bind in H.
    assert (Hhd : incl (hd a orders) a)
      by (destruct Hin; [apply incl_refl | assumption]).
    assert (Htl : Forall (fun o => incl o a) (tl orders))
      by (destruct Hin; [constructor | assumption]).
    destruct (decodeLogEvents codec pkg a lo (hd a orders) acc s)
      as [[[parsed | e] | msg] s1] eqn:Einner; try discriminate.
    destruct (decodeLogEvents_added lo _ _ _ _ _ Einner)
      as (-> & added1 & -> & Hall1).
    destruct (IH _ _ _ _ _ Htl H) as (-> & added2 & -> & Hall2).
    split; [reflexivity |].
    exists (added1 ++ added2). split; [now rewrite app_assoc |].
    apply Forall_app. split.
    + revert Hall1. apply Forall_impl. intros d (ev & Hev & Hd).
      exists lo, ev. split; [now left | split; [now apply Hhd | assumption]].
    + revert Hall2. apply Forall_impl. intros d (lo0 & ev & Hlo & Hev & Hd).
      exists lo0, ev. split; [now right | split; assumption].
Qed.

(** X22.  When [decodeContractLogs] returns without error, every decoded
    log it returns was made from one of the logs given and from an event
    of the ABI whose identifier is the first topic of that log: it has the
    signature of the event and the address, topics, block number, index,
    transaction hash and index and the removed flag of the log.  The
    client is left as it was.  This holds in whatever order the events of
    the ABI are visited. *)
Theorem decodeContractLogs_metadata (logs : list Log)
        (orders : list (list ABIEvent))
        (parsed : list DecodedTransactionLog) (s s' : St) :
  Forall (fun o => incl o a) orders ->
  decodeContractLogs codec pkg logs a orders s = (Ret (parsed, None), s') ->
  s' = s
  /\ Forall (fun d => exists lo ev,
                 In lo logs /\ In ev a /\ decodedFrom lo ev d) parsed.
Proof.
  unfold decodeContractLogs, bind. intros Hin H.
  destruct (decodeLogs codec pkg a logs orders [] s) as [[[p | e] | msg] s1] eqn:E;
    try discriminate.
  injection H as <- <-.
  destruct (decodeLogs_added _ _ _ _ _ _ Hin E) as (-> & added & -> & Hall).
  split; [reflexivity | exact Hall].
Qed.

Lemma decodeLogEvents_unclaimed (lo : Log) (topic0 : Hash) (topics : list Hash) :
  LogTopics lo = topic0 :: topics ->
  forall (events : list ABIEvent) (acc : list DecodedTransactionLog) (s : St),
    existsb (fun ev => String.eqb (Hash_Hex (EventID ev)) (Hash_Hex topic0)) events
      = false ->
    decodeLogEvents codec pkg a lo events acc s = (Ret (inl acc), s).
Proof.
  intros Htopics. induction events as [| ev events IH]; intros acc s H.
  - reflexivity.
  - simpl in H. apply orb_false_iff in H. destruct H as [Hev Hrest].
    rewrite decodeLogEvents_cons, Htopics, Hev. now apply IH.
Qed.

(** A log that no event of the ABI claims is claimed by none of the
    events a range visits. *)
Lemma claimed_incl (lo : Log) (o : list ABIEvent) :
  incl o a -> claimed a lo = false -> claimed o lo = false.
Proof.
  unfold claimed. intros Hin H.
  destruct (LogTopics lo) as [| topic0 topics]; [reflexivity |].
  destruct (existsb _ o) eqn:E; [| reflexivity].
  apply existsb_exists in E. destruct E as (ev & Hev & Heq).
  rewrite <- H. symmetry. apply existsb_exists. exists ev.
  split; [now apply Hin | exact Heq].
Qed.

Lemma decodeLogs_app :
  forall (logs1 logs2 : list Log) (orders1 orders2 : list (list ABIEvent))
         (acc : list DecodedTransactionLog) (s : St),
    List.length orders1 = List.length logs1 ->
    decodeLogs codec pkg a (logs1 ++ logs2) (orders1 ++ orders2) acc s
    = match decodeLogs codec pkg a logs1 orders1 acc s with
      | (Ret (inl parsed), s') => decodeLogs codec pkg a logs2 orders2 parsed s'
      | other => other
      end.
Proof.
  induction logs1 as [| lo logs1 IH]; intros logs2 orders1 orders2 acc s Hlen.
  - destruct orders1; [reflexivity | discriminate].
  - destruct orders1 as [| o orders1]; [discriminate |].
    cbn [app decodeLogs hd tl]. unfold bind.
    destruct (decodeLogEvents codec pkg a lo o acc s)
      as [[[parsed | e] | msg] s1]; try reflexivity.
    apply IH. simpl in Hlen. congruence.
Qed.

(** X23.  A log that no event of the ABI claims is skipped: when it has a
    topic, and its first topic is the identifier of no event of the ABI,
    decoding the logs with it gives what decoding them without it gives. *)
Theorem decodeContractLogs_skips_unclaimed (logs1 logs2 : list Log) (lo : Log)
        (orders1 orders2 : list (list ABIEvent)) (o : list ABIEvent) (s : St) :
  List.length orders1 = List.length logs1 ->
  incl o a ->
  LogTopics lo <> [] ->
  claimed a lo = false ->
  decodeContractLogs codec pkg (logs1 ++ lo :: logs2) a
                     (orders1 ++ o :: orders2) s
  = decodeContractLogs codec pkg (logs1 ++ logs2) a (orders1 ++ orders2) s.
Proof.
  intros Hlen Hin Htopics Hclaimed.
  apply (claimed_incl lo o Hin) in Hclaimed. unfold claimed in Hclaimed.
  destruct (LogTopics lo) as [| topic0 topics] eqn:Etopics; [now elim Htopics |].
  unfold decodeContractLogs, bind.
  rewrite !decodeLogs_app by exact Hlen.
  destruct (decodeLogs codec pkg a logs1 orders1 [] s)
    as [[[parsed | e] | msg] s1]; try reflexivity.
  cbn [decodeLogs hd tl]. unfold bind.
  now rewrite (decodeLogEvents_unclaimed lo topic0 topics Etopics o parsed s1
                 Hclaimed).
Qed.

Lemma decodeLogEvents_acc (lo : Log) :
  forall (events : list ABIEvent) (acc : list DecodedTransactionLog) (s : St),
    decodeLogEvents codec pkg a lo events acc s
    = match decodeLogEvents codec pkg a lo events [] s with
      | (Ret (inl parsed), s') => (Ret (inl (acc ++ parsed)), s')
      | other => other
      end.
Proof.
  induction events as [| ev events IH]; intros acc s.
  - simpl. unfold ret. now rewrite app_nil_r.
  - rewrite !decodeLogEvents_cons.
    destruct (LogTopics lo) as [| topic0 topics]; [reflexivity |].
    destruct (String.eqb (Hash_Hex (EventID ev)) (Hash_Hex topic0));
      [| apply IH].
    destruct (decodeEventFromLog codec a ev (topic0 :: topics) (LogData lo))
      as [[eventsMap topicsMap] | err]; [| reflexivity].
    destruct (decodedLogFromMaps codec emptyDecodedLog eventsMap topicsMap)
      as [d |]; [| apply IH].
    rewrite (IH (acc ++ _)), (IH ([] ++ _)).
    destruct (decodeLogEvents codec pkg a lo events [] s)
      as [[[parsed | e] | msg] s1]; try reflexivity.
    now rewrite <- app_assoc.
Qed.

Lemma decodeLogs_acc :
  forall (logs : list Log) (orders : list (list ABIEvent))
         (acc : list DecodedTransactionLog) (s : St),
    decodeLogs codec pkg a logs orders acc s
    = match decodeLogs codec pkg a logs orders [] s with
      | (Ret (inl parsed), s') => (Ret (inl (acc ++ parsed)), s')
      | other => other
      end.
Proof.
  induction logs as [| lo logs IH]; intros orders acc s.
  - simpl. unfold ret. now rewrite app_nil_r.
  - cbn [decodeLogs]. unfold bind.
    rewrite (decodeLogEvents_acc lo (hd a orders) acc s).
    destruct (decodeLogEvents codec pkg a lo (hd a orders) [] s)
      as [[[parsed | e] | msg] s1]; try reflexivity.
    rewrite (IH (tl orders) (acc ++ parsed)), (IH (tl orders) parsed).
    destruct (decodeLogs codec pkg a logs (tl orders) [] s1)
      as [[[parsed' | e] | msg] s2]; try reflexivity.
    now rewrite <- app_assoc.
Qed.

(** X24.  The logs are decoded one after the other, in the order given:
    when a first batch decodes without error, decoding it followed by a
    second batch gives what the first gave followed by what the second
    gives; and when the second fails, the failure is returned alone, what
    the first batch gave being dropped. *)
Theorem decodeContractLogs_app (logs1 logs2 : list Log)
        (orders1 orders2 : list (list ABIEvent))
        (parsed1 parsed2 : list DecodedTransactionLog) (err : option error)
        (s s1 s2 : St) :
  List.length orders1 = List.length logs1 ->
  decodeContractLogs codec pkg logs1 a orders1 s = (Ret (parsed1, None), s1) ->
  decodeContractLogs codec pkg logs2 a orders2 s1 = (Ret (parsed2, err), s2) ->
  decodeContractLogs codec pkg (logs1 ++ logs2) a (orders1 ++ orders2) s
  = (Ret (match err with
          | None => parsed1 ++ parsed2
          | Some _ => []
          end, err), s2).
Proof.
  unfold decodeContractLogs, bind. intros Hlen H1 H2.
  rewrite decodeLogs_app by exact Hlen.
  destruct (decodeLogs codec pkg a logs1 orders1 [] s)
    as [[[p1 | e1] | msg1] t1]; try discriminate.
  injection H1 as <- <-.
  rewrite decodeLogs_acc.
  destruct (decodeLogs codec pkg a logs2 orders2 [] t1)
    as [[[p2 | e2] | msg2] t2]; try discriminate;
    injection H2 as <- <- <-; reflexivity.
Qed.

(** X25.  A log without topics makes [decodeContractLogs] panic as soon
    as the range over the events of the ABI has an event to compare it
    with, whatever comes after it; with an ABI that has no event nothing
    is compared, and any logs decode to nothing. *)
Theorem decodeContractLogs_no_topics (lo : Log) (logs : list Log)
        (orders : list (list ABIEvent)) (s : St) :
  (LogTopics lo = [] -> hd a orders <> [] ->
   decodeContractLogs codec pkg (lo :: logs) a orders s
     = (Panic "index out of range", s))
  /\ (a = [] -> Forall (fun o => incl o a) orders ->
      decodeContractLogs codec pkg (lo :: logs) a orders s = (Ret ([], None), s)).
Proof.
  split.
  - intros Htopics Ha.
    assert (Hinner : forall events acc,
              events <> [] ->
              decodeLogEvents codec pkg a lo events acc s
              = (Panic "index out of range", s)).
    { intros [| ev events] acc Hne; [now elim Hne |].
      now rewrite decodeLogEvents_cons, Htopics. }
    unfold decodeContractLogs. cbn [decodeLogs]. unfold bind.
    now rewrite (Hinner (hd a orders) [] Ha).
  - intros Ha Hin. unfold decodeContractLogs, bind.
    assert (H : forall l os acc t,
              Forall (fun o => incl o a) os ->
              decodeLogs codec pkg a l os acc t = (Ret (inl acc), t)).
    { induction l as [| lo0 l IH]; intros os acc t Hos; [reflexivity |].
      cbn [decodeLogs]. unfold bind.
      assert (Hhd : hd a os = []).
      { destruct Hos as [| o os Ho Hos]; [exact Ha |].
        simpl. rewrite Ha in Ho. now apply incl_l_nil. }
      rewrite Hhd. cbn [decodeLogEvents]. unfold ret. apply IH.
      destruct Hos; [constructor | assumption]. }
    now rewrite (H _ _ _ _ Hin).
Qed.

(** X26.  When the first event that the range visits and that claims a
    log cannot be decoded from it, [decodeContractLogs] returns no logs
    and the error of the decoder wrapped with the text for an undecodable
    log; the logs after it are not looked at. *)
Theorem decodeContractLogs_decode_error (lo : Log) (logs : list Log)
        (orders : list (list ABIEvent))
        (before after_ : list ABIEvent) (ev : ABIEvent) (topic0 : Hash)
        (topics : list Hash) (err : error) (s : St) :
  hd a orders = before ++ ev :: after_ ->
  LogTopics lo = topic0 :: topics ->
  existsb (fun e => String.eqb (Hash_Hex (EventID e)) (Hash_Hex topic0)) before
    = false ->
  EventID ev = topic0 ->
  decodeEventFromLog codec a ev (LogTopics lo) (LogData lo) = inr err ->
  decodeContractLogs codec pkg (lo :: logs) a orders s
  = (Ret ([], Some (WithMessage (heapNext s) err (ErrDecodeLog pkg))),
     mkSt (client s) (S (heapNext s)) (calls s)).
Proof.
  intros Ha Htopics Hbefore Hid Herr.
  unfold decodeContractLogs. cbn [decodeLogs]. unfold bind.
  assert (Hinner : decodeLogEvents codec pkg a lo (before ++ ev :: after_) [] s
                   = (Ret (inr (WithMessage (heapNext s) err (ErrDecodeLog pkg))),
                      mkSt (client s) (S (heapNext s)) (calls s))).
  { clear Ha. generalize (@nil DecodedTransactionLog) as acc.
    induction before as [| e0 before IH]; intros acc.
    - cbn [app]. rewrite decodeLogEvents_cons, Htopics.
      rewrite Hid, String.eqb_refl. rewrite <- Htopics, Herr. reflexivity.
    - simpl in Hbefore. apply orb_false_iff in Hbefore.
      destruct Hbefore as [He0 Hrest].
      cbn [app]. rewrite decodeLogEvents_cons, Htopics, He0.
      now apply IH. }
  rewrite Ha, Hinner. reflexivity.
Qed.

End Logs.

(* ---------------------------------------------------------------- *)
(** *** Transfers from a key *)

Lemma append_assoc (a b c : string) :
  ((a ++ b) ++ c = a ++ (b ++ c))%string.
Proof. induction a as [| ch a IH]; simpl; [reflexivity | now rewrite IH]. Qed.

Lemma Records_bind {A B} (c : M A) (k : A -> M B) :
  Records c -> (forall a, Records (k a)) -> Records (bind c k).
Proof.
  intros Hc Hk s. unfold bind. destruct (Hc s) as [more1 H1].
  destruct (c s) as [[a | msg] s1]; simpl in *.
  - destruct (Hk a s1) as [more2 H2]. exists (more1 ++ more2).
    now rewrite H2, H1, app_assoc.
  - now exists more1.
Qed.

Lemma Records_same {A} (c : M A) :
  (forall s, calls (snd (c s)) = calls s) -> Records c.
Proof. intros H s. exists []. now rewrite app_nil_r. Qed.

Lemma Records_emit (e : Event) : Records (emit e).
Proof. intros s. now exists [e]. Qed.

Lemma Records_index {A} (l : list A) (i : Z) : Records (index l i).
Proof.
  apply Records_same. intros s. unfold index.
  destruct ((0 <=? i) && (i <? Z.of_nat (List.length l))); [| reflexivity].
  destruct (nth_error l (Z.to_nat i)); reflexivity.
Qed.

Lemma Records_errors_Wrap (err : error) (msg : string) :
  Records (errors_Wrap err msg).
Proof. now apply Records_same. Qed.

Lemma Records_WaitMined (w : World) (tx : Transaction) : Records (WaitMined w tx).
Proof.
  intros s. destruct (WaitMined_run w tx s) as (out & n & ->).
  now eexists.
Qed.

Ltac records_step :=
  first [ apply Records_emit | apply Records_index | apply Records_errors_Wrap
        | apply Records_WaitMined
        | apply Records_same; reflexivity
        | apply Records_bind; [| intros ]
        | match goal with
          | |- Records (match ?x with _ => _ end) => destruct x
          end ].

(** X27.  A transfer from a key number above the number of private keys
    or above the number of addresses is refused before anything is asked
    of the node: the error returned says that the key could not be loaded
    and names the key number, and the client and the list of calls are as
    before.  For every other key number the transfer starts by asking the
    node for the network ID. *)
Theorem TransferETHFromKey_refused (wal : Wallet) (w : World) (rest : ConfigRest)
        (fromKeyNum : Z) (to : string) (value gasPrice : pointer Z) (s : St) :
  (fromKeyNum > Z.of_nat (List.length (PrivateKeys (client s)))
   \/ fromKeyNum > Z.of_nat (List.length (Addresses (client s))) ->
   exists err,
     TransferETHFromKey wal w rest fromKeyNum to value gasPrice s
       = (Ret (Some err), mkSt (client s) (S (S (heapNext s))) (calls s))
     /\ Err.Error err
        = ("requested key: " ++ Int.itoa fromKeyNum ++ ": " ++ ErrNoKeyLoaded)%string
     /\ Err.Is err (Fundamental (heapNext s) ErrNoKeyLoaded) = true)
  /\ (fromKeyNum <= Z.of_nat (List.length (PrivateKeys (client s))) ->
      fromKeyNum <= Z.of_nat (List.length (Addresses (client s))) ->
      exists more,
        calls (snd (TransferETHFromKey wal w rest fromKeyNum to value gasPrice s))
        = calls s ++ RPC_NetworkID :: more).
Proof.
  split.
  - intros H. unfold TransferETHFromKey. unfold bind at 1. unfold get at 1.
    replace ((fromKeyNum >? Z.of_nat (List.length (PrivateKeys (client s))))
             || (fromKeyNum >? Z.of_nat (List.length (Addresses (client s)))))
      with true
      by (symmetry; apply orb_true_iff;
          destruct H as [H | H]; [left | right]; apply Z.gtb_lt; lia).
    unfold_m. eexists. split; [reflexivity |]. split.
    + cbn [Err.Error]. now rewrite append_assoc.
    + simpl. rewrite Nat.eqb_refl. apply orb_true_r.
  - intros Hkeys Haddrs.
    unfold TransferETHFromKey. unfold bind at 1. unfold get at 1.
    replace ((fromKeyNum >? Z.of_nat (List.length (PrivateKeys (client s))))
             || (fromKeyNum >? Z.of_nat (List.length (Addresses (client s)))))
      with false
      by (symmetry; apply orb_false_iff; rewrite !Z.gtb_ltb;
          split; apply Z.ltb_ge; lia).
    unfold bind at 1. unfold emit at 1.
    match goal with
    | |- context [snd (?c ?st)] =>
        assert (Hrest : Records c);
        [| destruct (Hrest st) as [more Hmore]; exists more;
           rewrite Hmore; simpl; now rewrite <- app_assoc ]
    end.
    unfold EstimateGasLimitForFundTransfer.
    repeat records_step.
Qed.

(** X28.  The range test of a transfer lets through the key number that
    equals the number of addresses and every negative key number: the
    network ID is asked for, and once it is read the transfer panics on
    [m.Addresses[fromKeyNum]], before the gas is estimated. *)
Theorem TransferETHFromKey_panics (wal : Wallet) (w : World) (rest : ConfigRest)
        (fromKeyNum chainID : Z) (to : string) (value gasPrice : pointer Z)
        (s : St) :
  fromKeyNum < 0
  \/ (fromKeyNum = Z.of_nat (List.length (Addresses (client s)))
      /\ fromKeyNum <= Z.of_nat (List.length (PrivateKeys (client s)))) ->
  NetworkID wal = inl chainID ->
  TransferETHFromKey wal w rest fromKeyNum to value gasPrice s
    = (Panic "index out of range",
       mkSt (client s) (heapNext s) (calls s ++ [RPC_NetworkID])).
Proof.
  intros H Hid. unfold TransferETHFromKey. unfold bind at 1. unfold get at 1.
  replace ((fromKeyNum >? Z.of_nat (List.length (PrivateKeys (client s))))
           || (fromKeyNum >? Z.of_nat (List.length (Addresses (client s)))))
    with false
    by (symmetry; apply orb_false_iff; rewrite !Z.gtb_ltb;
        split; apply Z.ltb_ge; lia).
  unfold bind at 1. unfold emit at 1.
  rewrite Hid. apply bind_Panic. apply index_Panic. simpl. lia.
Qed.

Lemma uint64_int64_round_trip (n : Z) :
  Int.is_uint64 n -> uint64_of_int64 (Int.int64_of_uint64 n) = n.
Proof.
  unfold Int.is_uint64, uint64_of_int64, Int.int64_of_uint64, Int.two64, Int.two63.
  intros H.
  destruct (Z_lt_ge_dec n (2 ^ 63)) as [Hlt | Hge].
  - rewrite (Z.mod_small (n + 2 ^ 63)) by lia.
    rewrite Z.mod_small; lia.
  - replace (n + 2 ^ 63) with ((n - 2 ^ 63) + 1 * 2 ^ 64) by lia.
    rewrite Z.mod_add by lia.
    rewrite (Z.mod_small (n - 2 ^ 63)) by lia.
    replace (n - 2 ^ 63 - 2 ^ 63) with (n + (-1) * 2 ^ 64) by lia.
    rewrite Z.mod_add by lia. rewrite Z.mod_small; lia.
Qed.

(** X29.  What a transfer from a valid key sends, when the nonce manager
    has a next nonce for the key's address: the transaction it has signed
    carries that nonce, the recipient, the value, the gas limit the node
    estimated (the configured transfer gas fee when the estimate fails)
    and the gas price given (the configured one when none is given).  Up
    to the submission the node has been asked for the network ID, for the
    estimate and to send the transaction, in this order, and the client is
    as it was.  From there the transfer ends as [WaitMined] does: with nil
    when the receipt is returned, with the error of [WaitMined] when there
    is none, and with its panic when it panics. *)
Theorem TransferETHFromKey_sends (wal : Wallet) (w : World) (rest : ConfigRest)
        (fromKeyNum chainID gas nonce : Z) (to : string)
        (value gasPrice : pointer Z)
        (from : Address) (key : PrivateKey) (signed : Transaction) (s : St) :
  0 <= fromKeyNum ->
  nth_error (Addresses (client s)) (Z.to_nat fromKeyNum) = Some from ->
  nth_error (PrivateKeys (client s)) (Z.to_nat fromKeyNum) = Some key ->
  NetworkID wal = inl chainID ->
  NextNonce wal from = Some nonce ->
  (EstimateGas wal from (HexToAddress wal to) value = inl gas /\ Int.is_uint64 gas)
  \/ ((exists err, EstimateGas wal from (HexToAddress wal to) value = inr err)
      /\ gas = TransferGasFee rest mod Int.two64) ->
  SignNewTx wal key chainID
            (mkLegacyTx nonce (HexToAddress wal to) value gas
                        (Some match gasPrice with
                              | Some p => p
                              | None => GasPrice (Network (Cfg (client s)))
                              end)) = inl signed ->
  SendTransaction wal signed = None ->
  exists s1,
    client s1 = client s
    /\ calls s1 = calls s ++ [RPC_NetworkID;
                              RPC_EstimateGas from (HexToAddress wal to) value;
                              RPC_SendTransaction (TxHash signed)]
    /\ TransferETHFromKey wal w rest fromKeyNum to value gasPrice s
       = match WaitMined w signed s1 with
         | (Ret (inl _), s') => (Ret None, s')
         | (Ret (inr err), s') => (Ret (Some err), s')
         | (Panic msg, s') => (Panic msg, s')
         end.
Proof.
  intros Hk Hfrom Hkey Hid Hnonce Hgas Hsign Hsend.
  assert (Hlen : fromKeyNum < Z.of_nat (List.length (Addresses (client s)))).
  { assert (Z.to_nat fromKeyNum < List.length (Addresses (client s)))%nat
      by (apply nth_error_Some; congruence). lia. }
  assert (Hlenk : fromKeyNum < Z.of_nat (List.length (PrivateKeys (client s)))).
  { assert (Z.to_nat fromKeyNum < List.length (PrivateKeys (client s)))%nat
      by (apply nth_error_Some; congruence). lia. }
  assert (Hprice : match gasPrice with
                   | None => Some (GasPrice (Network (Cfg (client s))))
                   | Some p => Some p
                   end
                   = Some match gasPrice with
                          | Some p => p
                          | None => GasPrice (Network (Cfg (client s)))
                          end) by (destruct gasPrice; reflexivity).
  unfold TransferETHFromKey. unfold bind at 1. unfold get at 1.
  replace ((fromKeyNum >? Z.of_nat (List.length (PrivateKeys (client s))))
           || (fromKeyNum >? Z.of_nat (List.length (Addresses (client s)))))
    with false
    by (symmetry; apply orb_false_iff; rewrite !Z.gtb_ltb;
        split; apply Z.ltb_ge; lia).
  unfold bind at 1. unfold emit at 1.
  rewrite Hid, Hprice.
  set (s0 := mkSt (client s) (heapNext s) (calls s ++ [RPC_NetworkID])).
  rewrite (bind_Ret _ _ _ _ _ (index_Ret _ _ _ s0 Hk Hfrom)).
  unfold EstimateGasLimitForFundTransfer.
  unfold bind at 1. unfold bind at 1. unfold emit at 1.
  destruct Hgas as [[Hest Hrange] | [[err Hest] ->]]; rewrite Hest.
  - unfold ret at 1. cbn [client heapNext calls s0].
    set (s1 := mkSt (client s) (heapNext s) _).
    rewrite (bind_Ret _ _ _ _ _ (index_Ret _ _ _ s1 Hk Hfrom)).
    rewrite Hnonce. unfold bind at 1. unfold ret at 1.
    rewrite (bind_Ret _ _ _ _ _ (index_Ret _ _ _ s1 Hk Hkey)).
    rewrite (uint64_int64_round_trip _ Hrange), Hsign.
    unfold bind at 1. unfold emit at 1. rewrite Hsend.
    cbn [client heapNext calls s1].
    match goal with |- context [bind _ _ ?st] => exists st end.
    split; [reflexivity | split; [cbn [calls]; now rewrite <- !app_assoc |]].
    unfold bind, ret.
    destruct (WaitMined w signed _) as [[[r | e] | msg] s']; reflexivity.
  - unfold_m. cbn [client heapNext calls s0].
    set (s1 := mkSt (client s) (S (heapNext s)) _).
    rewrite (index_Ret _ _ _ s1 Hk Hfrom).
    rewrite Hnonce.
    rewrite (index_Ret _ _ _ s1 Hk Hkey).
    unfold uint64_of_int64. rewrite Hsign, Hsend.
    cbn [client heapNext calls s1].
    match goal with |- context [WaitMined w signed ?st] => exists st end.
    split; [reflexivity | split; [cbn [calls]; now rewrite <- !app_assoc |]].
    destruct (WaitMined w signed _) as [[[r | e] | msg] s']; reflexivity.
Qed.

(* ---------------------------------------------------------------- *)
(** *** Call options *)

(** X30.  The call options have no range test.  For a key number that is
    the index of an address [NewCallKeyOpts] returns options that are not
    pending, name no block and are from that address, with the options
    given applied in order; for any other key number it panics, also where
    [NewTXKeyOpts] refuses the key number and returns.  [NewCallOpts] does
    as [NewCallKeyOpts] for key 0.  None of them touches the client. *)
Theorem NewCallKeyOpts_range (w : World) (keyNum : Z) (o : list CallOpt)
        (s : St) :
  (forall from,
     0 <= keyNum ->
     nth_error (Addresses (client s)) (Z.to_nat keyNum) = Some from ->
     NewCallKeyOpts keyNum o s
       = (Ret (Some (fold_left (fun co f => f co) o (mkCallOpts false from None))),
          s))
  /\ (keyNum < 0 \/ Z.of_nat (List.length (Addresses (client s))) <= keyNum ->
      NewCallKeyOpts keyNum o s = (Panic "index out of range", s))
  /\ (keyNum < 0 \/ Z.of_nat (List.length (Addresses (client s))) < keyNum ->
      exists opts s', NewTXKeyOpts w keyNum [] s = (Ret (Some opts), s'))
  /\ NewCallOpts o s = NewCallKeyOpts 0 o s.
Proof.
  split; [| split; [| split]].
  - intros from Hk Hfrom. unfold NewCallKeyOpts.
    unfold bind at 1. unfold get at 1.
    now rewrite (bind_Ret _ _ _ _ _ (index_Ret _ _ _ s Hk Hfrom)).
  - intros H. unfold NewCallKeyOpts. unfold bind at 1. unfold get at 1.
    apply bind_Panic. now apply index_Panic.
  - intros H.
    destruct (NewTXKeyOpts_out_of_range w keyNum [] s) as [Hrun _]; [lia |].
    eexists. eexists. exact Hrun.
  - reflexivity.
Qed.

End Methods.

(* ================================================================== *)
(** ** The properties on the sample client *)

Module OnSample.

Import Sample.

Local Open Scope string_scope.

(** The client has two keys, 0 and 1; key number 2 makes [NewTXKeyOpts]
    panic, key number 3 gets the poisoned options. *)
Example NewTXKeyOpts_key_2 :
  NewTXKeyOpts TimeoutKeyNum ZeroGasSuggestedErr IsSimulatedNetwork node 2 [] (state "NONE" true)
    = (Panic "index out of range", state "NONE" true).
Proof. vm_compute. reflexivity. Qed.

Example NewTXKeyOpts_key_3 :
  fst (NewTXKeyOpts TimeoutKeyNum ZeroGasSuggestedErr IsSimulatedNetwork node 3 [] (state "NONE" true))
    = Ret (Some (poisoned
                   (Fundamental 100%nat
                      "keyNum is out of range. Expected 0-1. Got: 3"))).
Proof. vm_compute. reflexivity. Qed.

(** C3 (the code against the claim).  [decodeTransaction] fails with
    "no ABI method found" and JSON export is enabled, yet [Decode] does
    not write the hash to the file of reverted transactions: the test
    compares the failure with an error made on the spot.  The decoded
    record and the revert error are returned all the same. *)
Theorem Decode_noABIMethod_not_recorded :
  snd (decodeTransaction node tx receipt) = Some noABIMethod
  /\ TraceToJson (Cfg (client (state "NONE" true))) = true
  /\ fst (Decode ErrNoABIMethod node (Some tx) None (state "NONE" true))
     = Ret (Some decoded, Some reverted)
  /\ calls (snd (Decode ErrNoABIMethod node (Some tx) None (state "NONE" true)))
     = [RPC_TransactionReceipt "0xfeed"; RPC_TransactionReceipt "0xfeed";
        RPC_CallRevertReason "0xfeed"; ABI_decodeTransaction "0xfeed"]
  /\ filter isAppend
       (calls (snd (Decode ErrNoABIMethod node (Some tx) None (state "NONE" true)))) = [].
Proof. vm_compute. repeat split. Qed.

(** C10 (the claim as stated fails).  Without dynamic fees the caps are
    not touched: options passed in with a tip cap and a fee cap come back
    with both and with the gas price of the estimations, the two fee
    models mixed.  And the pending nonce [2^63] is a [uint64]; the nonce
    of the options is [int64(2^63)], which is [-2^63]. *)
Lemma configureTransactionOpts_claim_fails :
  (EIP1559DynamicFees (Network (Cfg (client (state "NONE" false)))) = false
   /\ exists o',
        configureTransactionOpts
          (Some (WithGasTipCap (Some 8) (WithGasFeeCap (Some 9) emptyOpts))) 7
          (mkEst (Some 1) (Some 3) (Some 2)) [] (state "NONE" false)
          = (Ret (Some o'), state "NONE" false)
        /\ OptGasPrice o' = Some 1
        /\ OptGasTipCap o' = Some 8
        /\ OptGasFeeCap o' = Some 9
        /\ mixesFeeModels o' = true)
  /\ (Int.is_uint64 (2 ^ 63)
      /\ exists o',
           configureTransactionOpts (Some emptyOpts) (2 ^ 63)
                                    (mkEst None None None) [] (state "NONE" true)
             = (Ret (Some o'), state "NONE" true)
           /\ Nonce o' = Some (- 2 ^ 63)
           /\ Nonce o' <> Some (2 ^ 63)).
Proof.
  split.
  - split; [reflexivity |].
    eexists. split; [vm_compute; reflexivity |]. repeat split.
  - split; [unfold Int.is_uint64, Int.two64; lia |].
    eexists. split; [vm_compute; reflexivity |].
    split; [reflexivity | discriminate].
Qed.

(* ---------------------------------------------------------------- *)
(** *** The theorems at work *)

Lemma decodeErrAllocated_sample (level : string) (fees : bool) :
  decodeErrAllocated node tx receipt (state level fees).
Proof. intros e H. injection H as <-. reflexivity. Qed.

Lemma Decode_trace_gating_witness :
  exists s',
    Decode ErrNoABIMethod node (Some tx) None (state "REVERTED" true)
      = (Ret (Some decoded, Some reverted), s')
    /\ traced (calls s') = 1%nat.
Proof.
  destruct (Decode_trace_gating ErrNoABIMethod node tx receipt
              (state "REVERTED" true) (mined "REVERTED" true)
              eq_refl eq_refl (decodeErrAllocated_sample _ _))
    as (s' & Hrun & _ & Hrev & _).
  exists s'. split; [exact Hrun |].
  apply Hrev; reflexivity.
Defined.

Lemma CalculateGasEstimations_fallback_witness :
  CalculateGasEstimations ZeroGasSuggestedErr IsSimulatedNetwork node (mkReq false 1 2 3 "standard")
                           (state "NONE" true)
    = (Ret (mkEst (Some 1) (Some 3) (Some 2)), state "NONE" true).
Proof.
  apply (CalculateGasEstimations_fallback ZeroGasSuggestedErr
           IsSimulatedNetwork node (mkReq false 1 2 3 "standard")
           (state "NONE" true)).
  right. reflexivity.
Defined.

Lemma CalculateGasEstimations_eip1559_failure_witness :
  exists est s',
    CalculateGasEstimations ZeroGasSuggestedErr IsSimulatedNetwork node (mkReq true 1 2 3 "standard")
                             (state "NONE" true) = (Ret est, s')
    /\ EstGasFeeCap est = Some 2
    /\ EstGasTipCap est = Some 3
    /\ EstGasPrice est = Some 1
    /\ EIP1559DynamicFees (Network (Cfg (client s'))) = false.
Proof.
  destruct (CalculateGasEstimations_eip1559_failure TimeoutKeyNum
              ZeroGasSuggestedErr ErrNoABIMethod IsSimulatedNetwork node
              (mkReq true 1 2 3 "standard") (state "NONE" true) noFeeMethod
              eq_refl eq_refl eq_refl eq_refl)
    as (est & s' & Hrun & Hfee & Htip & Hun & _).
  destruct (Hun eq_refl) as (Hoff & _ & Hprice & _).
  exists est, s'. repeat split; assumption.
Defined.

Lemma CalculateGasEstimations_zero_gas_witness :
  exists est s',
    CalculateGasEstimations ZeroGasSuggestedErr IsSimulatedNetwork node (mkReq true 1 2 3 "standard")
                             (state "NONE" true) = (Ret est, s')
    /\ GasPriceEstimationEnabled (Network (Cfg (client s'))) = false.
Proof.
  destruct (CalculateGasEstimations_zero_gas TimeoutKeyNum
              ZeroGasSuggestedErr ErrNoABIMethod IsSimulatedNetwork node
              (mkReq true 1 2 3 "standard") (state "NONE" true) zeroGas
              eq_refl eq_refl eq_refl)
    as (est & s' & Hrun & Hoff & _).
  - right. right. split; [reflexivity |]. split; [| reflexivity].
    exists noFeeMethod. split; reflexivity.
  - exists est, s'. split; assumption.
Defined.

Lemma Decode_debug_api_missing_witness :
  exists s',
    Decode ErrNoABIMethod node (Some tx) None (state "ALL" true)
      = (Ret (Some decoded, Some reverted), s')
    /\ TracingLevel (Cfg (client s')) = TracingLevel_None
    /\ traced (calls (after TimeoutKeyNum ZeroGasSuggestedErr ErrNoABIMethod
                            IsSimulatedNetwork
                            [CallDecode node (Some tx) None] s'))
       = traced (calls s').
Proof.
  destruct (Decode_debug_api_missing TimeoutKeyNum ZeroGasSuggestedErr
              ErrNoABIMethod IsSimulatedNetwork node tx receipt
              (state "ALL" true) (mined "ALL" true) noDebugAPI
              eq_refl eq_refl (decodeErrAllocated_sample _ _)
              (or_introl eq_refl) eq_refl eq_refl)
    as (s' & Hrun & _ & Hlvl & Hlater).
  exists s'. split; [exact Hrun |]. split; [exact Hlvl |].
  destruct (Hlater [CallDecode node (Some tx) None]) as (evs & Hc & _ & Hf).
  rewrite Hc, traced_app. unfold traced at 2. rewrite Hf. simpl. lia.
Defined.

Lemma getProposedTransactionOptions_pending_nonce_witness :
  exists opts nonceStatus estimations s' err,
    getProposedTransactionOptions ZeroGasSuggestedErr IsSimulatedNetwork node 1 (state "NONE" true)
      = (Ret (Some opts, nonceStatus, estimations), s')
    /\ carriedError opts = Some err
    /\ In err (Errors (client s')).
Proof.
  destruct (getProposedTransactionOptions_pending_nonce ZeroGasSuggestedErr
              IsSimulatedNetwork node 1 "0xA1" "key1" 7 5 (state "NONE" true))
    as [Hon _]; try reflexivity; [lia |].
  apply Hon; [reflexivity | lia].
Defined.

Lemma Decode_submission_failed_witness :
  exists wrapped,
    Decode ErrNoABIMethod node (Some tx) (Some submission) (state "REVERTED" true)
      = (Ret (None, Some wrapped),
         mkSt (aClient "REVERTED" true) 101%nat [ABI_DecodeCustomABIErr])
    /\ Strings.Contains (Err.Error wrapped) "InsufficientBalance" = true.
Proof.
  pose proof (Decode_submission_failed ErrNoABIMethod node (Some tx)
                submission (state "REVERTED" true) eq_refl) as H.
  change (DecodeCustomABIErr node submission)
    with ("InsufficientBalance", @None error) in H.
  destruct H as (wrapped & Hrun & _ & _ & Htext).
  exists wrapped. split; [exact Hrun | exact Htext].
Defined.

Lemma configureTransactionOpts_fee_model_witness :
  (exists o',
     configureTransactionOpts (Some emptyOpts) 7 (mkEst (Some 1) (Some 3) (Some 2))
                              [] (state "NONE" true)
       = (Ret (Some o'), state "NONE" true)
     /\ Nonce o' = Some 7
     /\ OptGasPrice o' = None
     /\ OptGasTipCap o' = Some 3
     /\ OptGasFeeCap o' = Some 2
     /\ mixesFeeModels o' = false)
  /\ (exists o',
        configureTransactionOpts (Some emptyOpts) 7
                                 (mkEst (Some 1) (Some 3) (Some 2))
                                 [] (state "NONE" false)
          = (Ret (Some o'), state "NONE" false)
        /\ Nonce o' = Some 7
        /\ OptGasPrice o' = Some 1
        /\ OptGasTipCap o' = None
        /\ OptGasFeeCap o' = None
        /\ mixesFeeModels o' = false).
Proof.
  split.
  - destruct (configureTransactionOpts_fee_model emptyOpts 7
                (mkEst (Some 1) (Some 3) (Some 2)) (state "NONE" true))
      as (o' & Hrun & Hdynamic & _ & Hmix & Hnonce).
    exists o'. split; [exact Hrun |].
    split; [apply Hnonce; unfold Int.two63; lia |].
    destruct (Hdynamic eq_refl) as (Hprice & Htip & Hfee).
    repeat split; try assumption.
    apply Hmix. left. reflexivity.
  - destruct (configureTransactionOpts_fee_model emptyOpts 7
                (mkEst (Some 1) (Some 3) (Some 2)) (state "NONE" false))
      as (o' & Hrun & _ & Hlegacy & Hmix & Hnonce).
    exists o'. split; [exact Hrun |].
    split; [apply Hnonce; unfold Int.two63; lia |].
    destruct (Hlegacy eq_refl) as (Hprice & Htip & Hfee).
    repeat split; try assumption.
    apply Hmix. right. split; reflexivity.
Defined.

End OnSample.

(* ================================================================== *)
(** ** The further properties on the sample client *)

Module MoreOnSample.

Import Sample.

Local Open Scope string_scope.

Lemma WaitMined_first_receipt_witness :
  WaitMined node tx (state "NONE" true) = (Ret (inl receipt), mined "NONE" true)
  /\ WaitMined carelessNode tx (state "NONE" true)
     = (Panic "nil pointer dereference", mined "NONE" true).
Proof.
  split.
  - apply (WaitMined_first_receipt node tx (state "NONE" true) 1 (Some receipt)).
    + reflexivity.
    + intros j Hj. exists notFound.
      destruct j as [| j]; [reflexivity | lia].
  - apply (WaitMined_first_receipt carelessNode tx (state "NONE" true) 1
             (Some unnumbered)).
    + reflexivity.
    + intros j Hj. exists notFound.
      destruct j as [| j]; [reflexivity | lia].
Defined.

Lemma quietNode_has_no_receipt :
  forall p, In p (polls quietNode) -> exists e, p = inr e.
Proof.
  intros p Hp. exists notFound. simpl in Hp.
  destruct Hp as [<- | [<- | [<- | []]]]; reflexivity.
Qed.

Lemma WaitMined_deadline_witness :
  fst (WaitMined quietNode tx (state "NONE" true)) = Ret (inr deadline).
Proof.
  rewrite (WaitMined_deadline quietNode tx (state "NONE" true)
             quietNode_has_no_receipt).
  reflexivity.
Defined.

Lemma Decode_accumulated_errors_witness :
  fst (Decode ErrNoABIMethod node (Some tx) None poisonedState)
    = Ret (None, Some (JoinError 100%nat [refused]))
  /\ Err.Is (JoinError 100%nat [refused]) refused = true.
Proof.
  destruct (Decode_accumulated_errors ErrNoABIMethod node (Some tx) None
              poisonedState) as [Hrun Hwraps]; [discriminate |].
  split.
  - rewrite Hrun. reflexivity.
  - apply Hwraps. left. reflexivity.
Defined.

Lemma Decode_nil_transaction_witness :
  Decode ErrNoABIMethod node None None (state "ALL" true)
    = (Ret (None, None), state "ALL" true).
Proof.
  apply (Decode_nil_transaction ErrNoABIMethod node (state "ALL" true)).
  reflexivity.
Defined.

Lemma Decode_not_mined_witness :
  fst (Decode ErrNoABIMethod quietNode (Some tx) None (state "ALL" true))
    = Ret (None, Some deadline)
  /\ traced (calls (snd (Decode ErrNoABIMethod quietNode (Some tx) None
                                (state "ALL" true)))) = 0%nat.
Proof.
  rewrite (Decode_not_mined ErrNoABIMethod quietNode tx (state "ALL" true)
             eq_refl quietNode_has_no_receipt).
  split; reflexivity.
Defined.

Lemma promptNode_decodeErrAllocated (level : string) (fees : bool) :
  decodeErrAllocated promptNode tx receipt (state level fees).
Proof. intros e H. discriminate H. Qed.

Lemma Decode_keeps_tracing_level_witness :
  exists s',
    Decode ErrNoABIMethod promptNode (Some tx) None (state "ALL" true)
      = (Ret (Some decoded, Some reverted), s')
    /\ client s' = aClient "ALL" true.
Proof.
  apply (Decode_keeps_tracing_level ErrNoABIMethod promptNode tx receipt
           (state "ALL" true)
           (mkSt (aClient "ALL" true) 100%nat [RPC_TransactionReceipt "0xfeed"])
           eq_refl eq_refl (promptNode_decodeErrAllocated _ _)).
  intros traceErr H. discriminate H.
Defined.

Lemma Decode_trace_files_witness :
  saved (calls (snd (Decode ErrNoABIMethod promptNode (Some tx) None
                            (state "ALL" true)))) = 1%nat.
Proof.
  pose proof (Decode_trace_files ErrNoABIMethod promptNode tx receipt
                (state "ALL" true)
                (mkSt (aClient "ALL" true) 100%nat
                      [RPC_TransactionReceipt "0xfeed"])
                eq_refl eq_refl (promptNode_decodeErrAllocated _ _)
                _ _ eq_refl) as H.
  vm_compute in H. vm_compute. lia.
Defined.

Lemma accumulated_errors_are_final_witness :
  exists joined,
    fst (Decode ErrNoABIMethod node (Some tx) None
           (after TimeoutKeyNum ZeroGasSuggestedErr ErrNoABIMethod
                  IsSimulatedNetwork
                  [CallNewTXKeyOpts node 1 []] poisonedState))
      = Ret (None, Some joined)
    /\ Err.Is joined refused = true.
Proof.
  destruct (accumulated_errors_are_final TimeoutKeyNum ZeroGasSuggestedErr
              ErrNoABIMethod IsSimulatedNetwork
              [CallNewTXKeyOpts node 1 []] poisonedState) as [_ Hfinal].
  destruct (Hfinal ltac:(discriminate) node (Some tx) None)
    as (joined & Hrun & Hwraps).
  exists joined. split.
  - rewrite Hrun. reflexivity.
  - apply Hwraps. left. reflexivity.
Defined.

Lemma getProposedTransactionOptions_nonce_failure_witness :
  getProposedTransactionOptions ZeroGasSuggestedErr IsSimulatedNetwork
                                downNode 1 (state "NONE" true)
    = (Ret (Some (poisoned unreachable), mkNonceStatus 0 0, mkEst None None None),
       mkSt (set_Errors [unreachable] (aClient "NONE" true)) 100%nat
            [RPC_PendingNonceAt "0xA1"]).
Proof.
  apply (getProposedTransactionOptions_nonce_failure ZeroGasSuggestedErr
           IsSimulatedNetwork downNode 1 "0xA1" unreachable
           (state "NONE" true)).
  - lia.
  - reflexivity.
  - left. reflexivity.
Defined.

Lemma configureTransactionOpts_gas_price_override_witness :
  exists o',
    configureTransactionOpts (Some emptyOpts) 7
                             (mkEst None (Some 2) (Some 30))
                             [WithGasPrice (Some 25)] (state "NONE" true)
      = (Ret (Some o'), state "NONE" true)
    /\ OptGasPrice o' = Some 25
    /\ OptGasTipCap o' = Some 2
    /\ OptGasFeeCap o' = Some 30.
Proof.
  apply (configureTransactionOpts_gas_price_override emptyOpts 7 25
           (mkEst None (Some 2) (Some 30)) (state "NONE" true)).
  reflexivity.
Defined.

Lemma NewTXKeyOpts_clean_witness :
  exists o' s',
    NewTXKeyOpts TimeoutKeyNum ZeroGasSuggestedErr IsSimulatedNetwork
                 promptNode 1 [] (state "NONE" true) = (Ret (Some o'), s')
    /\ Nonce o' = Some 5
    /\ From o' = "0xA1"
    /\ Errors (client s') = [].
Proof.
  destruct (NewTXKeyOpts_clean TimeoutKeyNum ZeroGasSuggestedErr
              IsSimulatedNetwork promptNode 1 "0xA1" "key1" 5 5 built
              (state "NONE" true))
    as (o' & s' & Hrun & Hnonce & Hfrom & _ & _ & Herrs).
  - lia.
  - reflexivity.
  - reflexivity.
  - reflexivity.
  - reflexivity.
  - right. lia.
  - reflexivity.
  - unfold Int.two63. lia.
  - exists o', s'. repeat split; assumption.
Defined.

Lemma CalculateGasEstimations_suggested_witness :
  CalculateGasEstimations ZeroGasSuggestedErr IsSimulatedNetwork promptNode
                          (mkReq true 1 2 3 "standard") (state "NONE" true)
    = (Ret (mkEst None (Some 2) (Some 30)),
       mkSt (aClient "NONE" true) 100%nat [RPC_SuggestedEIP1559Fees "standard"]).
Proof.
  destruct (CalculateGasEstimations_suggested ZeroGasSuggestedErr
              IsSimulatedNetwork promptNode (mkReq true 1 2 3 "standard")
              (state "NONE" true) eq_refl eq_refl) as [Heip _].
  apply Heip; reflexivity.
Defined.

Lemma CalculateGasEstimations_plain_failure_witness :
  CalculateGasEstimations ZeroGasSuggestedErr IsSimulatedNetwork downNode
                          (mkReq true 1 2 3 "standard") (state "NONE" false)
    = (Ret (mkEst (Some 1) None None),
       mkSt (aClient "NONE" false) 100%nat [RPC_SuggestedLegacyFees "standard"]).
Proof.
  destruct (CalculateGasEstimations_plain_failure ZeroGasSuggestedErr
              IsSimulatedNetwork downNode (mkReq true 1 2 3 "standard")
              (state "NONE" false) unreachable eq_refl eq_refl eq_refl)
    as [_ Hlegacy].
  apply Hlegacy; reflexivity.
Defined.

Lemma NewTXKeyOpts_refusal_stops_Decode_witness :
  exists opts err s',
    NewTXKeyOpts TimeoutKeyNum ZeroGasSuggestedErr IsSimulatedNetwork
                 node (-80001) [] (state "ALL" true) = (Ret (Some opts), s')
    /\ carriedError opts = Some err
    /\ exists joined s'',
         Decode ErrNoABIMethod node (Some tx) None s'
           = (Ret (None, Some joined), s'')
         /\ Err.Is joined err = true.
Proof.
  destruct (NewTXKeyOpts_refusal_stops_Decode TimeoutKeyNum
              ZeroGasSuggestedErr ErrNoABIMethod IsSimulatedNetwork
              node node (-80001) [] (Some tx) None (state "ALL" true))
    as (opts & err & s' & Hrun & Hcarried & _ & _ & joined & s'' & Hdec & His & _).
  - right. lia.
  - exists opts, err, s'. split; [exact Hrun |]. split; [exact Hcarried |].
    exists joined, s''. split; assumption.
Defined.

(** *** Validation of the configuration *)

Lemma ValidateConfig_accepts_witness :
  (TracingLevel validated = TracingLevel_None
   \/ TracingLevel validated = TracingLevel_Reverted
   \/ TracingLevel validated = TracingLevel_All)
  /\ (KeyFileSource rest = ""
      \/ KeyFileSource rest = KeyFileSourceFile package
      \/ KeyFileSource rest = KeyFileSourceBase64EnvVar package)
  /\ (KeyFileSource rest <> "" ->
      EphemeralAddrs rest = None \/ EphemeralAddrs rest = Some 0)
  /\ (KeyFileSource rest = KeyFileSourceFile package -> KeyFilePath rest <> "")
  /\ (GasPriceEstimationEnabled (Network validated) = true ->
      GasPriceEstimationBlocks rest <> 0
      /\ (priority validated = Priority_Degen package
          \/ priority validated = Priority_Fast package
          \/ priority validated = Priority_Standard package
          \/ priority validated = Priority_Slow package)).
Proof.
  apply (ValidateConfig_accepts package draft validated rest).
  vm_compute. reflexivity.
Defined.

Lemma ValidateConfig_writes_witness :
  validated
  = set_priority (priority validated)
                 (set_TracingLevel (TracingLevel validated) draft).
Proof.
  apply (ValidateConfig_writes package draft validated rest None).
  vm_compute. reflexivity.
Defined.

Lemma ValidateConfig_defaults_witness :
  (TracingLevel blank = "" ->
   TracingLevel defaulted = strings_ToUpper package TracingLevel_Reverted)
  /\ (GasPriceEstimationEnabled (Network blank) = true ->
      strings_ToLower package (priority blank) = "" ->
      priority defaulted = Priority_Standard package).
Proof.
  apply (ValidateConfig_defaults package blank defaulted rest).
  vm_compute. reflexivity.
Defined.

Lemma mapString_idempotent (f : ascii -> ascii) :
  (forall c, f (f c) = f c) ->
  forall s, mapString f (mapString f s) = mapString f s.
Proof.
  intros Hf. induction s as [| c s IH]; simpl; [reflexivity |].
  now rewrite Hf, IH.
Qed.

Lemma lowerAscii_idempotent (c : ascii) : lowerAscii (lowerAscii c) = lowerAscii c.
Proof.
  destruct c as [[] [] [] [] [] [] [] []]; vm_compute; reflexivity.
Qed.

Lemma upperAscii_idempotent (c : ascii) : upperAscii (upperAscii c) = upperAscii c.
Proof.
  destruct c as [[] [] [] [] [] [] [] []]; vm_compute; reflexivity.
Qed.

Lemma ValidateConfig_idempotent_witness :
  ValidateConfig package validated rest = (validated, None).
Proof.
  apply (ValidateConfig_idempotent package draft validated rest).
  - exact (mapString_idempotent lowerAscii lowerAscii_idempotent).
  - exact (mapString_idempotent upperAscii upperAscii_idempotent).
  - vm_compute. reflexivity.
  - vm_compute. reflexivity.
Defined.

(** *** Decoding the logs of a receipt *)

Lemma decodeContractLogs_metadata_witness :
  state "NONE" true = state "NONE" true
  /\ Forall (fun d => exists lo ev,
                 In lo [transferLog; approvalLog] /\ In ev abi
                 /\ decodedFrom lo ev d)
            [decodedTransfer; decodedApproval].
Proof.
  apply (decodeContractLogs_metadata codec package abi
           [transferLog; approvalLog] [abi; rev abi]
           [decodedTransfer; decodedApproval]
           (state "NONE" true) (state "NONE" true)).
  - apply Forall_cons; [| apply Forall_cons; [| apply Forall_nil]];
      intros ev Hev; simpl in *; tauto.
  - vm_compute. reflexivity.
Defined.

Lemma decodeContractLogs_skips_unclaimed_witness :
  decodeContractLogs codec package ([transferLog] ++ foreignLog :: [approvalLog])
                     abi ([abi] ++ rev abi :: [abi]) (state "NONE" true)
  = decodeContractLogs codec package ([transferLog] ++ [approvalLog])
                       abi ([abi] ++ [abi]) (state "NONE" true).
Proof.
  apply (decodeContractLogs_skips_unclaimed codec package abi
           [transferLog] [approvalLog] foreignLog [abi] [abi] (rev abi)
           (state "NONE" true)).
  - reflexivity.
  - intros ev Hev. simpl in *. tauto.
  - discriminate.
  - vm_compute. reflexivity.
Defined.

Lemma decodeContractLogs_app_witness :
  decodeContractLogs codec package ([transferLog] ++ [approvalLog; brokenLog])
                     abi ([abi] ++ [abi; abi]) (state "NONE" true)
  = (Ret ([], Some (WithMessage 100%nat undecodable "failed to decode log")),
     mkSt (aClient "NONE" true) 101%nat []).
Proof.
  apply (decodeContractLogs_app codec package abi
           [transferLog] [approvalLog; brokenLog] [abi] [abi; abi]
           [decodedTransfer] []
           (Some (WithMessage 100%nat undecodable "failed to decode log"))
           (state "NONE" true) (state "NONE" true)
           (mkSt (aClient "NONE" true) 101%nat [])).
  - reflexivity.
  - vm_compute. reflexivity.
  - vm_compute. reflexivity.
Defined.

Lemma decodeContractLogs_no_topics_witness :
  decodeContractLogs codec package [bareLog; transferLog] abi [abi; abi]
                     (state "NONE" true)
  = (Panic "index out of range", state "NONE" true).
Proof.
  destruct (decodeContractLogs_no_topics codec package abi bareLog
              [transferLog] [abi; abi] (state "NONE" true)) as [Hpanic _].
  apply Hpanic; [reflexivity | discriminate].
Defined.

Lemma decodeContractLogs_decode_error_witness :
  decodeContractLogs codec package [brokenLog; transferLog] abi [abi; abi]
                     (state "NONE" true)
  = (Ret ([], Some (WithMessage 100%nat undecodable "failed to decode log")),
     mkSt (aClient "NONE" true) 101%nat []).
Proof.
  apply (decodeContractLogs_decode_error codec package abi brokenLog
           [transferLog] [abi; abi] [transferEvent] [] approvalEvent
           "0x8c5be1e5" ["0xA0"; "0xA1"] undecodable (state "NONE" true));
    reflexivity.
Defined.

(** *** Transfers from a key *)

Lemma TransferETHFromKey_refused_witness :
  (exists err,
     TransferETHFromKey wallet node rest 5 "0xB0" (Some 10000) None
                        (state "NONE" true)
       = (Ret (Some err), mkSt (aClient "NONE" true) 102%nat [])
     /\ Err.Error err = "requested key: 5: failed to load private key"
     /\ Err.Is err (Fundamental 100%nat ErrNoKeyLoaded) = true)
  /\ (exists more,
        calls (snd (TransferETHFromKey wallet node rest 1 "0xB0" (Some 10000)
                                       None (state "NONE" true)))
        = RPC_NetworkID :: more).
Proof.
  split.
  - destruct (TransferETHFromKey_refused wallet node rest 5 "0xB0" (Some 10000)
                None (state "NONE" true)) as [Hrefused _].
    apply Hrefused. left. simpl. lia.
  - destruct (TransferETHFromKey_refused wallet node rest 1 "0xB0" (Some 10000)
                None (state "NONE" true)) as [_ Hasked].
    apply Hasked; simpl; lia.
Defined.

Lemma TransferETHFromKey_panics_witness :
  TransferETHFromKey wallet node rest 2 "0xB0" (Some 10000) None
                     (state "NONE" true)
  = (Panic "index out of range",
     mkSt (aClient "NONE" true) 100%nat [RPC_NetworkID]).
Proof.
  apply (TransferETHFromKey_panics wallet node rest 2 11155111 "0xB0"
           (Some 10000) None (state "NONE" true)).
  - right. simpl. lia.
  - reflexivity.
Defined.

Lemma TransferETHFromKey_sends_witness :
  exists s1,
    client s1 = client (state "NONE" true)
    /\ calls s1 = [RPC_NetworkID; RPC_EstimateGas "0xA1" "0xB0" (Some 10000);
                    RPC_SendTransaction "0xfeed"]
    /\ TransferETHFromKey (walletWith (inr noEstimate)) carelessNode rest 1 "0xB0"
                          (Some 10000) None (state "NONE" true)
       = match WaitMined carelessNode signedTransfer s1 with
         | (Ret (inl _), s') => (Ret None, s')
         | (Ret (inr err), s') => (Ret (Some err), s')
         | (Panic msg, s') => (Panic msg, s')
         end.
Proof.
  apply (TransferETHFromKey_sends (walletWith (inr noEstimate)) carelessNode rest
           1 11155111 21000 5 "0xB0" (Some 10000) None "0xA1" "key1"
           signedTransfer (state "NONE" true)).
  - lia.
  - reflexivity.
  - reflexivity.
  - reflexivity.
  - reflexivity.
  - right. split; [exists noEstimate; reflexivity | reflexivity].
  - reflexivity.
  - reflexivity.
Defined.

(** *** Call options *)

Lemma NewCallKeyOpts_range_witness :
  NewCallKeyOpts 1 [WithPending true; WithBlockNumber 42] (state "NONE" true)
    = (Ret (Some (mkCallOpts true "0xA1" (Some 42))), state "NONE" true)
  /\ NewCallKeyOpts 5 [] (state "NONE" true)
     = (Panic "index out of range", state "NONE" true)
  /\ exists opts s',
       NewTXKeyOpts TimeoutKeyNum ZeroGasSuggestedErr IsSimulatedNetwork
                    node 5 [] (state "NONE" true) = (Ret (Some opts), s').
Proof.
  split; [| split].
  - destruct (NewCallKeyOpts_range TimeoutKeyNum ZeroGasSuggestedErr
                IsSimulatedNetwork node 1 [WithPending true; WithBlockNumber 42]
                (state "NONE" true)) as [Hvalid _].
    apply (Hvalid "0xA1"); [lia | reflexivity].
  - destruct (NewCallKeyOpts_range TimeoutKeyNum ZeroGasSuggestedErr
                IsSimulatedNetwork node 5 [] (state "NONE" true))
      as (_ & Hpanic & _).
    apply Hpanic. right. simpl. lia.
  - destruct (NewCallKeyOpts_range TimeoutKeyNum ZeroGasSuggestedErr
                IsSimulatedNetwork node 5 [] (state "NONE" true))
      as (_ & _ & Hrefused & _).
    apply Hrefused. right. simpl. lia.
Defined.

End MoreOnSample.
